(** * History service of the workbench: navigation stack, global history,
      recently closed editors and last edit location

    A shallow embedding of
    [src/vs/workbench/services/history/browser/historyService.ts].

    The service is single threaded and every handler runs to completion, so
    each handler becomes a function from state to state.  The two places
    where the source awaits ([navigate] and [doReopenLastClosedEditor]) are
    made explicit: a navigation leaves the flag [navigatingInEditorStack]
    raised until [navigateSettled] runs, and the reopen chain is run against
    an oracle that tells which opens yield an editor pane.

    The opens that the service asks of the editor service, and the
    activations of [reopenLastClosedEditor], are recorded in the field
    [calls] of the state.  Context keys are written through to an external
    service and are not part of the state. *)

From Stdlib Require Import String ZArith List Bool Lia PeanoNat.
Import ListNotations.
Local Open Scope Z_scope.

Set Implicit Arguments.

(** ** Data model *)

(** A resource location.  Only the scheme is inspected by the service
    itself; every comparison goes through the host ([extUri]). *)
Record URI : Type := mkURI {
  scheme : string;
  path : list string
}.

(** Modelled from the spec: [EditorPaneSelectionCompareResult] is declared in
    [vs/workbench/common/editor], which is not among the sources; the spec
    names its members IDENTICAL, DIFFERENT and PARTIALLY_DIFFERENT. *)
Inductive EditorPaneSelectionCompareResult : Type :=
| IDENTICAL
| PARTIALLY_DIFFERENT
| DIFFERENT.

(** Modelled from the spec: [EditorPaneSelectionChangeReason] is declared in
    [vs/workbench/common/editor]; the spec lists USER, NAVIGATION, EDIT and
    UNKNOWN. *)
Inductive EditorPaneSelectionChangeReason : Type :=
| USER
| NAVIGATION
| EDIT
| UNKNOWN.

(** A selection snapshot is opaque to the service: a token that the host
    knows how to compare and to restore. *)
Definition IEditorPaneSelection : Type := nat.

(** A live editor handle.  [handle] is the identity of the object, which is
    what the listener maps are keyed by. *)
Record EditorInput : Type := mkEditorInput {
  handle : nat;
  input_resource : option URI;
  editorId : option string
}.

(** [IResourceEditorInput]: a resource and the one option the service reads. *)
Record IResourceEditorInput : Type := mkResourceInput {
  ri_resource : URI;
  ri_override : option string
}.

(** [IUntypedEditorInput]: what [toUntyped] may give back.  Only resource
    editor inputs pass [isResourceEditorInput]. *)
Inductive IUntypedEditorInput : Type :=
| UntypedResource (r : IResourceEditorInput)
| UntypedOther (tag : nat).

(** [EditorInput | IResourceEditorInput]; [isEditorInput] is the test for
    the first constructor. *)
Inductive EditorRef : Type :=
| Typed (e : EditorInput)
| Untyped (r : IResourceEditorInput).

Definition isEditorInput (r : EditorRef) : bool :=
  match r with Typed _ => true | Untyped _ => false end.

Inductive FileChangeType : Type := UPDATED | ADDED | DELETED.

(** A batch of watcher events. *)
Record FileChangesEvent : Type := mkFileChanges {
  changes : list (FileChangeType * URI)
}.

Inductive FileOperation : Type := CREATE | DELETE | MOVE | COPY | WRITE.

Record FileOperationTarget : Type := mkTarget {
  target_resource : URI;
  target_isFile : bool
}.

Record FileOperationEvent : Type := mkFileOperation {
  operation : FileOperation;
  op_resource : URI;
  op_target : option FileOperationTarget
}.

(** First argument of [matches]:
    [EditorInput | IResourceEditorInput | FileChangesEvent | FileOperationEvent]. *)
Inductive MatchArg : Type :=
| OfRef (r : EditorRef)
| OfChanges (ev : FileChangesEvent)
| OfOperation (ev : FileOperationEvent).

Record EditorSelectionState : Type := mkSelectionState {
  ss_editor : EditorInput;
  ss_selection : option IEditorPaneSelection;
  ss_reason : option EditorPaneSelectionChangeReason
}.

Record IEditorWithSelection : Type := mkEntry {
  entry_editor : EditorRef;
  entry_selection : option IEditorPaneSelection
}.

(** Options built by [doReopenLastClosedEditor]. *)
Record ReopenOptions : Type := mkReopenOptions {
  opt_pinned : bool;
  opt_sticky : bool;
  opt_index : option Z;
  opt_ignoreError : bool
}.

(** A record of the recently closed buffer.  [oid] is the identity of the
    JavaScript object: [remove] of [vs/base/common/arrays] looks an element
    up with [indexOf], that is by identity. *)
Record IRecentlyClosedEditor : Type := mkClosed {
  oid : nat;
  rc_editorId : option string;
  rc_editor : IUntypedEditorInput;
  rc_resource : option URI;
  rc_associatedResources : list URI;
  rc_index : Z;
  rc_sticky : bool
}.

(** What the service sees of an editor pane. *)
Record IEditorPane : Type := mkPane {
  pane_input : option EditorInput;
  pane_inputDisposed : bool;
  pane_withSelection : bool;
  pane_selection : option IEditorPaneSelection
}.

(** What a run calls, in order: the opens asked of the editor service and
    the activations of [reopenLastClosedEditor]. *)
Inductive Call : Type :=
| CallOpenEditor (location : IEditorWithSelection)
| CallReopenEditor (editor : IUntypedEditorInput) (options : ReopenOptions)
| CallReopenLastClosedEditor.

(** ** The host: capabilities the service consumes

    None of these is defined in the file at hand; each is a parameter. *)
Class Host : Type := {
  (** [a.matches(b)] of a live handle *)
  editor_matches : EditorInput -> EditorInput -> bool;
  (** [editor.toUntyped()] *)
  toUntyped : EditorInput -> option IUntypedEditorInput;
  (** [EditorResourceAccessor.getOriginalUri(editor)] *)
  getOriginalUri : EditorRef -> option URI;
  (** [uriIdentityService.extUri.isEqual] *)
  isEqual : URI -> URI -> bool;
  (** [uriIdentityService.extUri.isEqualOrParent(base, parentCandidate)] *)
  isEqualOrParent : URI -> URI -> bool;
  (** [event.contains(resource, type)] of a watcher batch *)
  contains : FileChangesEvent -> URI -> FileChangeType -> bool;
  (** [lifecycleService.phase >= LifecyclePhase.Restored] *)
  phaseRestored : bool;
  (** [fileService.hasProvider] *)
  hasProvider : URI -> bool;
  (** [pathService.defaultUriScheme] *)
  defaultUriScheme : string;
  (** [a.compare(b)] of a selection snapshot *)
  compare : IEditorPaneSelection -> IEditorPaneSelection ->
            EditorPaneSelectionCompareResult;
  (** [resourceExcludeMatcher.value.matches] *)
  excludeMatches : URI -> bool;
  (** [editorGroupService.isReady] *)
  groupsReady : bool;
  (** [editorService.getEditors(MOST_RECENTLY_ACTIVE)], editors only *)
  mostRecentlyActive : list EditorInput;
  (** what [loadHistoryFromStorage] returns *)
  storedEditorHistory : list IResourceEditorInput;
  (** [uri.toString()] *)
  uriToString : URI -> string;
  (** [editorGroupService.activeGroup.isSticky] *)
  activeGroupIsSticky : Z -> bool;
  (** [editorGroupService.activeGroup.contains] *)
  activeGroupContains : IUntypedEditorInput -> bool;
  (** whether [editorService.openEditor] resolves to an editor pane *)
  openYieldsPane : IUntypedEditorInput -> ReopenOptions -> bool
}.

(** Modelled from the spec: the scheme constants of [vs/base/common/network]
    (local file, remote file, user-data store). *)
Definition Schemas_file : string := "file".
Definition Schemas_vscodeRemote : string := "vscode-remote".
Definition Schemas_userData : string := "vscode-userdata".

(** ** JavaScript array operations on lists, indices in [Z] *)

(** [l[i]]: [undefined] for a negative or too large index. *)
Definition js_get {A : Type} (l : list A) (i : Z) : option A :=
  if i <? 0 then None else nth_error l (Z.to_nat i).

(** Normalisation of a relative index, as [slice] and [splice] do. *)
Definition js_clamp (len i : Z) : nat :=
  Z.to_nat (if i <? 0 then Z.max (len + i) 0 else Z.min i len).

(** [l.slice(0, e)] *)
Definition js_slice0 {A : Type} (l : list A) (e : Z) : list A :=
  firstn (js_clamp (Z.of_nat (length l)) e) l.

(** [l.splice(start, 0, x)] *)
Definition js_splice_insert {A : Type} (l : list A) (start : Z) (x : A)
  : list A :=
  let k := js_clamp (Z.of_nat (length l)) start in
  firstn k l ++ x :: skipn k l.

(** [l[i] = x] for an index that holds an element; the source only assigns
    where [l[i]] was read as defined. *)
Definition js_set {A : Type} (l : list A) (i : Z) (x : A) : list A :=
  match js_get l i with
  | Some _ => firstn (Z.to_nat i) l ++ x :: skipn (S (Z.to_nat i)) l
  | None => l
  end.

Definition option_to_list {A : Type} (o : option A) : list A :=
  match o with Some a => [a] | None => [] end.

(** ** Disposal listener registry

    [Map<EditorInput, DisposableStore>]: for each live handle, how many
    subscriptions its store holds. *)
Definition ListenerMap : Type := list (nat * nat).

Fixpoint onEditorDispose (editor : EditorInput) (m : ListenerMap)
  : ListenerMap :=
  match m with
  | [] => [(handle editor, 1%nat)]
  | (k, n) :: m' =>
      if Nat.eqb k (handle editor) then (k, S n) :: m'
      else (k, n) :: onEditorDispose editor m'
  end.

Definition clearOnEditorDispose (editor : MatchArg) (m : ListenerMap)
  : ListenerMap :=
  match editor with
  | OfRef (Typed e) =>
      filter (fun kn => negb (Nat.eqb (fst kn) (handle e))) m
  | _ => m (* only supported when passing in an actual editor input *)
  end.

(** ** State of the service

    The mutable fields of [HistoryService] that the operations below read or
    write, under their source names. *)
Record State : Type := mkState {
  editorNavigationStack : list IEditorWithSelection;
  editorNavigationStackIndex : Z;
  lastEditorNavigationStackIndex : Z;
  navigatingInEditorStack : bool;
  currentEditorSelectionState : option EditorSelectionState;
  editorNavigationStackListeners : ListenerMap;
  recentlyClosedEditors : list IRecentlyClosedEditor;
  ignoreEditorCloseEvent : bool;
  lastEditLocation : option IEditorWithSelection;
  history : option (list EditorRef);
  editorHistoryListeners : ListenerMap;
  calls : list Call
}.

(** The state of a freshly constructed service. *)
Definition initialState : State :=
  {| editorNavigationStack := [];
     editorNavigationStackIndex := -1;
     lastEditorNavigationStackIndex := -1;
     navigatingInEditorStack := false;
     currentEditorSelectionState := None;
     editorNavigationStackListeners := [];
     recentlyClosedEditors := [];
     ignoreEditorCloseEvent := false;
     lastEditLocation := None;
     history := None;
     editorHistoryListeners := [];
     calls := [] |}.

Definition with_stack (st : State) (v : list IEditorWithSelection) : State :=
  {| editorNavigationStack := v;
     editorNavigationStackIndex := editorNavigationStackIndex st;
     lastEditorNavigationStackIndex := lastEditorNavigationStackIndex st;
     navigatingInEditorStack := navigatingInEditorStack st;
     currentEditorSelectionState := currentEditorSelectionState st;
     editorNavigationStackListeners := editorNavigationStackListeners st;
     recentlyClosedEditors := recentlyClosedEditors st;
     ignoreEditorCloseEvent := ignoreEditorCloseEvent st;
     lastEditLocation := lastEditLocation st;
     history := history st;
     editorHistoryListeners := editorHistoryListeners st;
     calls := calls st |}.

Definition with_index (st : State) (v : Z) : State :=
  {| editorNavigationStack := editorNavigationStack st;
     editorNavigationStackIndex := v;
     lastEditorNavigationStackIndex := lastEditorNavigationStackIndex st;
     navigatingInEditorStack := navigatingInEditorStack st;
     currentEditorSelectionState := currentEditorSelectionState st;
     editorNavigationStackListeners := editorNavigationStackListeners st;
     recentlyClosedEditors := recentlyClosedEditors st;
     ignoreEditorCloseEvent := ignoreEditorCloseEvent st;
     lastEditLocation := lastEditLocation st;
     history := history st;
     editorHistoryListeners := editorHistoryListeners st;
     calls := calls st |}.

Definition with_lastIndex (st : State) (v : Z) : State :=
  {| editorNavigationStack := editorNavigationStack st;
     editorNavigationStackIndex := editorNavigationStackIndex st;
     lastEditorNavigationStackIndex := v;
     navigatingInEditorStack := navigatingInEditorStack st;
     currentEditorSelectionState := currentEditorSelectionState st;
     editorNavigationStackListeners := editorNavigationStackListeners st;
     recentlyClosedEditors := recentlyClosedEditors st;
     ignoreEditorCloseEvent := ignoreEditorCloseEvent st;
     lastEditLocation := lastEditLocation st;
     history := history st;
     editorHistoryListeners := editorHistoryListeners st;
     calls := calls st |}.

Definition with_navigating (st : State) (v : bool) : State :=
  {| editorNavigationStack := editorNavigationStack st;
     editorNavigationStackIndex := editorNavigationStackIndex st;
     lastEditorNavigationStackIndex := lastEditorNavigationStackIndex st;
     navigatingInEditorStack := v;
     currentEditorSelectionState := currentEditorSelectionState st;
     editorNavigationStackListeners := editorNavigationStackListeners st;
     recentlyClosedEditors := recentlyClosedEditors st;
     ignoreEditorCloseEvent := ignoreEditorCloseEvent st;
     lastEditLocation := lastEditLocation st;
     history := history st;
     editorHistoryListeners := editorHistoryListeners st;
     calls := calls st |}.

Definition with_current (st : State) (v : option EditorSelectionState)
  : State :=
  {| editorNavigationStack := editorNavigationStack st;
     editorNavigationStackIndex := editorNavigationStackIndex st;
     lastEditorNavigationStackIndex := lastEditorNavigationStackIndex st;
     navigatingInEditorStack := navigatingInEditorStack st;
     currentEditorSelectionState := v;
     editorNavigationStackListeners := editorNavigationStackListeners st;
     recentlyClosedEditors := recentlyClosedEditors st;
     ignoreEditorCloseEvent := ignoreEditorCloseEvent st;
     lastEditLocation := lastEditLocation st;
     history := history st;
     editorHistoryListeners := editorHistoryListeners st;
     calls := calls st |}.

Definition with_stackListeners (st : State) (v : ListenerMap) : State :=
  {| editorNavigationStack := editorNavigationStack st;
     editorNavigationStackIndex := editorNavigationStackIndex st;
     lastEditorNavigationStackIndex := lastEditorNavigationStackIndex st;
     navigatingInEditorStack := navigatingInEditorStack st;
     currentEditorSelectionState := currentEditorSelectionState st;
     editorNavigationStackListeners := v;
     recentlyClosedEditors := recentlyClosedEditors st;
     ignoreEditorCloseEvent := ignoreEditorCloseEvent st;
     lastEditLocation := lastEditLocation st;
     history := history st;
     editorHistoryListeners := editorHistoryListeners st;
     calls := calls st |}.

Definition with_closed (st : State) (v : list IRecentlyClosedEditor) : State :=
  {| editorNavigationStack := editorNavigationStack st;
     editorNavigationStackIndex := editorNavigationStackIndex st;
     lastEditorNavigationStackIndex := lastEditorNavigationStackIndex st;
     navigatingInEditorStack := navigatingInEditorStack st;
     currentEditorSelectionState := currentEditorSelectionState st;
     editorNavigationStackListeners := editorNavigationStackListeners st;
     recentlyClosedEditors := v;
     ignoreEditorCloseEvent := ignoreEditorCloseEvent st;
     lastEditLocation := lastEditLocation st;
     history := history st;
     editorHistoryListeners := editorHistoryListeners st;
     calls := calls st |}.

Definition with_ignoreClose (st : State) (v : bool) : State :=
  {| editorNavigationStack := editorNavigationStack st;
     editorNavigationStackIndex := editorNavigationStackIndex st;
     lastEditorNavigationStackIndex := lastEditorNavigationStackIndex st;
     navigatingInEditorStack := navigatingInEditorStack st;
     currentEditorSelectionState := currentEditorSelectionState st;
     editorNavigationStackListeners := editorNavigationStackListeners st;
     recentlyClosedEditors := recentlyClosedEditors st;
     ignoreEditorCloseEvent := v;
     lastEditLocation := lastEditLocation st;
     history := history st;
     editorHistoryListeners := editorHistoryListeners st;
     calls := calls st |}.

Definition with_lastEditLocation (st : State)
  (v : option IEditorWithSelection) : State :=
  {| editorNavigationStack := editorNavigationStack st;
     editorNavigationStackIndex := editorNavigationStackIndex st;
     lastEditorNavigationStackIndex := lastEditorNavigationStackIndex st;
     navigatingInEditorStack := navigatingInEditorStack st;
     currentEditorSelectionState := currentEditorSelectionState st;
     editorNavigationStackListeners := editorNavigationStackListeners st;
     recentlyClosedEditors := recentlyClosedEditors st;
     ignoreEditorCloseEvent := ignoreEditorCloseEvent st;
     lastEditLocation := v;
     history := history st;
     editorHistoryListeners := editorHistoryListeners st;
     calls := calls st |}.

Definition with_history (st : State) (v : option (list EditorRef)) : State :=
  {| editorNavigationStack := editorNavigationStack st;
     editorNavigationStackIndex := editorNavigationStackIndex st;
     lastEditorNavigationStackIndex := lastEditorNavigationStackIndex st;
     navigatingInEditorStack := navigatingInEditorStack st;
     currentEditorSelectionState := currentEditorSelectionState st;
     editorNavigationStackListeners := editorNavigationStackListeners st;
     recentlyClosedEditors := recentlyClosedEditors st;
     ignoreEditorCloseEvent := ignoreEditorCloseEvent st;
     lastEditLocation := lastEditLocation st;
     history := v;
     editorHistoryListeners := editorHistoryListeners st;
     calls := calls st |}.

Definition with_historyListeners (st : State) (v : ListenerMap) : State :=
  {| editorNavigationStack := editorNavigationStack st;
     editorNavigationStackIndex := editorNavigationStackIndex st;
     lastEditorNavigationStackIndex := lastEditorNavigationStackIndex st;
     navigatingInEditorStack := navigatingInEditorStack st;
     currentEditorSelectionState := currentEditorSelectionState st;
     editorNavigationStackListeners := editorNavigationStackListeners st;
     recentlyClosedEditors := recentlyClosedEditors st;
     ignoreEditorCloseEvent := ignoreEditorCloseEvent st;
     lastEditLocation := lastEditLocation st;
     history := history st;
     editorHistoryListeners := v;
     calls := calls st |}.

Definition with_calls (st : State) (v : list Call) : State :=
  {| editorNavigationStack := editorNavigationStack st;
     editorNavigationStackIndex := editorNavigationStackIndex st;
     lastEditorNavigationStackIndex := lastEditorNavigationStackIndex st;
     navigatingInEditorStack := navigatingInEditorStack st;
     currentEditorSelectionState := currentEditorSelectionState st;
     editorNavigationStackListeners := editorNavigationStackListeners st;
     recentlyClosedEditors := recentlyClosedEditors st;
     ignoreEditorCloseEvent := ignoreEditorCloseEvent st;
     lastEditLocation := lastEditLocation st;
     history := history st;
     editorHistoryListeners := editorHistoryListeners st;
     calls := v |}.

(** A call is appended to the log. *)
Definition emit (st : State) (c : Call) : State :=
  with_calls st (calls st ++ [c]).

Definition compareResult_eqb (a b : EditorPaneSelectionCompareResult) : bool :=
  match a, b with
  | IDENTICAL, IDENTICAL => true
  | PARTIALLY_DIFFERENT, PARTIALLY_DIFFERENT => true
  | DIFFERENT, DIFFERENT => true
  | _, _ => false
  end.

Definition isNavigationReason (r : option EditorPaneSelectionChangeReason)
  : bool :=
  match r with Some NAVIGATION => true | _ => false end.

Section Service.

Context {host : Host}.

(** ** Identity matcher *)

(** [matchesFile(resource, arg2)] *)
Definition matchesFile (resource : URI) (arg2 : MatchArg) : bool :=
  match arg2 with
  | OfChanges ev => contains ev resource DELETED
  | OfOperation ev => isEqualOrParent resource (op_resource ev)
  | OfRef (Typed e) =>
      match input_resource e with
      | None => false
      | Some inputResource =>
          if phaseRestored && negb (hasProvider inputResource) then false
          else isEqual inputResource resource
      end
  | OfRef (Untyped r) => isEqual (ri_resource r) resource
  end.

(** [matches(arg1, inputB)] *)
Definition matches (arg1 : MatchArg) (inputB : EditorRef) : bool :=
  match arg1 with
  | OfChanges ev =>
      match inputB with
      | Typed _ => false
      | Untyped b => contains ev (ri_resource b) DELETED
      end
  | OfOperation _ =>
      match inputB with
      | Typed _ => false
      | Untyped b => matchesFile (ri_resource b) arg1
      end
  | OfRef (Typed a) =>
      match inputB with
      | Typed b => editor_matches a b
      | Untyped b => matchesFile (ri_resource b) arg1
      end
  | OfRef (Untyped a) =>
      match inputB with
      | Typed _ => matchesFile (ri_resource a) (OfRef inputB)
      | Untyped b => isEqual (ri_resource a) (ri_resource b)
      end
  end.

(** ** Selection state *)

(** [this.justifiesNewNavigationEntry(other)] *)
Definition justifiesNewNavigationEntry (this other : EditorSelectionState)
  : bool :=
  if isNavigationReason (ss_reason other) then true
  else if negb (editor_matches (ss_editor this) (ss_editor other)) then true
  else match ss_selection this, ss_selection other with
       | Some thisSelection, Some otherSelection =>
           compareResult_eqb (compare otherSelection thisSelection) DIFFERENT
       | _, _ => true
       end.

(** ** Navigation stack *)

Definition MAX_EDITOR_NAVIGATION_STACK_ITEMS : Z := 50.

Definition setIndex (st : State) (value : Z) : State :=
  with_index
    (with_lastIndex st (editorNavigationStackIndex st)) value.

(** [doNavigate(location)]: the selection of the location is restored into
    the options and the editor is opened. *)
Definition doNavigate (st : State) (location : IEditorWithSelection) : State :=
  emit st (CallOpenEditor location).

(** [navigate()] up to its [await].  When the cursor addresses no entry the
    call of [doNavigate] throws on [location.selection] and the [finally]
    block lowers the flag at once. *)
Definition navigate (st : State) : State :=
  let st1 := with_navigating st true in
  match js_get (editorNavigationStack st1) (editorNavigationStackIndex st1) with
  | Some location => doNavigate st1 location
  | None => with_navigating st1 false
  end.

(** The [finally] block of [navigate], run when the open has settled. *)
Definition navigateSettled (st : State) : State :=
  with_navigating st false.

Definition forward (st : State) : State :=
  if Z.of_nat (length (editorNavigationStack st))
     >? editorNavigationStackIndex st + 1
  then navigate (setIndex st (editorNavigationStackIndex st + 1))
  else st.

Definition back (st : State) : State :=
  if editorNavigationStackIndex st >? 0
  then navigate (setIndex st (editorNavigationStackIndex st - 1))
  else st.

Definition last (st : State) : State :=
  if lastEditorNavigationStackIndex st =? -1 then back st
  else navigate (setIndex st (lastEditorNavigationStackIndex st)).

Definition string_eqb_opt (a : option string) (b : string) : bool :=
  match a with Some s => String.eqb s b | None => false end.

(** [preferResourceEditorInput(editor)] *)
Definition preferResourceEditorInput (editor : EditorRef) : option EditorRef :=
  let resource := getOriginalUri editor in
  let resourceScheme := option_map scheme resource in
  let hasValidResourceEditorInputScheme :=
    string_eqb_opt resourceScheme Schemas_file
    || string_eqb_opt resourceScheme Schemas_vscodeRemote
    || string_eqb_opt resourceScheme Schemas_userData
    || string_eqb_opt resourceScheme defaultUriScheme in
  if hasValidResourceEditorInputScheme then
    match editor with
    | Typed e =>
        match toUntyped e with
        | Some (UntypedResource untypedInput) => Some (Untyped untypedInput)
        | _ => Some editor
        end
    | Untyped _ => Some editor
    end
  else
    match editor with
    | Typed _ => Some editor
    | Untyped _ => None
    end.

(** [shouldReplaceEditorPaneSelection(stackEntry, newSelection)] *)
Definition shouldReplaceEditorPaneSelection (stackEntry : IEditorWithSelection)
  (newSelection : option IEditorPaneSelection) : bool :=
  match entry_selection stackEntry with
  | None => true
  | Some stackSelection =>
      match newSelection with
      | None => false
      | Some sel => compareResult_eqb (compare stackSelection sel) IDENTICAL
      end
  end.

(** The first half of [doAddOrReplaceInEditorNavigationStack]: whether the
    entry at the cursor is replaced. *)
Definition decideReplace (st : State) (editor : EditorRef)
  (selection : option IEditorPaneSelection) (forceReplace : bool) : bool :=
  match js_get (editorNavigationStack st) (editorNavigationStackIndex st) with
  | Some currentEntry =>
      if forceReplace then true
      else matches (OfRef (entry_editor currentEntry)) editor
           && shouldReplaceEditorPaneSelection currentEntry selection
  | None => false
  end.

(** The branch "Replace at current position": the new state and the removed
    entries. *)
Definition replaceAtCursor (st : State) (entry : IEditorWithSelection)
  : State * list IEditorWithSelection :=
  let stack := editorNavigationStack st in
  let index := editorNavigationStackIndex st in
  (with_stack st (js_set stack index entry), option_to_list (js_get stack index)).

(** The branch "Add to stack at current position".  The loop that collects
    the entries after the cursor reads [stack[i]] for [i] from [index + 1];
    the cursor is never below [-1], so these are the elements from position
    [index + 1] on. *)
Definition insertAfterCursor (st : State) (entry : IEditorWithSelection)
  : State * list IEditorWithSelection :=
  let stack := editorNavigationStack st in
  let index := editorNavigationStackIndex st in
  let notAtEnd := Z.of_nat (length stack) >? index + 1 in
  let removed1 := if notAtEnd then skipn (Z.to_nat (index + 1)) stack else [] in
  let stack1 := if notAtEnd then js_slice0 stack (index + 1) else stack in
  let stack2 := js_splice_insert stack1 (index + 1) entry in
  if Z.of_nat (length stack2) >? MAX_EDITOR_NAVIGATION_STACK_ITEMS then
    let st1 := with_stack st (tl stack2) in
    let st2 :=
      if lastEditorNavigationStackIndex st1 >=? 0
      then with_lastIndex st1 (lastEditorNavigationStackIndex st1 - 1)
      else st1 in
    (st2, removed1 ++ firstn 1 stack2)
  else
    (setIndex (with_stack st stack2) (index + 1), removed1).

(** [doAddOrReplaceInEditorNavigationStack(editor, selection, forceReplace)] *)
Definition doAddOrReplaceInEditorNavigationStack (st : State)
  (editor : EditorRef) (selection : option IEditorPaneSelection)
  (forceReplace : bool) : State :=
  let replace := decideReplace st editor selection forceReplace in
  match preferResourceEditorInput editor with
  | None => st
  | Some stackEditorInput =>
      let entry := mkEntry stackEditorInput selection in
      let '(st1, removedEntries) :=
        if replace then replaceAtCursor st entry
        else insertAfterCursor st entry in
      let listeners1 :=
        fold_left
          (fun m removedEntry =>
             clearOnEditorDispose (OfRef (entry_editor removedEntry)) m)
          removedEntries (editorNavigationStackListeners st1) in
      let listeners2 :=
        match stackEditorInput with
        | Typed e => onEditorDispose e listeners1
        | Untyped _ => listeners1
        end in
      with_stackListeners st1 listeners2
  end.

Definition addToEditorNavigationStack (st : State) (editor : EditorRef)
  (selection : option IEditorPaneSelection) : State :=
  if negb (navigatingInEditorStack st)
  then doAddOrReplaceInEditorNavigationStack st editor selection false
  else st.

Definition replaceInEditorNavigationStack (st : State) (editor : EditorRef)
  (selection : option IEditorPaneSelection) : State :=
  if negb (navigatingInEditorStack st)
  then doAddOrReplaceInEditorNavigationStack st editor selection true
  else st.

(** [handleSelectionAwareEditorEventInEditorNavigationStack]; [selection] is
    [editorPane.getSelection()] and [reason] is [event?.reason]. *)
Definition handleSelectionAwareEditorEventInEditorNavigationStack
  (st : State) (editor : EditorInput)
  (selection : option IEditorPaneSelection)
  (reason : option EditorPaneSelectionChangeReason) : State :=
  let stateCandidate := mkSelectionState editor selection reason in
  let pushes :=
    match currentEditorSelectionState st with
    | None => true
    | Some current => justifiesNewNavigationEntry current stateCandidate
    end in
  let st1 :=
    if pushes
    then addToEditorNavigationStack st (Typed editor) selection
    else replaceInEditorNavigationStack st (Typed editor) selection in
  with_current st1 (Some stateCandidate).

Definition handleNonSelectionAwareEditorEventInEditorNavigationStack
  (st : State) (editorPane : IEditorPane) : State :=
  match pane_input editorPane with
  | None => st
  | Some input =>
      let same :=
        match js_get (editorNavigationStack st)
                     (editorNavigationStackIndex st) with
        | Some currentStack =>
            matches (OfRef (Typed input)) (entry_editor currentStack)
        | None => false
        end in
      if same then st (* do not push same editor input again *)
      else addToEditorNavigationStack st (Typed input) None
  end.

(** [handleEventInEditorNavigationStack(editorPane, event)] *)
Definition handleEventInEditorNavigationStack (st : State)
  (editorPane : option IEditorPane)
  (reason : option EditorPaneSelectionChangeReason) : State :=
  let liveInput :=
    match editorPane with
    | Some pane =>
        match pane_input pane with
        | Some input => if pane_inputDisposed pane then None else Some input
        | None => None
        end
    | None => None
    end in
  let isSelectionAwareEditorPane :=
    match editorPane with
    | Some pane => pane_withSelection pane
    | None => false
    end in
  let selection :=
    match editorPane with
    | Some pane => pane_selection pane
    | None => None
    end in
  if navigatingInEditorStack st then
    match liveInput with
    | Some input =>
        if isSelectionAwareEditorPane
        then with_current st (Some (mkSelectionState input selection reason))
        else with_current st None
    | None => with_current st None
    end
  else
    match liveInput with
    | Some input =>
        if isSelectionAwareEditorPane
        then handleSelectionAwareEditorEventInEditorNavigationStack
               st input selection reason
        else
          match editorPane with
          | Some pane =>
              handleNonSelectionAwareEditorEventInEditorNavigationStack
                (with_current st None) pane
          | None => with_current st None
          end
    | None => with_current st None
    end.

(** [removeFromEditorNavigationStack(arg1)]: the new state and [removed]. *)
Definition removeFromEditorNavigationStack (st : State) (arg1 : MatchArg)
  : State * bool :=
  let stack := editorNavigationStack st in
  let removed := existsb (fun entry => matches arg1 (entry_editor entry)) stack in
  let kept :=
    filter (fun entry => negb (matches arg1 (entry_editor entry))) stack in
  let listeners :=
    if removed
    then clearOnEditorDispose arg1 (editorNavigationStackListeners st)
    else editorNavigationStackListeners st in
  let st1 := with_stackListeners (with_stack st kept) listeners in
  let st2 := with_index st1 (Z.of_nat (length kept) - 1) in
  (with_lastIndex st2 (-1), removed).

(** [moveInEditorNavigationStack(event)] *)
Definition moveInEditorNavigationStack (st : State)
  (event : FileOperationEvent) : State :=
  let '(st1, removed) := removeFromEditorNavigationStack st (OfOperation event) in
  match op_target event with
  | Some target =>
      if removed
      then addToEditorNavigationStack st1
             (Untyped (mkResourceInput (target_resource target) None)) None
      else st1
  | None => st1
  end.

(** ** Recently closed editors *)

(** [array.pop()]: the last element, if any, and the rest. *)
Definition js_pop {A : Type} (l : list A) : option A * list A :=
  (nth_error l (Nat.pred (length l)), removelast l).

(** [remove(array, element)] of [vs/base/common/arrays]: the first element
    that is the same object is taken out. *)
Fixpoint arrays_remove (array : list IRecentlyClosedEditor)
  (element : IRecentlyClosedEditor) : list IRecentlyClosedEditor :=
  match array with
  | [] => []
  | x :: rest =>
      if Nat.eqb (oid x) (oid element) then rest
      else x :: arrays_remove rest element
  end.

(** The options of [doReopenLastClosedEditor], after the special sticky
    handling. *)
Definition reopenOptions (lastClosedEditor : IRecentlyClosedEditor)
  : ReopenOptions :=
  let sticky := rc_sticky lastClosedEditor in
  let index := rc_index lastClosedEditor in
  let dropIndex :=
    (sticky && negb (activeGroupIsSticky index))
    || (negb sticky && activeGroupIsSticky index) in
  {| opt_pinned := true;
     opt_sticky := sticky;
     opt_index := if dropIndex then None else Some index;
     opt_ignoreError := true |}.

(** [doReopenLastClosedEditor(lastClosedEditor)], run with the answers of the
    host.  Its last statement calls [this.reopenLastClosedEditor()]; that
    method is the first argument here. *)
Definition doReopenLastClosedEditor
  (reopenLastClosedEditor : State -> option State)
  (st : State) (lastClosedEditor : IRecentlyClosedEditor) : option State :=
  let options := reopenOptions lastClosedEditor in
  let '(st1, editorPane) :=
    if negb (activeGroupContains (rc_editor lastClosedEditor)) then
      let st_open :=
        emit (with_ignoreClose st true)
             (CallReopenEditor (rc_editor lastClosedEditor) options) in
      (with_ignoreClose st_open false,
       openYieldsPane (rc_editor lastClosedEditor) options)
    else (st, false) in
  if editorPane then Some st1
  else
    reopenLastClosedEditor
      (with_closed st1
         (arrays_remove (recentlyClosedEditors st1) lastClosedEditor)).

(** [reopenLastClosedEditor()].  The method and [doReopenLastClosedEditor]
    call each other; [fuel] bounds the number of activations of the method,
    each of which is logged. *)
Fixpoint reopenLastClosedEditor (fuel : nat) (st : State) : option State :=
  match fuel with
  | O => None
  | S fuel' =>
      let st0 := emit st CallReopenLastClosedEditor in
      match js_pop (recentlyClosedEditors st0) with
      | (Some lastClosedEditor, rest) =>
          doReopenLastClosedEditor (reopenLastClosedEditor fuel')
            (with_closed st0 rest) lastClosedEditor
      | (None, _) => Some st0
      end
  end.

(** ** Last edit location *)

Definition rememberLastEditLocation (st : State) (editorPane : IEditorPane)
  : State :=
  match pane_input editorPane with
  | None => st
  | Some editor =>
      if pane_inputDisposed editorPane then st
      else with_lastEditLocation st
             (Some (mkEntry (Typed editor) (pane_selection editorPane)))
  end.

Definition openLastEditLocation (st : State) : State :=
  match lastEditLocation st with
  | Some location => doNavigate st location
  | None => st
  end.

(** ** Global history *)

Definition MAX_HISTORY_ITEMS : Z := 200.

Definition includeInHistory (editor : EditorRef) : bool :=
  match editor with
  | Typed _ => true (* include any non files *)
  | Untyped r => negb (excludeMatches (ri_resource r))
  end.

(** The history once [ensureHistoryLoaded] has run. *)
Definition loadedHistory (st : State) : list EditorRef :=
  match history st with Some h => h | None => [] end.

(** [addToHistory(editor, insertFirst)] after its call of
    [ensureHistoryLoaded]. *)
Definition addToLoadedHistory (st : State) (editor : EditorRef)
  (insertFirst : bool) : State :=
  match preferResourceEditorInput editor with
  | None => st
  | Some historyInput =>
      let h1 :=
        if insertFirst then historyInput :: loadedHistory st
        else loadedHistory st ++ [historyInput] in
      let overflow := Z.of_nat (length h1) >? MAX_HISTORY_ITEMS in
      let '(popped, h2) := if overflow then js_pop h1 else (None, h1) in
      let listeners1 :=
        match popped with
        | Some entry => clearOnEditorDispose (OfRef entry)
                          (editorHistoryListeners st)
        | None => editorHistoryListeners st
        end in
      let listeners2 :=
        match historyInput with
        | Typed e => onEditorDispose e listeners1
        | Untyped _ => listeners1
        end in
      with_historyListeners (with_history st (Some h2)) listeners2
  end.

(** The key of [handledEditors]: a template string of the resource and the
    editor identifier, where [undefined] prints as such. *)
Definition handledKey (resource : URI) (id : option string) : string :=
  (uriToString resource ++ "/"
   ++ match id with Some s => s | None => "undefined" end)%string.

(** [loadHistory()] *)
Definition loadHistory (st : State) : State :=
  let st0 := with_history st (Some []) in
  let openedEditorsLru := rev mostRecentlyActive in
  let st1 :=
    fold_left
      (fun s editor =>
         if includeInHistory (Typed editor)
         then addToLoadedHistory s (Typed editor) true
         else s)
      openedEditorsLru st0 in
  let handledEditors :=
    flat_map
      (fun editor =>
         if includeInHistory (Typed editor) then
           match input_resource editor with
           | Some r => [handledKey r (editorId editor)]
           | None => []
           end
         else [])
      openedEditorsLru in
  fold_left
    (fun s editor =>
       if existsb
            (String.eqb (handledKey (ri_resource editor) (ri_override editor)))
            handledEditors
       then s
       else addToLoadedHistory s (Untyped editor) false)
    storedEditorHistory st1.

(** [ensureHistoryLoaded()].  When the editor groups are not ready the
    history stays empty until [whenReady] resolves; that later load is a
    step of its own and is not part of this handler. *)
Definition ensureHistoryLoaded (st : State) : State :=
  match history st with
  | Some _ => st
  | None =>
      let st1 := with_history st (Some []) in
      if groupsReady then loadHistory st1 else st1
  end.

Definition addToHistory (st : State) (editor : EditorRef)
  (insertFirst : bool) : State :=
  addToLoadedHistory (ensureHistoryLoaded st) editor insertFirst.

(** [removeFromHistory(arg1)]: the new state and [removed]. *)
Definition removeFromHistory (st : State) (arg1 : MatchArg) : State * bool :=
  let st1 := ensureHistoryLoaded st in
  let h := loadedHistory st1 in
  let removed := existsb (matches arg1) h in
  let kept := filter (fun entry => negb (matches arg1 entry)) h in
  let listeners :=
    if removed then clearOnEditorDispose arg1 (editorHistoryListeners st1)
    else editorHistoryListeners st1 in
  (with_historyListeners (with_history st1 (Some kept)) listeners, removed).

(** [handleEditorEventInHistory(editorPane)] *)
Definition handleEditorEventInHistory (st : State)
  (editorPane : option IEditorPane) : State :=
  match editorPane with
  | None => st
  | Some pane =>
      match pane_input pane with
      | None => st
      | Some editor =>
          if pane_inputDisposed pane || negb (includeInHistory (Typed editor))
          then st
          else
            let st1 := fst (removeFromHistory st (OfRef (Typed editor))) in
            addToHistory st1 (Typed editor) true
      end
  end.

(** [moveInHistory(event)] *)
Definition moveInHistory (st : State) (event : FileOperationEvent) : State :=
  let '(st1, removed) := removeFromHistory st (OfOperation event) in
  match op_target event with
  | Some target =>
      if removed
      then addToHistory st1
             (Untyped (mkResourceInput (target_resource target) None)) true
      else st1
  | None => st1
  end.

Definition clearRecentlyOpened (st : State) : State :=
  with_historyListeners (with_history st (Some [])) [].

(** ** [clear()] *)
Definition clear (st : State) : State :=
  let st1 := clearRecentlyOpened st in
  let st2 := with_index st1 (-1) in
  let st3 := with_lastIndex st2 (-1) in
  let st4 := with_stack st3 [] in
  let st5 := with_stackListeners st4 [] in
  with_closed st5 [].

(** ** Events that reach the navigation stack

    The public operations, the end of a navigation, an editor or selection
    change of the active pane, a removal (delete event, failed open or
    disposed editor), a move, and [clear]. *)
Inductive NavigationEvent : Type :=
| Back
| Forward
| Last
| NavigationSettled
| EditorEvent (editorPane : option IEditorPane)
              (reason : option EditorPaneSelectionChangeReason)
| Removal (arg1 : MatchArg)
| Move (event : FileOperationEvent)
| Clear.

Definition navigationStep (st : State) (ev : NavigationEvent) : State :=
  match ev with
  | Back => back st
  | Forward => forward st
  | Last => last st
  | NavigationSettled => navigateSettled st
  | EditorEvent editorPane reason =>
      handleEventInEditorNavigationStack st editorPane reason
  | Removal arg1 => fst (removeFromEditorNavigationStack st arg1)
  | Move event => moveInEditorNavigationStack st event
  | Clear => clear st
  end.

(** The service after a sequence of events, from its initial state. *)
Definition runNavigation (events : list NavigationEvent) : State :=
  fold_left navigationStep events initialState.

End Service.

(** * The rest of the service

    The handlers around the stacks: file events, editor close events, the
    active editor and its selection bursts, the rest of the global history,
    the queries on it, and the recently used editors. *)

(** ** Further data *)

Definition GroupIdentifier : Type := Z.

Record IEditorIdentifier : Type := mkIdentifier {
  id_editor : EditorInput;
  id_groupId : GroupIdentifier
}.

(** Modelled from the spec: [EditorCloseContext] is declared in
    [vs/workbench/common/editor]; the spec lists NORMAL, REPLACE and MOVE. *)
Inductive EditorCloseContext : Type :=
| CLOSE_NORMAL
| CLOSE_REPLACE
| CLOSE_MOVE.

Record IEditorCloseEvent : Type := mkCloseEvent {
  close_editor : EditorInput;
  close_context : EditorCloseContext;
  close_index : Z;
  close_sticky : bool
}.

(** What [getOriginalUri] answers with [supportSideBySide: BOTH]: one
    resource, or the two sides of a side by side editor. *)
Inductive OriginalUris : Type :=
| SingleUri (resource : URI)
| BothUris (primary secondary : option URI).

(** The active editor pane with the group it belongs to. *)
Record ActiveEditorPane : Type := mkActivePane {
  active_pane : IEditorPane;
  active_group : option GroupIdentifier
}.

(** What the editor groups answer at one call: the most recently active
    editors across all groups, and, for the identifier of a group that
    exists, the most recently active editors of that group. *)
Record EditorGroups : Type := mkEditorGroups {
  allMostRecentlyActive : list IEditorIdentifier;
  getGroup : GroupIdentifier -> option (list EditorInput)
}.

(** Further capabilities the service consumes. *)
Class Workbench : Type := {
  (** [event.gotDeleted()] of a watcher batch *)
  gotDeleted : FileChangesEvent -> bool;
  (** [EditorResourceAccessor.getOriginalUri(editor,
      { supportSideBySide: SideBySideEditor.BOTH })] *)
  getOriginalUriBothSides : EditorInput -> option OriginalUris;
  (** [EditorResourceAccessor.getOriginalUri(editor, { filterByScheme })] *)
  getOriginalUriFilteredByScheme : EditorInput -> string -> option URI;
  (** [isSideBySideEditorInput(editor)], with [primary] and [secondary] *)
  sideBySide : EditorInput -> option (EditorInput * EditorInput);
  (** [contextService.getWorkspace().folders], their [uri] *)
  workspaceFolders : list URI;
  (** [contextService.getWorkspaceFolder(resource)], its [uri] *)
  getWorkspaceFolder : URI -> option URI
}.

(** The service with the editor it saw active last and whether it listens
    to the selection of the active pane. *)
Record ActiveEditorTracker : Type := mkTracker {
  service : State;
  lastActiveEditor : option IEditorIdentifier;
  listensToSelection : bool
}.

(** The state of the recently used editors, and the opens it asks of a
    group ([None]: the active group). *)
Record RecentlyUsedState : Type := mkRecentlyUsed {
  recentlyUsedEditorsStack : option (list IEditorIdentifier);
  recentlyUsedEditorsStackIndex : Z;
  recentlyUsedEditorsInGroupStack : option (list IEditorIdentifier);
  recentlyUsedEditorsInGroupStackIndex : Z;
  navigatingInRecentlyUsedEditorsStack : bool;
  navigatingInRecentlyUsedEditorsInGroupStack : bool;
  groupOpens : list (option GroupIdentifier * EditorInput)
}.

Definition initialRecentlyUsed : RecentlyUsedState :=
  {| recentlyUsedEditorsStack := None;
     recentlyUsedEditorsStackIndex := 0;
     recentlyUsedEditorsInGroupStack := None;
     recentlyUsedEditorsInGroupStackIndex := 0;
     navigatingInRecentlyUsedEditorsStack := false;
     navigatingInRecentlyUsedEditorsInGroupStack := false;
     groupOpens := [] |}.

Definition option_string_eqb (a b : option string) : bool :=
  match a, b with
  | Some x, Some y => String.eqb x y
  | None, None => true
  | _, _ => false
  end.

Definition isEditReason (r : EditorPaneSelectionChangeReason) : bool :=
  match r with EDIT => true | _ => false end.

(** ** Selection bursts *)

(** The merge callback of the debounced selection listener: [last] is what
    the burst has merged so far. *)
Definition mergeSelectionChange (last : option EditorPaneSelectionChangeReason)
  (current : EditorPaneSelectionChangeReason)
  : EditorPaneSelectionChangeReason :=
  match last with
  | Some EDIT => EDIT
  | _ => current
  end.

(** Modelled from the spec: [Event.debouncedListener] lives in
    [vs/base/common/event]; the events of one turn are merged one after the
    other, starting from nothing, and no event gives no call. *)
Definition mergeBurst (burst : list EditorPaneSelectionChangeReason)
  : option EditorPaneSelectionChangeReason :=
  fold_left (fun merged current => Some (mergeSelectionChange merged current))
            burst None.

Section ServiceRest.

Context {host : Host} {workbench : Workbench}.

(** ** Mouse buttons *)

Definition onMouseDown (st : State) (button : Z) : State :=
  if button =? 3 then back st
  else if button =? 4 then forward st
  else st.

(** ** Recently closed editors: recording *)

Definition MAX_RECENTLY_CLOSED_EDITORS : Z := 20.

(** The filter of [removeFromRecentlyClosedEditors]: whether a record
    stays. *)
Definition keepsRecentlyClosed (arg1 : MatchArg)
  (recentlyClosedEditor : IRecentlyClosedEditor) : bool :=
  let differentIdentifiers :=
    match arg1 with
    | OfRef (Typed e) =>
        negb (option_string_eqb (rc_editorId recentlyClosedEditor)
                                (editorId e))
    | _ => false
    end in
  if differentIdentifiers then true
  else if match rc_resource recentlyClosedEditor with
          | Some resource => matchesFile resource arg1
          | None => false
          end
  then false
  else if existsb (fun associatedResource =>
                     matchesFile associatedResource arg1)
                  (rc_associatedResources recentlyClosedEditor)
  then false
  else true.

Definition removeFromRecentlyClosedEditors (st : State) (arg1 : MatchArg)
  : State :=
  with_closed st (filter (keepsRecentlyClosed arg1) (recentlyClosedEditors st)).

(** The record that [onDidCloseEditor] appends; [object] is the identity of
    the new object. *)
Definition closedEditorRecord (event : IEditorCloseEvent)
  (untypedEditor : IUntypedEditorInput) (object : nat)
  : IRecentlyClosedEditor :=
  let editor := close_editor event in
  {| oid := object;
     rc_editorId := editorId editor;
     rc_editor := untypedEditor;
     rc_resource := getOriginalUri (Typed editor);
     rc_associatedResources :=
       match getOriginalUriBothSides editor with
       | Some (SingleUri editorResource) => [editorResource]
       | Some (BothUris primary secondary) =>
           option_to_list primary ++ option_to_list secondary
       | None => []
       end;
     rc_index := close_index event;
     rc_sticky := close_sticky event |}.

(** [onDidCloseEditor(event)] *)
Definition onDidCloseEditor (st : State) (event : IEditorCloseEvent)
  (object : nat) : State :=
  if ignoreEditorCloseEvent st then st
  else
    match close_context event with
    | CLOSE_REPLACE | CLOSE_MOVE => st
    | CLOSE_NORMAL =>
        match toUntyped (close_editor event) with
        | None => st
        | Some untypedEditor =>
            let st1 :=
              removeFromRecentlyClosedEditors st
                (OfRef (Typed (close_editor event))) in
            let pushed :=
              recentlyClosedEditors st1
              ++ [closedEditorRecord event untypedEditor object] in
            with_closed st1
              (if Z.of_nat (length pushed) >? MAX_RECENTLY_CLOSED_EDITORS
               then tl pushed
               else pushed)
        end
    end.

(** ** File events *)

(** [remove(arg1)].  Its last call, [removeFromRecentlyOpened], only talks
    to the workspaces service. *)
Definition remove (st : State) (arg1 : MatchArg) : State :=
  let st1 := fst (removeFromHistory st arg1) in
  let st2 := fst (removeFromEditorNavigationStack st1 arg1) in
  removeFromRecentlyClosedEditors st2 arg1.

(** [move(event)] *)
Definition move (st : State) (event : FileOperationEvent) : State :=
  moveInEditorNavigationStack (moveInHistory st event) event.

(** [onDidFilesChange(event)].  A MOVE always carries its target. *)
Definition onDidFilesChange (st : State)
  (event : FileChangesEvent + FileOperationEvent) : State :=
  match event with
  | inl changesEvent =>
      if gotDeleted changesEvent then remove st (OfChanges changesEvent)
      else st
  | inr operationEvent =>
      match operation operationEvent with
      | DELETE => remove st (OfOperation operationEvent)
      | MOVE =>
          match op_target operationEvent with
          | Some target =>
              if target_isFile target then move st operationEvent else st
          | None => st
          end
      | _ => st
      end
  end.

(** ** The active editor *)

(** [matchesEditor(identifier, editorPane)] *)
Definition matchesEditor (identifier : IEditorIdentifier)
  (editorPane : option ActiveEditorPane) : bool :=
  match editorPane with
  | None => false
  | Some pane =>
      match active_group pane with
      | None => false
      | Some groupId =>
          if negb (id_groupId identifier =? groupId) then false
          else
            match pane_input (active_pane pane) with
            | Some input => editor_matches (id_editor identifier) input
            | None => false
            end
      end
  end.

(** [handleActiveEditorChange(editorPane)] *)
Definition handleActiveEditorChange (st : State)
  (editorPane : option IEditorPane) : State :=
  handleEventInEditorNavigationStack
    (handleEditorEventInHistory st editorPane) editorPane None.

(** [onDidActiveEditorChange()], with [editorService.activeEditorPane]. *)
Definition onDidActiveEditorChange (tracker : ActiveEditorTracker)
  (activeEditorPane : option ActiveEditorPane) : ActiveEditorTracker :=
  let same :=
    match lastActiveEditor tracker with
    | Some identifier => matchesEditor identifier activeEditorPane
    | None => false
    end in
  if same then tracker
  else
    {| service :=
         handleActiveEditorChange (service tracker)
           (option_map active_pane activeEditorPane);
       lastActiveEditor :=
         match activeEditorPane with
         | Some pane =>
             match pane_input (active_pane pane), active_group pane with
             | Some input, Some groupId => Some (mkIdentifier input groupId)
             | _, _ => None
             end
         | None => None
         end;
       listensToSelection :=
         match activeEditorPane with
         | Some pane => pane_withSelection (active_pane pane)
         | None => false
         end |}.

(** The listener of the merged selection event of the active pane. *)
Definition onMergedSelectionChange (st : State) (editorPane : IEditorPane)
  (reason : EditorPaneSelectionChangeReason) : State :=
  let st1 :=
    handleEventInEditorNavigationStack st (Some editorPane) (Some reason) in
  if isEditReason reason then rememberLastEditLocation st1 editorPane
  else st1.

(** The selection events of one turn reach the service as one. *)
Definition onSelectionBurst (st : State) (editorPane : IEditorPane)
  (burst : list EditorPaneSelectionChangeReason) : State :=
  match mergeBurst burst with
  | Some reason => onMergedSelectionChange st editorPane reason
  | None => st
  end.

(** ** Global history: the rest *)

(** The loop of [replaceInHistory]; [replaced] tells whether the
    replacements are in already. *)
Fixpoint replaceEntries (editor : MatchArg) (replacements : list EditorRef)
  (replaced : bool) (entries : list EditorRef) : list EditorRef :=
  match entries with
  | [] => if replaced then [] else replacements
  | entry :: rest =>
      if matches editor entry then
        (if replaced then [] else replacements)
        ++ replaceEntries editor replacements true rest
      else if existsb (fun replacement => matches (OfRef replacement) entry)
                      replacements
      then replaceEntries editor replacements replaced rest
      else entry :: replaceEntries editor replacements replaced rest
  end.

(** [replaceInHistory(editor, ...replacements)] *)
Definition replaceInHistory (st : State) (editor : MatchArg)
  (replacements : list EditorRef) : State :=
  let st1 := ensureHistoryLoaded st in
  let h := loadedHistory st1 in
  let listeners :=
    if existsb (matches editor) h
    then clearOnEditorDispose editor (editorHistoryListeners st1)
    else editorHistoryListeners st1 in
  with_historyListeners
    (with_history st1 (Some (replaceEntries editor replacements false h)))
    listeners.

(** The resource inputs that stand for the sides of a side by side
    editor. *)
Definition sideResourceInputs (primary secondary : EditorInput)
  : list EditorRef :=
  let sideInputs :=
    if editor_matches primary secondary then [primary]
    else [primary; secondary] in
  flat_map
    (fun sideInput =>
       match preferResourceEditorInput (Typed sideInput) with
       | Some (Untyped candidateResourceInput) =>
           [Untyped candidateResourceInput]
       | _ => []
       end)
    sideInputs.

(** [updateHistoryOnEditorDispose(editor)] *)
Definition updateHistoryOnEditorDispose (st : State) (editor : EditorInput)
  : State :=
  match sideBySide editor with
  | None => fst (removeFromHistory st (OfRef (Typed editor)))
  | Some (primary, secondary) =>
      replaceInHistory st (OfRef (Typed editor))
        (sideResourceInputs primary secondary)
  end.

(** [removeExcludedFromHistory()].  Only resource inputs are ever excluded,
    and they have no listeners to clear. *)
Definition removeExcludedFromHistory (st : State) : State :=
  let st1 := ensureHistoryLoaded st in
  with_history st1 (Some (filter includeInHistory (loadedHistory st1))).

(** [getHistory()]: the state after loading, and the list. *)
Definition getHistory (st : State) : State * list EditorRef :=
  let st1 := ensureHistoryLoaded st in
  (st1, loadedHistory st1).

(** [saveState()]: what is handed to the storage service, if anything. *)
Definition saveState (st : State) : option (list IResourceEditorInput) :=
  match history st with
  | None => None
  | Some h =>
      Some (flat_map
              (fun editor =>
                 match editor with
                 | Typed _ => []
                 | Untyped r => [r]
                 end)
              h)
  end.

(** ** Last active file and workspace root *)



(** [!schemeFilter || resource.scheme === schemeFilter] *)
Definition passesSchemeFilter (schemeFilter : option string) (resource : URI)
  : bool :=
  match schemeFilter with
  | None => true
  | Some s => String.eqb s "" || String.eqb (scheme resource) s
  end.

(** The loop of [getLastActiveWorkspaceRoot] over the history. *)
Fixpoint lastActiveRootIn (h : list EditorRef) (schemeFilter : option string)
  : option URI :=
  match h with
  | [] => None
  | Typed _ :: rest => lastActiveRootIn rest schemeFilter
  | Untyped input :: rest =>
      if negb (passesSchemeFilter schemeFilter (ri_resource input))
      then lastActiveRootIn rest schemeFilter
      else
        match getWorkspaceFolder (ri_resource input) with
        | Some resourceWorkspace => Some resourceWorkspace
        | None => lastActiveRootIn rest schemeFilter
        end
  end.

(** [getLastActiveWorkspaceRoot(schemeFilter)] *)
Definition getLastActiveWorkspaceRoot (st : State)
  (schemeFilter : option string) : State * option URI :=
  match workspaceFolders with
  | [] => (st, None)
  | [resource] =>
      (st, if passesSchemeFilter schemeFilter resource then Some resource
           else None)
  | folders =>
      let '(st1, h) := getHistory st in
      match lastActiveRootIn h schemeFilter with
      | Some root => (st1, Some root)
      | None => (st1, find (passesSchemeFilter schemeFilter) folders)
      end
  end.

End ServiceRest.

(** ** Context keys *)

(** The four context keys of the service. *)
Record ContextKeys : Type := mkContextKeys {
  canNavigateBack : bool;
  canNavigateForward : bool;
  canNavigateToLastEditLocation : bool;
  canReopenClosedEditor : bool
}.

(** [updateContextKeys()]: what the keys are set to. *)
Definition updateContextKeys (st : State) : ContextKeys :=
  {| canNavigateBack :=
       (Z.of_nat (length (editorNavigationStack st)) >? 0)
       && (editorNavigationStackIndex st >? 0);
     canNavigateForward :=
       (Z.of_nat (length (editorNavigationStack st)) >? 0)
       && (editorNavigationStackIndex st
           <? Z.of_nat (length (editorNavigationStack st)) - 1);
     canNavigateToLastEditLocation :=
       match lastEditLocation st with Some _ => true | None => false end;
     canReopenClosedEditor :=
       Z.of_nat (length (recentlyClosedEditors st)) >? 0 |}.

(** ** Recently used editors *)

(** [ensureRecentlyUsedStack(indexModifier, groupId)]: the new state, the
    editors and the index. *)
Definition ensureRecentlyUsedStack (groups : EditorGroups)
  (st : RecentlyUsedState) (indexModifier : Z -> Z)
  (groupId : option GroupIdentifier)
  : RecentlyUsedState * list IEditorIdentifier * Z :=
  let group :=
    match groupId with
    | Some id => option_map (fun editors => (id, editors)) (getGroup groups id)
    | None => None
    end in
  let '(editors, index) :=
    match group with
    | None =>
        (match recentlyUsedEditorsStack st with
         | Some editors => editors
         | None => allMostRecentlyActive groups
         end,
         recentlyUsedEditorsStackIndex st)
    | Some (id, groupEditors) =>
        (match recentlyUsedEditorsInGroupStack st with
         | Some editors => editors
         | None => map (fun editor => mkIdentifier editor id) groupEditors
         end,
         recentlyUsedEditorsInGroupStackIndex st)
    end in
  let newIndex :=
    let modified := indexModifier index in
    if modified <? 0 then 0
    else if modified >? Z.of_nat (length editors) - 1
         then Z.of_nat (length editors) - 1
         else modified in
  let st' :=
    match group with
    | None =>
        {| recentlyUsedEditorsStack := Some editors;
           recentlyUsedEditorsStackIndex := newIndex;
           recentlyUsedEditorsInGroupStack :=
             recentlyUsedEditorsInGroupStack st;
           recentlyUsedEditorsInGroupStackIndex :=
             recentlyUsedEditorsInGroupStackIndex st;
           navigatingInRecentlyUsedEditorsStack :=
             navigatingInRecentlyUsedEditorsStack st;
           navigatingInRecentlyUsedEditorsInGroupStack :=
             navigatingInRecentlyUsedEditorsInGroupStack st;
           groupOpens := groupOpens st |}
    | Some _ =>
        {| recentlyUsedEditorsStack := recentlyUsedEditorsStack st;
           recentlyUsedEditorsStackIndex := recentlyUsedEditorsStackIndex st;
           recentlyUsedEditorsInGroupStack := Some editors;
           recentlyUsedEditorsInGroupStackIndex := newIndex;
           navigatingInRecentlyUsedEditorsStack :=
             navigatingInRecentlyUsedEditorsStack st;
           navigatingInRecentlyUsedEditorsInGroupStack :=
             navigatingInRecentlyUsedEditorsInGroupStack st;
           groupOpens := groupOpens st |}
    end in
  (st', editors, newIndex).

(** [typeof groupId !== 'number' || !getGroup(groupId)] *)
Definition acrossGroups (groups : EditorGroups)
  (groupId : option GroupIdentifier) : bool :=
  match groupId with
  | Some id =>
      match getGroup groups id with Some _ => false | None => true end
  | None => true
  end.

(** The flag of the scope a navigation runs in is set to [v]. *)
Definition setNavigatingInRecentlyUsed (st : RecentlyUsedState)
  (across v : bool) : RecentlyUsedState :=
  {| recentlyUsedEditorsStack := recentlyUsedEditorsStack st;
     recentlyUsedEditorsStackIndex := recentlyUsedEditorsStackIndex st;
     recentlyUsedEditorsInGroupStack := recentlyUsedEditorsInGroupStack st;
     recentlyUsedEditorsInGroupStackIndex :=
       recentlyUsedEditorsInGroupStackIndex st;
     navigatingInRecentlyUsedEditorsStack :=
       if across then v else navigatingInRecentlyUsedEditorsStack st;
     navigatingInRecentlyUsedEditorsInGroupStack :=
       if across then navigatingInRecentlyUsedEditorsInGroupStack st else v;
     groupOpens := groupOpens st |}.

(** [doNavigateInRecentlyUsedEditorsStack(editorIdentifier, groupId)] up to
    its [await]: the flag of the scope is raised and the editor is opened in
    its group, or in the active group ([None]) when that group is gone. *)
Definition doNavigateInRecentlyUsedEditorsStack (groups : EditorGroups)
  (st : RecentlyUsedState) (editorIdentifier : option IEditorIdentifier)
  (groupId : option GroupIdentifier) : RecentlyUsedState :=
  match editorIdentifier with
  | None => st
  | Some identifier =>
      let st1 :=
        setNavigatingInRecentlyUsed st (acrossGroups groups groupId) true in
      let target :=
        match getGroup groups (id_groupId identifier) with
        | Some _ => Some (id_groupId identifier)
        | None => None
        end in
      {| recentlyUsedEditorsStack := recentlyUsedEditorsStack st1;
         recentlyUsedEditorsStackIndex := recentlyUsedEditorsStackIndex st1;
         recentlyUsedEditorsInGroupStack :=
           recentlyUsedEditorsInGroupStack st1;
         recentlyUsedEditorsInGroupStackIndex :=
           recentlyUsedEditorsInGroupStackIndex st1;
         navigatingInRecentlyUsedEditorsStack :=
           navigatingInRecentlyUsedEditorsStack st1;
         navigatingInRecentlyUsedEditorsInGroupStack :=
           navigatingInRecentlyUsedEditorsInGroupStack st1;
         groupOpens := groupOpens st1 ++ [(target, id_editor identifier)] |}
  end.

(** The [finally] block of [doNavigateInRecentlyUsedEditorsStack], run when
    the open has settled; [across] is what the call computed. *)
Definition recentlyUsedOpenSettled (st : RecentlyUsedState) (across : bool)
  : RecentlyUsedState :=
  setNavigatingInRecentlyUsed st across false.

Definition openNextRecentlyUsedEditor (groups : EditorGroups)
  (st : RecentlyUsedState) (groupId : option GroupIdentifier)
  : RecentlyUsedState :=
  let '(st1, stack, index) :=
    ensureRecentlyUsedStack groups st (fun index => index - 1) groupId in
  doNavigateInRecentlyUsedEditorsStack groups st1 (js_get stack index) groupId.

Definition openPreviouslyUsedEditor (groups : EditorGroups)
  (st : RecentlyUsedState) (groupId : option GroupIdentifier)
  : RecentlyUsedState :=
  let '(st1, stack, index) :=
    ensureRecentlyUsedStack groups st (fun index => index + 1) groupId in
  doNavigateInRecentlyUsedEditorsStack groups st1 (js_get stack index) groupId.

(** [handleEditorEventInRecentEditorsStack()] *)
Definition handleEditorEventInRecentEditorsStack (st : RecentlyUsedState)
  : RecentlyUsedState :=
  let dropAll := negb (navigatingInRecentlyUsedEditorsStack st) in
  let dropInGroup := negb (navigatingInRecentlyUsedEditorsInGroupStack st) in
  {| recentlyUsedEditorsStack :=
       if dropAll then None else recentlyUsedEditorsStack st;
     recentlyUsedEditorsStackIndex :=
       if dropAll then 0 else recentlyUsedEditorsStackIndex st;
     recentlyUsedEditorsInGroupStack :=
       if dropInGroup then None else recentlyUsedEditorsInGroupStack st;
     recentlyUsedEditorsInGroupStackIndex :=
       if dropInGroup then 0 else recentlyUsedEditorsInGroupStackIndex st;
     navigatingInRecentlyUsedEditorsStack :=
       navigatingInRecentlyUsedEditorsStack st;
     navigatingInRecentlyUsedEditorsInGroupStack :=
       navigatingInRecentlyUsedEditorsInGroupStack st;
     groupOpens := groupOpens st |}.

(** ** A sample host

    Used to run the service on concrete inputs. *)

Fixpoint segments_eqb (a b : list string) : bool :=
  match a, b with
  | [], [] => true
  | x :: a', y :: b' => String.eqb x y && segments_eqb a' b'
  | _, _ => false
  end.

Fixpoint segments_prefix (p l : list string) : bool :=
  match p, l with
  | [], _ => true
  | x :: p', y :: l' => String.eqb x y && segments_prefix p' l'
  | _ :: _, [] => false
  end.

Definition uri_eqb (a b : URI) : bool :=
  String.eqb (scheme a) (scheme b) && segments_eqb (path a) (path b).

(** Modelled from the spec: [extUri.isEqualOrParent] lives in
    [vs/base/common/resources], which is not among the sources; the spec
    words it as "equals-or-is-a-descendant-of": [base] is [parentCandidate]
    or lies below it. *)
Definition uri_isEqualOrParent (base parentCandidate : URI) : bool :=
  String.eqb (scheme base) (scheme parentCandidate)
  && segments_prefix (path parentCandidate) (path base).

Definition fileChangeType_eqb (a b : FileChangeType) : bool :=
  match a, b with
  | UPDATED, UPDATED | ADDED, ADDED | DELETED, DELETED => true
  | _, _ => false
  end.

(** Selection tokens of the sample host are positions: equal positions are
    identical, positions of one decade are partially different. *)
Definition sample_compare (a b : IEditorPaneSelection)
  : EditorPaneSelectionCompareResult :=
  if Nat.eqb a b then IDENTICAL
  else if Nat.eqb (a / 10) (b / 10) then PARTIALLY_DIFFERENT
  else DIFFERENT.

Definition sampleHost : Host :=
  {| editor_matches := fun a b => Nat.eqb (handle a) (handle b);
     toUntyped := fun e =>
       match input_resource e with
       | Some r => Some (UntypedResource (mkResourceInput r (editorId e)))
       | None => None
       end;
     getOriginalUri := fun r =>
       match r with
       | Typed e => input_resource e
       | Untyped u => Some (ri_resource u)
       end;
     isEqual := uri_eqb;
     isEqualOrParent := uri_isEqualOrParent;
     contains := fun ev r t =>
       existsb (fun c => fileChangeType_eqb (fst c) t && uri_eqb (snd c) r)
               (changes ev);
     phaseRestored := true;
     hasProvider := fun r => String.eqb (scheme r) Schemas_file;
     defaultUriScheme := Schemas_file;
     compare := sample_compare;
     excludeMatches := fun _ => false;
     groupsReady := true;
     mostRecentlyActive := [];
     storedEditorHistory := [];
     uriToString := fun r =>
       (scheme r ++ ":/" ++ String.concat "/" (path r))%string;
     activeGroupIsSticky := fun i => i <? 1;
     activeGroupContains := fun _ => false;
     openYieldsPane := fun u _ =>
       match u with
       | UntypedResource r => String.eqb (scheme (ri_resource r)) Schemas_file
       | UntypedOther _ => false
       end |}.

Definition fileURI (segments : list string) : URI :=
  mkURI Schemas_file segments.

(** A live editor without a resource: it stays a live handle on the stacks. *)
Definition liveEditor (n : nat) : EditorInput := mkEditorInput n None None.

(** A live editor of a local file: it is stored as a resource input. *)
Definition fileEditor (n : nat) (segments : list string) : EditorInput :=
  mkEditorInput n (Some (fileURI segments)) None.

Definition liveEntry (n : nat) (sel : option IEditorPaneSelection)
  : IEditorWithSelection :=
  mkEntry (Typed (liveEditor n)) sel.

(** A navigation stack of [n] live entries numbered from [0], with the
    cursors as given. *)
Definition stackOfSize (n : nat) (index lastIndex : Z) : State :=
  with_lastIndex
    (with_index
       (with_stack initialState
          (map (fun k => liveEntry k (Some k)) (seq 0 n)))
       index)
    lastIndex.

(** A full navigation stack with the cursor on its tail. *)
Definition fullStackAtTail : State := stackOfSize 50 49 48.

(** A full navigation stack after one step back. *)
Definition fullStackBelowTail : State := stackOfSize 50 48 49.

(** A stack of three entries with the cursor on the last one. *)
Definition threeEntries : State := stackOfSize 3 2 1.

(** An editor that is not on any of the sample stacks. *)
Definition newEditor : EditorInput := liveEditor 100.

(** An editor of a local file. *)
Definition notesEditor : EditorInput := fileEditor 7 ["home"; "notes.md"]%string.

Definition folderURI : URI := fileURI ["home"; "project"]%string.

Definition nestedFileURI : URI := fileURI ["home"; "project"; "main.ts"]%string.

(** The folder [folderURI] is deleted from the explorer. *)
Definition folderDeleted : FileOperationEvent :=
  mkFileOperation DELETE folderURI None.

(** A closed editor of the sample host; the open of a record whose resource
    is not a local file yields no pane. *)
Definition closedRecord (n : nat) (resourceScheme : string)
  : IRecentlyClosedEditor :=
  let resource := mkURI resourceScheme ["tmp"; "closed"]%string in
  mkClosed n None (UntypedResource (mkResourceInput resource None))
           (Some resource) [resource] (Z.of_nat n) false.

(** Two closed editors that cannot be opened again. *)
Definition twoLostEditors : State :=
  with_closed initialState [closedRecord 1 "gone"%string; closedRecord 2 "gone"%string].

(** Three closed editors; only the oldest can be opened again. *)
Definition threeClosedEditors : State :=
  with_closed initialState
    [closedRecord 1 Schemas_file; closedRecord 2 "gone"%string;
     closedRecord 3 "gone"%string].

(** A service that remembers an edit in [notesEditor]. *)
Definition afterAnEdit : State :=
  with_lastEditLocation (stackOfSize 3 2 1)
    (Some (mkEntry (Typed notesEditor) (Some 12%nat))).

(** ** Vocabulary of the properties *)

(** The well-formed navigation stacks: at most fifty entries, both cursors
    between [-1] and the last index. *)
Definition navigationStackOk (st : State) : Prop :=
  Z.of_nat (length (editorNavigationStack st))
    <= MAX_EDITOR_NAVIGATION_STACK_ITEMS
  /\ -1 <= editorNavigationStackIndex st
        < Z.of_nat (length (editorNavigationStack st))
  /\ -1 <= lastEditorNavigationStackIndex st
        < Z.of_nat (length (editorNavigationStack st)).

(** What the stack is once the entries after the cursor are dropped and the
    new entry is put behind the cursor. *)
Definition grownStack (st : State) (entry : IEditorWithSelection)
  : list IEditorWithSelection :=
  firstn (Z.to_nat (editorNavigationStackIndex st + 1))
         (editorNavigationStack st)
  ++ [entry].

(** A service whose navigation stack has seen no event yet. *)
Definition freshNavigation (st : State) : Prop :=
  editorNavigationStack st = []
  /\ editorNavigationStackIndex st = -1
  /\ currentEditorSelectionState st = None
  /\ navigatingInEditorStack st = false.

Definition isReopenCall (c : Call) : bool :=
  match c with CallReopenEditor _ _ => true | _ => false end.

Definition isActivation (c : Call) : bool :=
  match c with CallReopenLastClosedEditor => true | _ => false end.

Section Vocabulary.

Context {host : Host}.

(** The form under which a live editor is stored on a stack or in the
    history; [preferResourceEditorInput] always has one for a live editor. *)
Definition storedForm (editor : EditorInput) : EditorRef :=
  match preferResourceEditorInput (Typed editor) with
  | Some stored => stored
  | None => Typed editor
  end.

(** A pane that shows a live, undisposed editor. *)
Definition paneShowing (editor : EditorInput) : IEditorPane :=
  mkPane (Some editor) false false None.


(** The history bound: one entry goes from the tail on overflow. *)
Definition boundHistory (h : list EditorRef) : list EditorRef :=
  if Z.of_nat (length h) >? MAX_HISTORY_ITEMS then removelast h else h.

Definition unmatchedBy (editor : EditorInput) (entry : EditorRef) : bool :=
  negb (matches (OfRef (Typed editor)) entry).


(** What one request to reopen calls when the records, most recent first,
    are tried in turn: every record that is tried has an activation of
    [reopenLastClosedEditor] of its own, a record that the active group
    already contains is passed over without an open, and the chain stops at
    the first open that yields a pane or when no record is left. *)
Fixpoint reopenTrace (newestFirst : list IRecentlyClosedEditor) : list Call :=
  CallReopenLastClosedEditor
  :: match newestFirst with
     | [] => []
     | r :: older =>
         if activeGroupContains (rc_editor r) then reopenTrace older
         else
           CallReopenEditor (rc_editor r) (reopenOptions r)
           :: (if openYieldsPane (rc_editor r) (reopenOptions r) then []
               else reopenTrace older)
     end.

(** The records, most recent first, that such a request leaves. *)
Fixpoint reopenRemainder (newestFirst : list IRecentlyClosedEditor)
  : list IRecentlyClosedEditor :=
  match newestFirst with
  | [] => []
  | r :: older =>
      if negb (activeGroupContains (rc_editor r))
         && openYieldsPane (rc_editor r) (reopenOptions r)
      then older
      else reopenRemainder older
  end.

End Vocabulary.

(** ** Vocabulary of the further properties *)

(** The events that only replay the navigation stack. *)
Definition isReplay (ev : NavigationEvent) : bool :=
  match ev with
  | Back | Forward | Last | NavigationSettled => true
  | _ => false
  end.

(** The handles that hold a disposal subscription. *)
Definition subscribed (m : ListenerMap) : list nat := map fst m.

(** The live input of a pane: present and not disposed. *)
Definition liveInput (pane : IEditorPane) : option EditorInput :=
  match pane_input pane with
  | Some input => if pane_inputDisposed pane then None else Some input
  | None => None
  end.

(** Two states that differ at most in the history and its listeners. *)
Definition sameButHistory (st st' : State) : Prop :=
  editorNavigationStack st' = editorNavigationStack st
  /\ editorNavigationStackIndex st' = editorNavigationStackIndex st
  /\ lastEditorNavigationStackIndex st' = lastEditorNavigationStackIndex st
  /\ navigatingInEditorStack st' = navigatingInEditorStack st
  /\ currentEditorSelectionState st' = currentEditorSelectionState st
  /\ editorNavigationStackListeners st' = editorNavigationStackListeners st
  /\ recentlyClosedEditors st' = recentlyClosedEditors st
  /\ ignoreEditorCloseEvent st' = ignoreEditorCloseEvent st
  /\ lastEditLocation st' = lastEditLocation st
  /\ calls st' = calls st.

Section VocabularyRest.

Context {host : Host} {workbench : Workbench}.

(** The bound of the recently closed buffer: the oldest record goes on
    overflow. *)
Definition boundClosed (l : list IRecentlyClosedEditor)
  : list IRecentlyClosedEditor :=
  if Z.of_nat (length l) >? MAX_RECENTLY_CLOSED_EDITORS then tl l else l.

(** Close events, each with the identity of the record it allocates, reach
    the service one after the other. *)
Definition closeAll (st : State) (events : list (IEditorCloseEvent * nat))
  : State :=
  fold_left (fun s event => onDidCloseEditor s (fst event) (snd event))
            events st.

(** The record that a close event appends when its editor has an untyped
    form. *)
Definition recordOf (event : IEditorCloseEvent * nat)
  : option IRecentlyClosedEditor :=
  match toUntyped (close_editor (fst event)) with
  | Some untypedEditor =>
      Some (closedEditorRecord (fst event) untypedEditor (snd event))
  | None => None
  end.

(** Genuine closes of distinct editors: each event is a normal close of an
    editor with an untyped form, and removes none of the records of the
    closes before it. *)
Fixpoint distinctCloses (earlier : list IRecentlyClosedEditor)
  (events : list (IEditorCloseEvent * nat)) : bool :=
  match events with
  | [] => true
  | event :: rest =>
      match close_context (fst event), recordOf event with
      | CLOSE_NORMAL, Some record =>
          forallb (keepsRecentlyClosed
                     (OfRef (Typed (close_editor (fst event)))))
                  earlier
          && distinctCloses (earlier ++ [record]) rest
      | _, _ => false
      end
  end.

(** The options a record is reopened with: the index is kept exactly when
    the slot is as sticky as the record. *)
Definition expectedReopenOptions (sticky : bool) (index : Z) : ReopenOptions :=
  mkReopenOptions true sticky
    (if Bool.eqb sticky (activeGroupIsSticky index) then Some index else None)
    true.

(** The keys of the opened editors that [loadHistory] remembers as
    handled. *)
Definition openedKeys : list string :=
  flat_map
    (fun editor =>
       if includeInHistory (Typed editor) then
         match input_resource editor with
         | Some r => [handledKey r (editorId editor)]
         | None => []
         end
       else [])
    (rev mostRecentlyActive).

(** The stored entries that [loadHistory] appends: those not handled by an
    opened editor, under the form they are stored in, if they have one. *)
Definition storedKept : list EditorRef :=
  flat_map
    (fun editor =>
       if existsb
            (String.eqb (handledKey (ri_resource editor) (ri_override editor)))
            openedKeys
       then []
       else option_to_list (preferResourceEditorInput (Untyped editor)))
    storedEditorHistory.

(** What the history is after hydration: the opened editors, most recent
    first, then the stored entries, up to the bound. *)
Definition hydratedHistory : list EditorRef :=
  firstn 200 (map storedForm mostRecentlyActive ++ storedKept).

(** A resource input that [preferResourceEditorInput] accepts. *)
Definition storable (r : IResourceEditorInput) : bool :=
  match preferResourceEditorInput (Untyped r) with
  | Some _ => true
  | None => false
  end.

(** Whether the active editor pane still shows the editor that the service
    saw active last: the test that [onDidActiveEditorChange] starts with. *)
Definition stillActive (tracker : ActiveEditorTracker)
  (activeEditorPane : option ActiveEditorPane) : bool :=
  match lastActiveEditor tracker with
  | Some identifier => matchesEditor identifier activeEditorPane
  | None => false
  end.

(** An entry that none of the replacements matches. *)
Definition unmatchedByAny (replacements : list EditorRef) (entry : EditorRef)
  : bool :=
  negb (existsb (fun replacement => matches (OfRef replacement) entry)
                replacements).

End VocabularyRest.

(** The snapshot, the index and the flag of the scope that a navigation in
    the recently used editors with [groupId] runs in. *)
Definition scopeStack (groups : EditorGroups)
  (groupId : option GroupIdentifier) (st : RecentlyUsedState)
  : option (list IEditorIdentifier) :=
  if acrossGroups groups groupId then recentlyUsedEditorsStack st
  else recentlyUsedEditorsInGroupStack st.

Definition scopeIndex (groups : EditorGroups)
  (groupId : option GroupIdentifier) (st : RecentlyUsedState) : Z :=
  if acrossGroups groups groupId then recentlyUsedEditorsStackIndex st
  else recentlyUsedEditorsInGroupStackIndex st.

Definition scopeNavigating (groups : EditorGroups)
  (groupId : option GroupIdentifier) (st : RecentlyUsedState) : bool :=
  if acrossGroups groups groupId then navigatingInRecentlyUsedEditorsStack st
  else navigatingInRecentlyUsedEditorsInGroupStack st.

(** The snapshot of the other scope, with its index and flag. *)
Definition otherScope (groups : EditorGroups)
  (groupId : option GroupIdentifier) (st : RecentlyUsedState)
  : option (list IEditorIdentifier) * Z * bool :=
  if acrossGroups groups groupId
  then (recentlyUsedEditorsInGroupStack st,
        recentlyUsedEditorsInGroupStackIndex st,
        navigatingInRecentlyUsedEditorsInGroupStack st)
  else (recentlyUsedEditorsStack st,
        recentlyUsedEditorsStackIndex st,
        navigatingInRecentlyUsedEditorsStack st).

(** The editors of the scope in most recently active order, as the editor
    service or the group gives them now. *)
Definition currentEditors (groups : EditorGroups)
  (groupId : option GroupIdentifier) : list IEditorIdentifier :=
  match groupId with
  | Some id =>
      match getGroup groups id with
      | Some groupEditors =>
          map (fun editor => mkIdentifier editor id) groupEditors
      | None => allMostRecentlyActive groups
      end
  | None => allMostRecentlyActive groups
  end.

(** The editors a navigation walks: the snapshot, or the current editors
    when there is none. *)
Definition scopeEditors (groups : EditorGroups)
  (groupId : option GroupIdentifier) (st : RecentlyUsedState)
  : list IEditorIdentifier :=
  match scopeStack groups groupId st with
  | Some editors => editors
  | None => currentEditors groups groupId
  end.

(** The group an editor is opened in: its own, or the active one ([None])
    when its own is gone. *)
Definition openTarget (groups : EditorGroups) (identifier : IEditorIdentifier)
  : option GroupIdentifier :=
  match getGroup groups (id_groupId identifier) with
  | Some _ => Some (id_groupId identifier)
  | None => None
  end.

(** An editor event that arrives while the open of a navigation is pending,
    and the open settling after it. *)
Definition recentlyUsedSettle (groups : EditorGroups)
  (groupId : option GroupIdentifier) (st : RecentlyUsedState)
  : RecentlyUsedState :=
  recentlyUsedOpenSettled (handleEditorEventInRecentEditorsStack st)
                          (acrossGroups groups groupId).

(** ** A sample workbench

    Used to run the rest of the service on concrete inputs. *)

Definition otherFolderURI : URI := fileURI ["home"; "other"]%string.

Definition renamedFileURI : URI :=
  fileURI ["home"; "project"; "renamed.ts"]%string.

Definition notesURI : URI := fileURI ["home"; "notes.md"]%string.

Definition scratchURI : URI := mkURI "untitled"%string ["scratch"]%string.

(** A side by side editor and its two sides. *)
Definition diffEditor : EditorInput := mkEditorInput 500 None None.

Definition leftEditor : EditorInput :=
  fileEditor 501 ["home"; "project"; "left.ts"]%string.

Definition rightEditor : EditorInput :=
  fileEditor 502 ["home"; "project"; "right.ts"]%string.

Definition sampleWorkbench : Workbench :=
  {| gotDeleted := fun ev =>
       existsb (fun c => fileChangeType_eqb (fst c) DELETED) (changes ev);
     getOriginalUriBothSides := fun e =>
       if Nat.eqb (handle e) 500
       then Some (BothUris (input_resource rightEditor)
                           (input_resource leftEditor))
       else option_map SingleUri (input_resource e);
     getOriginalUriFilteredByScheme := fun e filterByScheme =>
       match input_resource e with
       | Some r => if String.eqb (scheme r) filterByScheme then Some r else None
       | None => None
       end;
     sideBySide := fun e =>
       if Nat.eqb (handle e) 500 then Some (rightEditor, leftEditor) else None;
     workspaceFolders := [folderURI; otherFolderURI];
     getWorkspaceFolder := fun r =>
       find (uri_isEqualOrParent r) [folderURI; otherFolderURI] |}.

(** The sample host with opened editors and a stored history. *)
Definition hostWith (opened : list EditorInput)
  (stored : list IResourceEditorInput) : Host :=
  {| editor_matches := @editor_matches sampleHost;
     toUntyped := @toUntyped sampleHost;
     getOriginalUri := @getOriginalUri sampleHost;
     isEqual := @isEqual sampleHost;
     isEqualOrParent := @isEqualOrParent sampleHost;
     contains := @contains sampleHost;
     phaseRestored := true;
     hasProvider := @hasProvider sampleHost;
     defaultUriScheme := Schemas_file;
     compare := sample_compare;
     excludeMatches := fun _ => false;
     groupsReady := true;
     mostRecentlyActive := opened;
     storedEditorHistory := stored;
     uriToString := @uriToString sampleHost;
     activeGroupIsSticky := @activeGroupIsSticky sampleHost;
     activeGroupContains := @activeGroupContains sampleHost;
     openYieldsPane := @openYieldsPane sampleHost |}.

(** A window that starts without an editor, with two files in the stored
    history. *)
Definition restoredHost : Host :=
  hostWith [] [mkResourceInput nestedFileURI None;
               mkResourceInput notesURI None].

(** A window with two opened editors; the file of the first one is in the
    stored history as well. *)
Definition busyHost : Host :=
  hostWith [notesEditor; liveEditor 3]
           [mkResourceInput notesURI None; mkResourceInput nestedFileURI None].

(** An editor of a remote file.  The sample host has no file system
    provider for the scheme, so once the workbench has restored the matcher
    does not recognise the editor in the descriptor it is stored as. *)
Definition remoteURI : URI :=
  mkURI Schemas_vscodeRemote ["srv"; "app.ts"]%string.

Definition remoteEditor : EditorInput :=
  mkEditorInput 8 (Some remoteURI) None.

(** An editor pane in group 1 that shows [newEditor]. *)
Definition newEditorActive : ActiveEditorPane :=
  mkActivePane (mkPane (Some newEditor) false false None) (Some 1).

(** A pane with a selection that shows [notesEditor] at position 12. *)
Definition notesPane : IEditorPane :=
  mkPane (Some notesEditor) false true (Some 12%nat).

(** A stack of three entries with the cursor on the middle one. *)
Definition threeEntriesAtMiddle : State := stackOfSize 3 1 2.

(** A stack that has the editor 1 on both sides of the cursor. *)
Definition sharedBranch : State :=
  with_lastIndex
    (with_index
       (with_stack initialState
          [liveEntry 1 (Some 1%nat); liveEntry 2 (Some 2%nat);
           liveEntry 1 (Some 30%nat)])
       1)
    0.

(** A stack with a descriptor of [nestedFileURI] below a live entry. *)
Definition stackWithFile : State :=
  with_index
    (with_stack initialState
       [mkEntry (Untyped (mkResourceInput nestedFileURI None)) None;
        liveEntry 2 (Some 2%nat)])
    1.

(** [nestedFileURI] is renamed in the explorer. *)
Definition fileRenamed : FileOperationEvent :=
  mkFileOperation MOVE nestedFileURI (Some (mkTarget renamedFileURI true)).

(** The editor [notesEditor] is closed at index 2 of its group. *)
Definition notesClosed : IEditorCloseEvent :=
  mkCloseEvent notesEditor CLOSE_NORMAL 2 false.

(** The close of the [k]-th of a series of editors of distinct files, with
    the identity of its record. *)
Definition closeOf (k : nat) : IEditorCloseEvent * nat :=
  (mkCloseEvent
     (fileEditor k ["tmp"; String.concat "" (repeat "a" k)]%string)
     CLOSE_NORMAL (Z.of_nat k) false,
   k).

Definition twentyOneCloses : list (IEditorCloseEvent * nat) :=
  map closeOf (seq 0 21).

(** A loaded history with a side by side editor between two files. *)
Definition historyWithDiff : State :=
  with_history initialState
    (Some [Untyped (mkResourceInput notesURI None); Typed diffEditor;
           Untyped (mkResourceInput (fileURI ["home"; "project"; "left.ts"]%string)
                      None)]).

(** A loaded history: a live editor, an untitled buffer, two files. *)
Definition mixedHistory : State :=
  with_history initialState
    (Some [Typed (liveEditor 1); Untyped (mkResourceInput scratchURI None);
           Untyped (mkResourceInput (fileURI ["home"; "other"; "x.ts"]%string)
                      None);
           Untyped (mkResourceInput nestedFileURI None)]).

(** Two groups: editors 1 and 3 in group 1, editor 2 in group 2. *)
Definition sampleGroups : EditorGroups :=
  mkEditorGroups
    [mkIdentifier (liveEditor 1) 1; mkIdentifier (liveEditor 2) 2;
     mkIdentifier (liveEditor 3) 1]
    (fun id => if id =? 1 then Some [liveEditor 1; liveEditor 3]
               else if id =? 2 then Some [liveEditor 2]
               else None).

(** The same groups once editor 2 has become the most recently active. *)
Definition groupsAfterStep : EditorGroups :=
  mkEditorGroups
    [mkIdentifier (liveEditor 2) 2; mkIdentifier (liveEditor 1) 1;
     mkIdentifier (liveEditor 3) 1]
    (getGroup sampleGroups).

(** * Properties *)

Unset Implicit Arguments.

Section Properties.

Context {host : Host}.

(** ** Lists and arrays *)

Lemma filter_none_matching {A : Type} (f : A -> bool) (l : list A) :
  existsb f l = false -> filter (fun x => negb (f x)) l = l.
Proof.
  induction l as [| a l IH]; simpl; intro E.
  - reflexivity.
  - apply orb_false_iff in E. destruct E as [Ea El].
    rewrite Ea. simpl. f_equal. apply IH. exact El.
Qed.

Lemma filter_negb_idem {A : Type} (f : A -> bool) (l : list A) :
  filter (fun x => negb (f x)) (filter (fun x => negb (f x)) l)
  = filter (fun x => negb (f x)) l.
Proof.
  induction l as [| a l IH]; simpl.
  - reflexivity.
  - destruct (f a) eqn:Ea; simpl.
    + exact IH.
    + rewrite Ea. simpl. f_equal. exact IH.
Qed.

Lemma fold_left_invariant {A B : Type} (P : A -> Prop) (f : A -> B -> A)
  (l : list B) :
  (forall a b, P a -> P (f a b)) -> forall a, P a -> P (fold_left f l a).
Proof.
  intro Hstep. induction l as [| b l IH]; intros a Ha; simpl.
  - exact Ha.
  - apply IH. apply Hstep. exact Ha.
Qed.

Lemma js_get_some {A : Type} (l : list A) (i : Z) :
  0 <= i < Z.of_nat (length l) -> exists x, js_get l i = Some x.
Proof.
  intros [Hlo Hhi]. unfold js_get.
  destruct (i <? 0) eqn:E.
  - apply Z.ltb_lt in E. lia.
  - destruct (nth_error l (Z.to_nat i)) eqn:N.
    + eauto.
    + apply nth_error_None in N. lia.
Qed.

(** ** Replay: back, forward, last *)

Lemma navigate_stack (st : State) :
  editorNavigationStack (navigate st) = editorNavigationStack st
  /\ editorNavigationStackIndex (navigate st) = editorNavigationStackIndex st
  /\ lastEditorNavigationStackIndex (navigate st)
     = lastEditorNavigationStackIndex st.
Proof.
  unfold navigate. simpl.
  destruct (js_get (editorNavigationStack st) (editorNavigationStackIndex st));
    simpl; auto.
Qed.

Lemma navigate_at_entry (st : State) (location : IEditorWithSelection) :
  js_get (editorNavigationStack st) (editorNavigationStackIndex st)
  = Some location ->
  navigate st = doNavigate (with_navigating st true) location.
Proof.
  intro E. unfold navigate. simpl. rewrite E. reflexivity.
Qed.

(** C10.  When no previous jump is recorded ([lastEditorNavigationStackIndex]
    is [-1]), [last] is [back]: it moves the cursor one entry back when the
    cursor is greater than [0] and leaves the state alone otherwise. *)
Theorem last_without_jump_is_back (st : State) :
  lastEditorNavigationStackIndex st = -1 ->
  last st = back st
  /\ (editorNavigationStackIndex st > 0 ->
      editorNavigationStackIndex (last st) = editorNavigationStackIndex st - 1)
  /\ (editorNavigationStackIndex st <= 0 -> last st = st).
Proof.
  intro Hlast.
  assert (E : last st = back st).
  { unfold last. rewrite Hlast. reflexivity. }
  split; [exact E |]. rewrite E. unfold back. split; intro Hc.
  - replace (editorNavigationStackIndex st >? 0) with true
      by (symmetry; apply Z.gtb_lt; lia).
    destruct (navigate_stack (setIndex st (editorNavigationStackIndex st - 1)))
      as (_ & Hi & _).
    rewrite Hi. reflexivity.
  - destruct (editorNavigationStackIndex st >? 0) eqn:G.
    + apply Z.gtb_lt in G. lia.
    + reflexivity.
Qed.

(** C8.  With the cursor at an index [i > 0] of the stack, [back] followed by
    [forward] leaves the stack as it was and the cursor at [i]; [forward]
    opens the very entry that was current before [back], selection
    included. *)
Theorem back_then_forward (st : State) :
  0 < editorNavigationStackIndex st
    < Z.of_nat (length (editorNavigationStack st)) ->
  exists previous current,
    js_get (editorNavigationStack st) (editorNavigationStackIndex st - 1)
      = Some previous
    /\ js_get (editorNavigationStack st) (editorNavigationStackIndex st)
       = Some current
    /\ editorNavigationStack (forward (back st)) = editorNavigationStack st
    /\ editorNavigationStackIndex (forward (back st))
       = editorNavigationStackIndex st
    /\ calls (forward (back st))
       = calls st ++ [CallOpenEditor previous; CallOpenEditor current].
Proof.
  intro Hi.
  destruct (js_get_some (editorNavigationStack st)
              (editorNavigationStackIndex st - 1)) as [previous Hp]; [lia |].
  destruct (js_get_some (editorNavigationStack st)
              (editorNavigationStackIndex st)) as [current Hc]; [lia |].
  exists previous, current.
  split; [exact Hp |]. split; [exact Hc |].
  unfold back.
  replace (editorNavigationStackIndex st >? 0) with true
    by (symmetry; apply Z.gtb_lt; lia).
  rewrite (navigate_at_entry (setIndex st (editorNavigationStackIndex st - 1))
             previous Hp).
  unfold forward. simpl.
  replace (Z.of_nat (length (editorNavigationStack st))
           >? editorNavigationStackIndex st - 1 + 1) with true
    by (symmetry; apply Z.gtb_lt; lia).
  replace (editorNavigationStackIndex st - 1 + 1)
    with (editorNavigationStackIndex st) by lia.
  unfold navigate. simpl. rewrite Hc. simpl.
  rewrite <- app_assoc. simpl. auto.
Qed.

(** C9.  [removeFromEditorNavigationStack] keeps the entries that do not
    match its argument, puts the cursor on the last index of what is left
    and sets the last cursor to [-1]; it does so also when nothing matched
    and the stack is the one it was. *)
Theorem remove_resets_cursors (st : State) (arg1 : MatchArg) :
  let st' := fst (removeFromEditorNavigationStack st arg1) in
  editorNavigationStack st'
  = filter (fun entry => negb (matches arg1 (entry_editor entry)))
           (editorNavigationStack st)
  /\ editorNavigationStackIndex st'
     = Z.of_nat (length (editorNavigationStack st')) - 1
  /\ lastEditorNavigationStackIndex st' = -1
  /\ (snd (removeFromEditorNavigationStack st arg1) = false ->
      editorNavigationStack st' = editorNavigationStack st).
Proof.
  simpl. repeat split.
  intro E.
  apply (filter_none_matching
           (fun entry => matches arg1 (entry_editor entry))).
  exact E.
Qed.

(** ** Pushing on the navigation stack *)

Lemma js_clamp_inside (len i : Z) :
  0 <= i <= len -> js_clamp len i = Z.to_nat i.
Proof.
  intros Hi. unfold js_clamp.
  destruct (i <? 0) eqn:E.
  - apply Z.ltb_lt in E. lia.
  - f_equal. lia.
Qed.

Lemma truncate_then_insert (st : State) (entry : IEditorWithSelection) :
  -1 <= editorNavigationStackIndex st
     < Z.of_nat (length (editorNavigationStack st)) ->
  js_splice_insert
    (if Z.of_nat (length (editorNavigationStack st))
        >? editorNavigationStackIndex st + 1
     then js_slice0 (editorNavigationStack st)
                    (editorNavigationStackIndex st + 1)
     else editorNavigationStack st)
    (editorNavigationStackIndex st + 1) entry
  = grownStack st entry.
Proof.
  intro Hi. unfold grownStack.
  set (stack := editorNavigationStack st) in *.
  set (index := editorNavigationStackIndex st) in *.
  set (k := Z.to_nat (index + 1)).
  assert (Hk : (k <= length stack)%nat) by (unfold k; lia).
  assert (Hcut : (if Z.of_nat (length stack) >? index + 1
                  then js_slice0 stack (index + 1) else stack)
                 = firstn k stack).
  { destruct (Z.of_nat (length stack) >? index + 1) eqn:G.
    - unfold js_slice0. rewrite js_clamp_inside by lia. reflexivity.
    - assert (k = length stack).
      { unfold k. destruct (Z.gtb_spec (Z.of_nat (length stack)) (index + 1));
          [discriminate | lia]. }
      subst k. rewrite H. symmetry. apply firstn_all. }
  rewrite Hcut. unfold js_splice_insert.
  rewrite length_firstn, Nat.min_l by exact Hk.
  rewrite js_clamp_inside by (unfold k; lia). fold k.
  rewrite firstn_firstn, Nat.min_id.
  rewrite skipn_all2 by (rewrite length_firstn; lia).
  reflexivity.
Qed.

Lemma grownStack_length (st : State) (entry : IEditorWithSelection) :
  -1 <= editorNavigationStackIndex st
     < Z.of_nat (length (editorNavigationStack st)) ->
  Z.of_nat (length (grownStack st entry)) = editorNavigationStackIndex st + 2.
Proof.
  intro Hi. unfold grownStack.
  rewrite length_app, length_firstn. simpl. lia.
Qed.

(** A push that does not overflow: the stack is the grown stack and the
    cursor moves onto the new entry. *)
Lemma insertAfterCursor_room (st : State) (entry : IEditorWithSelection) :
  -1 <= editorNavigationStackIndex st
     < Z.of_nat (length (editorNavigationStack st)) ->
  editorNavigationStackIndex st + 2 <= MAX_EDITOR_NAVIGATION_STACK_ITEMS ->
  let st' := fst (insertAfterCursor st entry) in
  editorNavigationStack st' = grownStack st entry
  /\ editorNavigationStackIndex st' = editorNavigationStackIndex st + 1
  /\ lastEditorNavigationStackIndex st' = editorNavigationStackIndex st.
Proof.
  intros Hi Hroom. unfold insertAfterCursor.
  rewrite (truncate_then_insert st entry Hi).
  pose proof (grownStack_length st entry Hi) as Hlen.
  destruct (Z.of_nat (length (grownStack st entry))
            >? MAX_EDITOR_NAVIGATION_STACK_ITEMS) eqn:G.
  - apply Z.gtb_lt in G. lia.
  - simpl. auto.
Qed.

(** A push that overflows: the oldest entry goes, the cursor stays, the last
    cursor moves down with the entries when it addressed one. *)
Lemma insertAfterCursor_full (st : State) (entry : IEditorWithSelection) :
  -1 <= editorNavigationStackIndex st
     < Z.of_nat (length (editorNavigationStack st)) ->
  MAX_EDITOR_NAVIGATION_STACK_ITEMS < editorNavigationStackIndex st + 2 ->
  let st' := fst (insertAfterCursor st entry) in
  editorNavigationStack st' = tl (grownStack st entry)
  /\ editorNavigationStackIndex st' = editorNavigationStackIndex st
  /\ lastEditorNavigationStackIndex st'
     = (if lastEditorNavigationStackIndex st >=? 0
        then lastEditorNavigationStackIndex st - 1
        else lastEditorNavigationStackIndex st).
Proof.
  intros Hi Hfull. unfold insertAfterCursor.
  rewrite (truncate_then_insert st entry Hi).
  pose proof (grownStack_length st entry Hi) as Hlen.
  destruct (Z.of_nat (length (grownStack st entry))
            >? MAX_EDITOR_NAVIGATION_STACK_ITEMS) eqn:G.
  - simpl. destruct (lastEditorNavigationStackIndex st >=? 0); simpl; auto.
  - destruct (Z.gtb_spec (Z.of_nat (length (grownStack st entry)))
                MAX_EDITOR_NAVIGATION_STACK_ITEMS); [discriminate | lia].
Qed.

(** A qualifying push: the cursor entry is not replaced and the editor has a
    form under which it is stored.  The navigation fields are then those
    that [insertAfterCursor] computes. *)
Lemma push_is_insertAfterCursor (st : State) (editor : EditorRef)
  (selection : option IEditorPaneSelection) (forceReplace : bool)
  (stackEditorInput : EditorRef) :
  decideReplace st editor selection forceReplace = false ->
  preferResourceEditorInput editor = Some stackEditorInput ->
  let st' :=
    doAddOrReplaceInEditorNavigationStack st editor selection forceReplace in
  let st1 := fst (insertAfterCursor st (mkEntry stackEditorInput selection)) in
  editorNavigationStack st' = editorNavigationStack st1
  /\ editorNavigationStackIndex st' = editorNavigationStackIndex st1
  /\ lastEditorNavigationStackIndex st' = lastEditorNavigationStackIndex st1.
Proof.
  intros Hr Hp. unfold doAddOrReplaceInEditorNavigationStack.
  rewrite Hr, Hp.
  destruct (insertAfterCursor st (mkEntry stackEditorInput selection))
    as [st1 removed].
  simpl. auto.
Qed.

Lemma back_settled_fields (st : State) :
  0 < editorNavigationStackIndex st ->
  let st1 := navigateSettled (back st) in
  editorNavigationStack st1 = editorNavigationStack st
  /\ editorNavigationStackIndex st1 = editorNavigationStackIndex st - 1
  /\ lastEditorNavigationStackIndex st1 = editorNavigationStackIndex st
  /\ navigatingInEditorStack st1 = false.
Proof.
  intro Hi. unfold back.
  replace (editorNavigationStackIndex st >? 0) with true
    by (symmetry; apply Z.gtb_lt; lia).
  destruct (navigate_stack (setIndex st (editorNavigationStackIndex st - 1)))
    as (Es & Ei & El).
  simpl. rewrite Es, Ei, El. simpl. auto.
Qed.

(** C4.  When the cursor is not on the tail, a qualifying push drops every
    entry after the cursor and puts the new entry behind it, with the cursor
    on the new entry.  So from [[a; b; c]] with the cursor on [c], [back]
    and then a push of [d] give [[a; b; d]] with the cursor on [d]. *)
Theorem push_truncates_branch :
  (forall (st : State) (editor : EditorRef)
          (selection : option IEditorPaneSelection)
          (stackEditorInput : EditorRef),
      decideReplace st editor selection false = false ->
      preferResourceEditorInput editor = Some stackEditorInput ->
      navigationStackOk st ->
      editorNavigationStackIndex st
        < Z.of_nat (length (editorNavigationStack st)) - 1 ->
      let st' :=
        doAddOrReplaceInEditorNavigationStack st editor selection false in
      editorNavigationStack st'
      = firstn (Z.to_nat (editorNavigationStackIndex st + 1))
               (editorNavigationStack st)
        ++ [mkEntry stackEditorInput selection]
      /\ editorNavigationStackIndex st' = editorNavigationStackIndex st + 1)
  /\ (forall (st : State) (a b c : IEditorWithSelection) (editor : EditorRef)
             (selection : option IEditorPaneSelection)
             (stackEditorInput : EditorRef),
         editorNavigationStack st = [a; b; c] ->
         editorNavigationStackIndex st = 2 ->
         let st1 := navigateSettled (back st) in
         decideReplace st1 editor selection false = false ->
         preferResourceEditorInput editor = Some stackEditorInput ->
         let st' := addToEditorNavigationStack st1 editor selection in
         editorNavigationStack st' = [a; b; mkEntry stackEditorInput selection]
         /\ editorNavigationStackIndex st' = 2).
Proof.
  split.
  - intros st editor selection stackEditorInput Hr Hp (Hmax & Hi & Hl) Htail.
    unfold MAX_EDITOR_NAVIGATION_STACK_ITEMS in Hmax.
    destruct (push_is_insertAfterCursor st editor selection false
                stackEditorInput Hr Hp) as (Es & Ei & _).
    destruct (insertAfterCursor_room st (mkEntry stackEditorInput selection)
                Hi) as (Rs & Ri & _);
      [unfold MAX_EDITOR_NAVIGATION_STACK_ITEMS; lia |].
    simpl. rewrite Es, Ei, Rs, Ri. split; reflexivity.
  - intros st a b c editor selection stackEditorInput Hs Hc st1 Hr Hp.
    destruct (back_settled_fields st) as (Bs & Bi & Bl & Bn); [lia |].
    fold st1 in Bs, Bi, Bl, Bn.
    unfold addToEditorNavigationStack. rewrite Bn. simpl negb. cbv iota.
    destruct (push_is_insertAfterCursor st1 editor selection false
                stackEditorInput Hr Hp) as (Es & Ei & _).
    assert (Hi1 : -1 <= editorNavigationStackIndex st1
                    < Z.of_nat (length (editorNavigationStack st1))).
    { rewrite Bs, Bi, Hs, Hc. simpl. lia. }
    destruct (insertAfterCursor_room st1 (mkEntry stackEditorInput selection)
                Hi1) as (Rs & Ri & _).
    { rewrite Bi, Hc. unfold MAX_EDITOR_NAVIGATION_STACK_ITEMS. lia. }
    simpl. rewrite Es, Ei, Rs, Ri. unfold grownStack.
    rewrite Bs, Bi, Hs, Hc. simpl. split; reflexivity.
Qed.

(** ** Identity matcher on file events *)

(** C3 (amended).  Against a file event a live handle never matches.  A
    resource descriptor matches a file operation (a DELETE like any other)
    iff its resource is the resource of the operation or lies below it, and
    it matches a watcher batch iff the batch contains its resource as
    deleted. *)
Theorem file_event_matches_descriptors_only :
  (forall (ev : FileOperationEvent) (b : EditorRef),
      matches (OfOperation ev) b = true <->
      exists r, b = Untyped r
                /\ isEqualOrParent (ri_resource r) (op_resource ev) = true)
  /\ (forall (ev : FileChangesEvent) (b : EditorRef),
         matches (OfChanges ev) b = true <->
         exists r, b = Untyped r
                   /\ contains ev (ri_resource r) DELETED = true).
Proof.
  split; intros ev b; destruct b as [e | r]; simpl; split.
  - discriminate.
  - intros (r & Hb & _). discriminate Hb.
  - intro Hm. exists r. auto.
  - intros (r' & Hb & Hm). injection Hb as <-. exact Hm.
  - discriminate.
  - intros (r & Hb & _). discriminate Hb.
  - intro Hm. exists r. auto.
  - intros (r' & Hb & Hm). injection Hb as <-. exact Hm.
Qed.

(** ** Clearing *)

(** C7 (amended).  [clear] empties the navigation stack and puts both
    cursors on [-1], empties the global history and the recently closed
    buffer.  The last edit location is left as it was: a later
    [openLastEditLocation] opens it when it was set, and does nothing only
    when it was not. *)
Theorem clear_resets_stacks (st : State) :
  let st' := clear st in
  editorNavigationStack st' = []
  /\ editorNavigationStackIndex st' = -1
  /\ lastEditorNavigationStackIndex st' = -1
  /\ history st' = Some []
  /\ recentlyClosedEditors st' = []
  /\ lastEditLocation st' = lastEditLocation st
  /\ calls (openLastEditLocation st')
     = calls st ++ match lastEditLocation st with
                   | Some location => [CallOpenEditor location]
                   | None => []
                   end
  /\ (lastEditLocation st = None -> openLastEditLocation st' = st').
Proof.
  simpl. repeat split.
  - unfold openLastEditLocation. simpl.
    destruct (lastEditLocation st); simpl.
    + reflexivity.
    + symmetry. apply app_nil_r.
  - intro E. unfold openLastEditLocation. simpl. rewrite E. reflexivity.
Qed.

(** ** Push or replace on a selection event *)

Lemma compareResult_eqb_eq (a b : EditorPaneSelectionCompareResult) :
  compareResult_eqb a b = true <-> a = b.
Proof.
  destruct a, b; simpl; split; intro E; try reflexivity; discriminate E.
Qed.

Lemma justifiesNewNavigationEntry_iff (this other : EditorSelectionState) :
  justifiesNewNavigationEntry this other = true <->
  ss_reason other = Some NAVIGATION
  \/ editor_matches (ss_editor this) (ss_editor other) = false
  \/ ss_selection this = None
  \/ ss_selection other = None
  \/ (exists a b, ss_selection this = Some a /\ ss_selection other = Some b
                  /\ compare b a = DIFFERENT).
Proof.
  unfold justifiesNewNavigationEntry.
  destruct (ss_reason other) as [[| | |] |] eqn:Er; simpl;
    try (split; [intros _; left; reflexivity | reflexivity]);
    (destruct (editor_matches (ss_editor this) (ss_editor other)) eqn:Em;
     simpl; [| split; [intros _; right; left; reflexivity | reflexivity]];
     destruct (ss_selection this) as [a |] eqn:Ea;
     [| split; [intros _; right; right; left; reflexivity | reflexivity]];
     destruct (ss_selection other) as [b |] eqn:Eb;
     [| split; [intros _; do 3 right; left; reflexivity | reflexivity]];
     rewrite compareResult_eqb_eq; split;
     [ intro Hc; do 4 right; exists a, b; auto
     | intros [Hn | [Hn | [Hn | [Hn | (a' & b' & Ha & Hb & Hc)]]]];
       try discriminate Hn;
       injection Ha as <-; injection Hb as <-; exact Hc ]).
Qed.

Lemma decideReplace_iff (st : State) (editor : EditorRef)
  (selection : option IEditorPaneSelection) (forceReplace : bool) :
  decideReplace st editor selection forceReplace = true <->
  exists currentEntry,
    js_get (editorNavigationStack st) (editorNavigationStackIndex st)
    = Some currentEntry
    /\ (forceReplace = true
        \/ (matches (OfRef (entry_editor currentEntry)) editor = true
            /\ shouldReplaceEditorPaneSelection currentEntry selection = true)).
Proof.
  unfold decideReplace.
  destruct (js_get (editorNavigationStack st) (editorNavigationStackIndex st))
    as [currentEntry |].
  - destruct forceReplace.
    + split; [intros _; exists currentEntry; auto | reflexivity].
    + rewrite andb_true_iff. split.
      * intro Hm. exists currentEntry. auto.
      * intros (ce & Hce & [Hf | Hm]); [discriminate Hf |].
        injection Hce as <-. exact Hm.
  - split; [discriminate |]. intros (ce & Hce & _). discriminate Hce.
Qed.

Lemma replace_is_replaceAtCursor (st : State) (editor : EditorRef)
  (selection : option IEditorPaneSelection) (forceReplace : bool)
  (stackEditorInput : EditorRef) :
  decideReplace st editor selection forceReplace = true ->
  preferResourceEditorInput editor = Some stackEditorInput ->
  let st' :=
    doAddOrReplaceInEditorNavigationStack st editor selection forceReplace in
  editorNavigationStack st'
  = js_set (editorNavigationStack st) (editorNavigationStackIndex st)
           (mkEntry stackEditorInput selection)
  /\ editorNavigationStackIndex st' = editorNavigationStackIndex st
  /\ lastEditorNavigationStackIndex st' = lastEditorNavigationStackIndex st.
Proof.
  intros Hr Hp. unfold doAddOrReplaceInEditorNavigationStack.
  rewrite Hr, Hp. simpl. auto.
Qed.

Lemma js_set_length {A : Type} (l : list A) (i : Z) (x : A) :
  length (js_set l i x) = length l.
Proof.
  unfold js_set. destruct (js_get l i) eqn:E; [| reflexivity].
  unfold js_get in E. destruct (i <? 0); [discriminate E |].
  assert (Hlt : (Z.to_nat i < length l)%nat).
  { apply nth_error_Some. rewrite E. discriminate. }
  rewrite length_app. cbn [length]. rewrite length_firstn, length_skipn. lia.
Qed.

(** ** The navigation stack stays well formed *)

Lemma navigationStackOk_fields (st st' : State) :
  editorNavigationStack st' = editorNavigationStack st ->
  editorNavigationStackIndex st' = editorNavigationStackIndex st ->
  lastEditorNavigationStackIndex st' = lastEditorNavigationStackIndex st ->
  navigationStackOk st -> navigationStackOk st'.
Proof.
  intros Es Ei El. unfold navigationStackOk. rewrite Es, Ei, El. auto.
Qed.

Lemma insertAfterCursor_ok (st : State) (entry : IEditorWithSelection) :
  navigationStackOk st -> navigationStackOk (fst (insertAfterCursor st entry)).
Proof.
  intros (Hmax & Hi & Hl).
  pose proof (grownStack_length st entry Hi) as Hlen.
  unfold navigationStackOk, MAX_EDITOR_NAVIGATION_STACK_ITEMS in *.
  destruct (Z_lt_le_dec (editorNavigationStackIndex st) 49) as [Hlow | Hhigh].
  - destruct (insertAfterCursor_room st entry Hi) as (Rs & Ri & Rl);
      [unfold MAX_EDITOR_NAVIGATION_STACK_ITEMS; lia |].
    rewrite Rs, Ri, Rl. lia.
  - destruct (insertAfterCursor_full st entry Hi) as (Rs & Ri & Rl);
      [unfold MAX_EDITOR_NAVIGATION_STACK_ITEMS; lia |].
    rewrite Rs, Ri, Rl.
    assert (Ht : Z.of_nat (length (tl (grownStack st entry)))
                 = editorNavigationStackIndex st + 1).
    { destruct (grownStack st entry); cbn [length tl] in *; lia. }
    rewrite Ht.
    destruct (lastEditorNavigationStackIndex st >=? 0) eqn:G.
    + apply Z.geb_le in G. lia.
    + lia.
Qed.

Lemma doAddOrReplaceInEditorNavigationStack_ok (st : State)
  (editor : EditorRef) (selection : option IEditorPaneSelection)
  (forceReplace : bool) :
  navigationStackOk st ->
  navigationStackOk
    (doAddOrReplaceInEditorNavigationStack st editor selection forceReplace).
Proof.
  intro Hok.
  destruct (preferResourceEditorInput editor) as [stored |] eqn:Hp.
  - destruct (decideReplace st editor selection forceReplace) eqn:Hr.
    + destruct (replace_is_replaceAtCursor st editor selection forceReplace
                  stored Hr Hp) as (Es & Ei & El).
      unfold navigationStackOk. rewrite Es, Ei, El, js_set_length.
      exact Hok.
    + destruct (push_is_insertAfterCursor st editor selection forceReplace
                  stored Hr Hp) as (Es & Ei & El).
      apply (navigationStackOk_fields
               (fst (insertAfterCursor st (mkEntry stored selection))));
        auto.
      apply insertAfterCursor_ok. exact Hok.
  - unfold doAddOrReplaceInEditorNavigationStack. rewrite Hp. exact Hok.
Qed.

Lemma addToEditorNavigationStack_ok (st : State) (editor : EditorRef)
  (selection : option IEditorPaneSelection) :
  navigationStackOk st ->
  navigationStackOk (addToEditorNavigationStack st editor selection).
Proof.
  intro Hok. unfold addToEditorNavigationStack.
  destruct (negb (navigatingInEditorStack st)); [| exact Hok].
  apply doAddOrReplaceInEditorNavigationStack_ok. exact Hok.
Qed.

Lemma replaceInEditorNavigationStack_ok (st : State) (editor : EditorRef)
  (selection : option IEditorPaneSelection) :
  navigationStackOk st ->
  navigationStackOk (replaceInEditorNavigationStack st editor selection).
Proof.
  intro Hok. unfold replaceInEditorNavigationStack.
  destruct (negb (navigatingInEditorStack st)); [| exact Hok].
  apply doAddOrReplaceInEditorNavigationStack_ok. exact Hok.
Qed.

Lemma with_current_ok (st : State) (v : option EditorSelectionState) :
  navigationStackOk st -> navigationStackOk (with_current st v).
Proof. intro Hok. exact Hok. Qed.

Lemma handleEventInEditorNavigationStack_ok (st : State)
  (editorPane : option IEditorPane)
  (reason : option EditorPaneSelectionChangeReason) :
  navigationStackOk st ->
  navigationStackOk (handleEventInEditorNavigationStack st editorPane reason).
Proof.
  intro Hok. unfold handleEventInEditorNavigationStack.
  destruct (navigatingInEditorStack st).
  - destruct editorPane as [pane |]; [| exact Hok].
    destruct (pane_input pane); [| exact Hok].
    destruct (pane_inputDisposed pane); [exact Hok |].
    destruct (pane_withSelection pane); exact Hok.
  - destruct editorPane as [pane |]; [| exact Hok].
    destruct (pane_input pane) as [input |] eqn:Hin; [| exact Hok].
    destruct (pane_inputDisposed pane); [exact Hok |].
    destruct (pane_withSelection pane).
    + unfold handleSelectionAwareEditorEventInEditorNavigationStack.
      apply with_current_ok.
      destruct (match currentEditorSelectionState st with
                | Some current => _
                | None => true
                end).
      * apply addToEditorNavigationStack_ok. exact Hok.
      * apply replaceInEditorNavigationStack_ok. exact Hok.
    + unfold handleNonSelectionAwareEditorEventInEditorNavigationStack.
      rewrite Hin.
      destruct (match js_get _ _ with Some _ => _ | None => false end).
      * exact Hok.
      * apply addToEditorNavigationStack_ok. exact Hok.
Qed.

Lemma navigate_ok (st : State) :
  navigationStackOk st -> navigationStackOk (navigate st).
Proof.
  destruct (navigate_stack st) as (Es & Ei & El).
  apply navigationStackOk_fields; assumption.
Qed.

Lemma removeFromEditorNavigationStack_ok (st : State) (arg1 : MatchArg) :
  navigationStackOk st ->
  navigationStackOk (fst (removeFromEditorNavigationStack st arg1)).
Proof.
  intros (Hmax & _). unfold navigationStackOk.
  cbn [removeFromEditorNavigationStack fst editorNavigationStack
       editorNavigationStackIndex lastEditorNavigationStackIndex
       with_lastIndex with_index with_stackListeners with_stack].
  pose proof (filter_length_le
                (fun entry => negb (matches arg1 (entry_editor entry)))
                (editorNavigationStack st)).
  lia.
Qed.

Lemma navigationStep_ok (st : State) (ev : NavigationEvent) :
  navigationStackOk st -> navigationStackOk (navigationStep st ev).
Proof.
  intro Hok. pose proof Hok as (Hmax & Hi & Hl).
  destruct ev as [| | | | editorPane reason | arg1 | event |];
    cbn [navigationStep].
  - unfold back. destruct (Z.gtb_spec (editorNavigationStackIndex st) 0);
      [| exact Hok].
    apply navigate_ok. unfold navigationStackOk. simpl. lia.
  - unfold forward.
    destruct (Z.gtb_spec (Z.of_nat (length (editorNavigationStack st)))
                (editorNavigationStackIndex st + 1)); [| exact Hok].
    apply navigate_ok. unfold navigationStackOk. simpl. lia.
  - unfold last.
    destruct (Z.eqb_spec (lastEditorNavigationStackIndex st) (-1)).
    + unfold back. destruct (Z.gtb_spec (editorNavigationStackIndex st) 0);
        [| exact Hok].
      apply navigate_ok. unfold navigationStackOk. simpl. lia.
    + apply navigate_ok. unfold navigationStackOk. simpl. lia.
  - exact Hok.
  - apply handleEventInEditorNavigationStack_ok. exact Hok.
  - apply removeFromEditorNavigationStack_ok. exact Hok.
  - unfold moveInEditorNavigationStack.
    pose proof (removeFromEditorNavigationStack_ok st (OfOperation event) Hok)
      as Hrem.
    destruct (removeFromEditorNavigationStack st (OfOperation event))
      as [st1 removed].
    cbn [fst] in Hrem.
    destruct (op_target event); [| exact Hrem].
    destruct removed; [| exact Hrem].
    apply addToEditorNavigationStack_ok. exact Hrem.
  - unfold navigationStackOk, MAX_EDITOR_NAVIGATION_STACK_ITEMS. simpl. lia.
Qed.

Lemma runNavigation_ok (events : list NavigationEvent) :
  navigationStackOk (runNavigation events).
Proof.
  unfold runNavigation. apply fold_left_invariant.
  - intros st ev. apply navigationStep_ok.
  - unfold navigationStackOk, MAX_EDITOR_NAVIGATION_STACK_ITEMS. simpl. lia.
Qed.

(** C1 (amended).  Whatever events reach it, the navigation stack holds at
    most fifty entries and its cursors stay between [-1] and the last
    index.  A qualifying push on such a stack leaves the cursor on the new
    entry.  With the cursor on the tail of a full stack (index 49) the
    entry at index 0 is evicted, the cursor stays on 49 and the last cursor
    is decremented when it was at least [0]; with the cursor below the tail
    the entries after it make room and nothing is evicted. *)
Theorem push_keeps_bound :
  (forall events : list NavigationEvent,
      navigationStackOk (runNavigation events))
  /\ (forall (st : State) (editor : EditorRef)
             (selection : option IEditorPaneSelection)
             (stackEditorInput : EditorRef),
         decideReplace st editor selection false = false ->
         preferResourceEditorInput editor = Some stackEditorInput ->
         navigationStackOk st ->
         let st' :=
           doAddOrReplaceInEditorNavigationStack st editor selection false in
         let entry := mkEntry stackEditorInput selection in
         navigationStackOk st'
         /\ js_get (editorNavigationStack st') (editorNavigationStackIndex st')
            = Some entry
         /\ (editorNavigationStackIndex st
             = MAX_EDITOR_NAVIGATION_STACK_ITEMS - 1 ->
             editorNavigationStack st'
             = tl (editorNavigationStack st) ++ [entry]
             /\ editorNavigationStackIndex st' = editorNavigationStackIndex st
             /\ lastEditorNavigationStackIndex st'
                = (if lastEditorNavigationStackIndex st >=? 0
                   then lastEditorNavigationStackIndex st - 1
                   else lastEditorNavigationStackIndex st))
         /\ (editorNavigationStackIndex st
             < MAX_EDITOR_NAVIGATION_STACK_ITEMS - 1 ->
             editorNavigationStack st'
             = firstn (Z.to_nat (editorNavigationStackIndex st + 1))
                      (editorNavigationStack st) ++ [entry]
             /\ editorNavigationStackIndex st'
                = editorNavigationStackIndex st + 1)).
Proof.
  split; [exact runNavigation_ok |].
  intros st editor selection stackEditorInput Hr Hp (Hmax & Hi & Hl)
         st' entry.
  destruct (push_is_insertAfterCursor st editor selection false
              stackEditorInput Hr Hp) as (Es & Ei & El).
  fold st' in Es, Ei, El. fold entry in Es, Ei, El.
  pose proof (grownStack_length st entry Hi) as Hlen.
  unfold MAX_EDITOR_NAVIGATION_STACK_ITEMS in *.
  assert (Hlast : forall k, (length (grownStack st entry) = S k)%nat ->
                            nth_error (grownStack st entry) k = Some entry).
  { intros k Hk. unfold grownStack in *.
    rewrite length_app in Hk. simpl in Hk.
    rewrite nth_error_app2 by lia.
    replace (k - length (firstn (Z.to_nat (editorNavigationStackIndex st + 1))
                           (editorNavigationStack st)))%nat with 0%nat by lia.
    reflexivity. }
  destruct (Z_lt_le_dec (editorNavigationStackIndex st) 49) as [Hlow | Hhigh].
  - (* room left *)
    destruct (insertAfterCursor_room st entry Hi) as (Rs & Ri & Rl);
      [unfold MAX_EDITOR_NAVIGATION_STACK_ITEMS; lia |].
    rewrite Rs in Es. rewrite Ri in Ei. rewrite Rl in El.
    repeat split.
    + unfold MAX_EDITOR_NAVIGATION_STACK_ITEMS. rewrite Es. lia.
    + lia.
    + rewrite Es. lia.
    + lia.
    + rewrite Es. lia.
    + rewrite Es, Ei. unfold js_get.
      replace (editorNavigationStackIndex st + 1 <? 0) with false
        by (symmetry; apply Z.ltb_ge; lia).
      apply Hlast. lia.
    + lia.
    + lia.
    + lia.
    + exact Es.
    + exact Ei.
  - (* full stack, cursor on the tail *)
    assert (Hc : editorNavigationStackIndex st = 49) by lia.
    assert (Hn : length (editorNavigationStack st) = 50%nat) by lia.
    destruct (insertAfterCursor_full st entry Hi) as (Rs & Ri & Rl);
      [unfold MAX_EDITOR_NAVIGATION_STACK_ITEMS; lia |].
    rewrite Rs in Es. rewrite Ri in Ei. rewrite Rl in El.
    assert (Hg : grownStack st entry = editorNavigationStack st ++ [entry]).
    { unfold grownStack. rewrite Hc. f_equal.
      apply firstn_all2. rewrite Hn. simpl. lia. }
    assert (Ht : tl (grownStack st entry)
                 = tl (editorNavigationStack st) ++ [entry]).
    { rewrite Hg. destruct (editorNavigationStack st); [discriminate Hn |].
      reflexivity. }
    assert (Htl : length (tl (editorNavigationStack st)) = 49%nat).
    { destruct (editorNavigationStack st); [discriminate Hn |].
      simpl in *. lia. }
    assert (Hlen' : length (editorNavigationStack st') = 50%nat).
    { rewrite Es, Ht, length_app, Htl. reflexivity. }
    repeat split.
    + unfold MAX_EDITOR_NAVIGATION_STACK_ITEMS. lia.
    + lia.
    + lia.
    + rewrite El. destruct (lastEditorNavigationStackIndex st >=? 0) eqn:G.
      * apply Z.geb_le in G. lia.
      * lia.
    + rewrite El. destruct (lastEditorNavigationStackIndex st >=? 0); lia.
    + rewrite Es, Ei, Ht, Hc. unfold js_get.
      change (49 <? 0) with false. cbv iota.
      replace (Z.to_nat 49) with (length (tl (editorNavigationStack st)))
        by (rewrite Htl; reflexivity).
      rewrite nth_error_app2 by apply Nat.le_refl.
      rewrite Nat.sub_diag. reflexivity.
    + rewrite Es. exact Ht.
    + exact Ei.
    + exact El.
    + lia.
    + lia.
Qed.

Lemma selection_event_unfold (st : State) (editor : EditorInput)
  (selection : option IEditorPaneSelection)
  (reason : option EditorPaneSelectionChangeReason) :
  navigatingInEditorStack st = false ->
  let candidate := mkSelectionState editor selection reason in
  let justified :=
    match currentEditorSelectionState st with
    | None => true
    | Some current => justifiesNewNavigationEntry current candidate
    end in
  handleSelectionAwareEditorEventInEditorNavigationStack
    st editor selection reason
  = with_current
      (doAddOrReplaceInEditorNavigationStack st (Typed editor) selection
         (negb justified))
      (Some candidate).
Proof.
  intro Hn. unfold handleSelectionAwareEditorEventInEditorNavigationStack.
  unfold addToEditorNavigationStack, replaceInEditorNavigationStack.
  rewrite Hn. simpl.
  destruct (currentEditorSelectionState st) as [current |]; simpl.
  - destruct (justifiesNewNavigationEntry current
                (mkSelectionState editor selection reason)); reflexivity.
  - reflexivity.
Qed.

(** The first selection event on a fresh navigation stack pushes. *)
Lemma first_selection_event (st : State) (editor : EditorInput)
  (selection : option IEditorPaneSelection)
  (reason : option EditorPaneSelectionChangeReason)
  (stackEditorInput : EditorRef) :
  freshNavigation st ->
  preferResourceEditorInput (Typed editor) = Some stackEditorInput ->
  let st1 :=
    handleSelectionAwareEditorEventInEditorNavigationStack
      st editor selection reason in
  editorNavigationStack st1 = [mkEntry stackEditorInput selection]
  /\ editorNavigationStackIndex st1 = 0
  /\ currentEditorSelectionState st1
     = Some (mkSelectionState editor selection reason)
  /\ navigatingInEditorStack st1 = false.
Proof.
  intros (Hs & Hi & Hc & Hn) Hp.
  rewrite selection_event_unfold by exact Hn.
  rewrite Hc. simpl negb.
  assert (Hr : decideReplace st (Typed editor) selection false = false).
  { unfold decideReplace. rewrite Hs, Hi. reflexivity. }
  destruct (push_is_insertAfterCursor st (Typed editor) selection false
              stackEditorInput Hr Hp) as (Es & Ei & _).
  destruct (insertAfterCursor_room st (mkEntry stackEditorInput selection))
    as (Rs & Ri & _).
  { rewrite Hs, Hi. simpl. lia. }
  { rewrite Hi. unfold MAX_EDITOR_NAVIGATION_STACK_ITEMS. lia. }
  simpl. rewrite Es, Ei, Rs, Ri. unfold grownStack. rewrite Hs, Hi. simpl.
  repeat split.
  unfold doAddOrReplaceInEditorNavigationStack. rewrite Hr, Hp.
  destruct (insertAfterCursor st (mkEntry stackEditorInput selection))
    as [st1 removed] eqn:E.
  simpl. unfold insertAfterCursor in E. rewrite Hs, Hi in E. simpl in E.
  injection E as <- _. simpl. exact Hn.
Qed.

(** C2 (amended).  [justifiesNewNavigationEntry] holds exactly when the
    candidate's reason is NAVIGATION, or the editors differ, or a selection
    is missing on either side, or the comparison gives DIFFERENT.  A
    selection event takes the add path iff there is no current state or the
    candidate justifies an entry, and the forced replace path otherwise.
    The entry at the cursor is replaced iff there is one and either the
    replace is forced, or that entry matches the editor and has no selection
    or one that compares IDENTICAL with the new one; in every other case a
    new entry is pushed.  On a fresh stack, two events on one editor whose
    selections compare IDENTICAL leave one entry (for a second event of
    reason NAVIGATION: when the stored entry matches the editor and the
    comparison in stack order is IDENTICAL too), and two whose selections
    compare DIFFERENT leave two (when the stored entry does not match the
    editor or the comparison in stack order is not IDENTICAL). *)
Theorem selection_event_pushes_or_replaces :
  (forall this other : EditorSelectionState,
      justifiesNewNavigationEntry this other = true <->
      ss_reason other = Some NAVIGATION
      \/ editor_matches (ss_editor this) (ss_editor other) = false
      \/ ss_selection this = None
      \/ ss_selection other = None
      \/ (exists a b, ss_selection this = Some a /\ ss_selection other = Some b
                      /\ compare b a = DIFFERENT))
  /\ (forall (st : State) (editor : EditorInput)
             (selection : option IEditorPaneSelection)
             (reason : option EditorPaneSelectionChangeReason)
             (stackEditorInput : EditorRef),
         navigatingInEditorStack st = false ->
         preferResourceEditorInput (Typed editor) = Some stackEditorInput ->
         let candidate := mkSelectionState editor selection reason in
         let justified :=
           match currentEditorSelectionState st with
           | None => true
           | Some current => justifiesNewNavigationEntry current candidate
           end in
         let replaces :=
           decideReplace st (Typed editor) selection (negb justified) in
         let entry := mkEntry stackEditorInput selection in
         let st' :=
           handleSelectionAwareEditorEventInEditorNavigationStack
             st editor selection reason in
         currentEditorSelectionState st' = Some candidate
         /\ (replaces = true <->
             exists currentEntry,
               js_get (editorNavigationStack st)
                      (editorNavigationStackIndex st) = Some currentEntry
               /\ (justified = false
                   \/ (matches (OfRef (entry_editor currentEntry))
                         (Typed editor) = true
                       /\ shouldReplaceEditorPaneSelection currentEntry
                            selection = true)))
         /\ (replaces = true ->
             editorNavigationStack st'
             = js_set (editorNavigationStack st)
                      (editorNavigationStackIndex st) entry
             /\ length (editorNavigationStack st')
                = length (editorNavigationStack st)
             /\ editorNavigationStackIndex st' = editorNavigationStackIndex st)
         /\ (replaces = false ->
             editorNavigationStack st'
             = editorNavigationStack (fst (insertAfterCursor st entry))
             /\ editorNavigationStackIndex st'
                = editorNavigationStackIndex (fst (insertAfterCursor st entry))))
  /\ (forall (st : State) (editor : EditorInput)
             (s1 s2 : IEditorPaneSelection)
             (r1 r2 : option EditorPaneSelectionChangeReason)
             (stackEditorInput : EditorRef),
         freshNavigation st ->
         preferResourceEditorInput (Typed editor) = Some stackEditorInput ->
         editor_matches editor editor = true ->
         compare s2 s1 = IDENTICAL ->
         r2 <> Some NAVIGATION
         \/ (matches (OfRef stackEditorInput) (Typed editor) = true
             /\ compare s1 s2 = IDENTICAL) ->
         editorNavigationStack
           (handleSelectionAwareEditorEventInEditorNavigationStack
              (handleSelectionAwareEditorEventInEditorNavigationStack
                 st editor (Some s1) r1)
              editor (Some s2) r2)
         = [mkEntry stackEditorInput (Some s2)])
  /\ (forall (st : State) (editor : EditorInput)
             (s1 s2 : IEditorPaneSelection)
             (r1 r2 : option EditorPaneSelectionChangeReason)
             (stackEditorInput : EditorRef),
         freshNavigation st ->
         preferResourceEditorInput (Typed editor) = Some stackEditorInput ->
         compare s2 s1 = DIFFERENT ->
         matches (OfRef stackEditorInput) (Typed editor) = false
         \/ compare s1 s2 <> IDENTICAL ->
         editorNavigationStack
           (handleSelectionAwareEditorEventInEditorNavigationStack
              (handleSelectionAwareEditorEventInEditorNavigationStack
                 st editor (Some s1) r1)
              editor (Some s2) r2)
         = [mkEntry stackEditorInput (Some s1);
            mkEntry stackEditorInput (Some s2)]).
Proof.
  split; [exact justifiesNewNavigationEntry_iff |].
  split; [| split].
  - intros st editor selection reason stackEditorInput Hn Hp
           candidate justified replaces entry st'.
    assert (Est : st' = with_current
                          (doAddOrReplaceInEditorNavigationStack
                             st (Typed editor) selection (negb justified))
                          (Some candidate)).
    { apply selection_event_unfold. exact Hn. }
    split; [rewrite Est; reflexivity |].
    split.
    { unfold replaces. rewrite decideReplace_iff.
      split; intros (ce & Hce & Hd); exists ce; (split; [exact Hce |]);
        destruct Hd as [Hf | Hm]; auto; left;
        destruct justified; simpl in *; congruence. }
    split; intro Hr.
    + destruct (replace_is_replaceAtCursor st (Typed editor) selection
                  (negb justified) stackEditorInput Hr Hp) as (Es & Ei & _).
      rewrite Est. simpl. rewrite Es, Ei.
      rewrite js_set_length. auto.
    + destruct (push_is_insertAfterCursor st (Typed editor) selection
                  (negb justified) stackEditorInput Hr Hp) as (Es & Ei & _).
      rewrite Est. simpl. auto.
  - intros st editor s1 s2 r1 r2 x Hfresh Hp Hm Hc Hside.
    destruct (first_selection_event st editor (Some s1) r1 x Hfresh Hp)
      as (Hs1 & Hi1 & Hc1 & Hn1).
    set (st1 := handleSelectionAwareEditorEventInEditorNavigationStack
                  st editor (Some s1) r1) in *.
    rewrite selection_event_unfold by exact Hn1.
    rewrite Hc1. simpl.
    set (force := negb (justifiesNewNavigationEntry
                          (mkSelectionState editor (Some s1) r1)
                          (mkSelectionState editor (Some s2) r2))).
    assert (Hr : decideReplace st1 (Typed editor) (Some s2) force = true).
    { apply decideReplace_iff. exists (mkEntry x (Some s1)).
      split; [rewrite Hs1, Hi1; reflexivity |].
      destruct Hside as [Hnav | [Hmx Hc']].
      - left. unfold force, justifiesNewNavigationEntry. simpl.
        replace (isNavigationReason r2) with false.
        + rewrite Hm, Hc. reflexivity.
        + destruct r2 as [[| | |] |]; try reflexivity.
          exfalso. apply Hnav. reflexivity.
      - right. split; [exact Hmx |].
        unfold shouldReplaceEditorPaneSelection. simpl.
        rewrite Hc'. reflexivity. }
    destruct (replace_is_replaceAtCursor st1 (Typed editor) (Some s2) force
                x Hr Hp) as (Es & _).
    rewrite Es, Hs1, Hi1. reflexivity.
  - intros st editor s1 s2 r1 r2 x Hfresh Hp Hc Hside.
    destruct (first_selection_event st editor (Some s1) r1 x Hfresh Hp)
      as (Hs1 & Hi1 & Hc1 & Hn1).
    set (st1 := handleSelectionAwareEditorEventInEditorNavigationStack
                  st editor (Some s1) r1) in *.
    rewrite selection_event_unfold by exact Hn1.
    rewrite Hc1. simpl.
    assert (Hj : justifiesNewNavigationEntry
                   (mkSelectionState editor (Some s1) r1)
                   (mkSelectionState editor (Some s2) r2) = true).
    { apply justifiesNewNavigationEntry_iff. do 4 right.
      exists s1, s2. simpl. auto. }
    rewrite Hj. simpl negb.
    assert (Hr : decideReplace st1 (Typed editor) (Some s2) false = false).
    { assert (Hget : js_get (editorNavigationStack st1)
                            (editorNavigationStackIndex st1)
                     = Some (mkEntry x (Some s1)))
        by (rewrite Hs1, Hi1; reflexivity).
      unfold decideReplace. rewrite Hget. cbv beta iota.
      cbn [entry_editor]. apply andb_false_iff.
      destruct Hside as [Hmx | Hc'].
      - left. exact Hmx.
      - right. unfold shouldReplaceEditorPaneSelection. cbn [entry_selection].
        destruct (compare s1 s2); try reflexivity.
        exfalso. apply Hc'. reflexivity. }
    destruct (push_is_insertAfterCursor st1 (Typed editor) (Some s2) false x
                Hr Hp) as (Es & _).
    destruct (insertAfterCursor_room st1 (mkEntry x (Some s2)))
      as (Rs & _).
    { rewrite Hs1, Hi1. simpl. lia. }
    { rewrite Hi1. unfold MAX_EDITOR_NAVIGATION_STACK_ITEMS. lia. }
    rewrite Es, Rs. unfold grownStack. rewrite Hs1, Hi1. reflexivity.
Qed.

(** ** Global history *)

Lemma preferResourceEditorInput_typed (editor : EditorInput) :
  preferResourceEditorInput (Typed editor) = Some (storedForm editor).
Proof.
  unfold storedForm.
  destruct (preferResourceEditorInput (Typed editor)) eqn:E; [reflexivity |].
  unfold preferResourceEditorInput in E.
  destruct (_ || _) in E; [| discriminate E].
  destruct (toUntyped editor) as [[r | tag] |]; discriminate E.
Qed.

Lemma ensureHistoryLoaded_loaded (st : State) (h : list EditorRef) :
  history st = Some h -> ensureHistoryLoaded st = st.
Proof.
  intro E. unfold ensureHistoryLoaded. rewrite E. reflexivity.
Qed.

Lemma forallb_filter_id {A : Type} (f : A -> bool) (l : list A) :
  forallb f l = true -> filter f l = l.
Proof.
  induction l as [| a l IH]; simpl; intro E.
  - reflexivity.
  - apply andb_true_iff in E. destruct E as [Ea El].
    rewrite Ea. f_equal. apply IH. exact El.
Qed.

Lemma forallb_of_filter {A : Type} (f : A -> bool) (l : list A) :
  forallb f (filter f l) = true.
Proof.
  induction l as [| a l IH]; simpl.
  - reflexivity.
  - destruct (f a) eqn:Ea; simpl; [rewrite Ea |]; exact IH.
Qed.




Lemma boundHistory_cons (x : EditorRef) (l : list EditorRef) :
  exists l', boundHistory (x :: l) = x :: l'
             /\ (l' = l \/ l' = removelast l).
Proof.
  unfold boundHistory.
  destruct (Z.of_nat (length (x :: l)) >? MAX_HISTORY_ITEMS) eqn:G.
  - destruct l as [| y l].
    + apply Z.gtb_lt in G. unfold MAX_HISTORY_ITEMS in G. simpl in G. lia.
    + exists (removelast (y :: l)). split; [reflexivity | right; reflexivity].
  - exists l. split; [reflexivity | left; reflexivity].
Qed.


Lemma boundHistory_firstn (x : EditorRef) (l : list EditorRef) :
  boundHistory (x :: firstn 200 l) = firstn 200 (x :: l).
Proof.
  unfold boundHistory, MAX_HISTORY_ITEMS.
  destruct (Nat.lt_ge_cases (length l) 200) as [Hshort | Hlong].
  - rewrite firstn_all2 by lia.
    destruct (Z.gtb_spec (Z.of_nat (length (x :: l))) 200) as [G | G].
    + cbn [length] in G. lia.
    + symmetry. apply firstn_all2. cbn [length] in *. lia.
  - destruct (Z.gtb_spec (Z.of_nat (length (x :: firstn 200 l))) 200)
      as [G | G].
    + change (firstn 200 (x :: l)) with (x :: firstn 199 l).
      destruct (firstn 200 l) as [| y t] eqn:E.
      * apply (f_equal (@length _)) in E. rewrite length_firstn in E.
        cbn [length] in E. lia.
      * change (removelast (x :: y :: t)) with (x :: removelast (y :: t)).
        rewrite <- E. f_equal. apply removelast_firstn. lia.
    + cbn [length] in G. rewrite length_firstn in G. lia.
Qed.

Lemma addToLoadedHistory_front (st : State) (editor stored : EditorRef) :
  preferResourceEditorInput editor = Some stored ->
  history (addToLoadedHistory st editor true)
  = Some (boundHistory (stored :: loadedHistory st)).
Proof.
  intro Hp. unfold addToLoadedHistory, boundHistory. rewrite Hp.
  destruct (Z.of_nat (length (stored :: loadedHistory st))
            >? MAX_HISTORY_ITEMS); reflexivity.
Qed.

Lemma removeFromHistory_history (st : State) (arg1 : MatchArg) :
  history (fst (removeFromHistory st arg1))
  = Some (filter (fun entry => negb (matches arg1 entry))
                 (loadedHistory (ensureHistoryLoaded st))).
Proof. reflexivity. Qed.

(** The history after an editor became active: the entries that match it
    are gone, its stored form is in front, and the bound is applied. *)
Lemma handleEditorEventInHistory_history (st : State) (pane : IEditorPane)
  (editor : EditorInput) :
  pane_input pane = Some editor ->
  pane_inputDisposed pane = false ->
  history (handleEditorEventInHistory st (Some pane))
  = Some (boundHistory
            (storedForm editor
             :: filter (unmatchedBy editor)
                       (loadedHistory (ensureHistoryLoaded st)))).
Proof.
  intros Hin Hd. unfold handleEditorEventInHistory.
  rewrite Hin, Hd. cbn [includeInHistory orb negb].
  pose proof (removeFromHistory_history st (OfRef (Typed editor))) as Hrem.
  unfold addToHistory.
  rewrite (ensureHistoryLoaded_loaded _ _ Hrem).
  rewrite (addToLoadedHistory_front _ _ _
             (preferResourceEditorInput_typed editor)).
  unfold loadedHistory at 1. rewrite Hrem. reflexivity.
Qed.






(** ** Reopening closed editors *)

Lemma js_pop_last {A : Type} (l : list A) (x : A) :
  js_pop (l ++ [x]) = (Some x, l).
Proof.
  unfold js_pop. rewrite removelast_last. f_equal.
  rewrite length_app. cbn [length].
  replace (Nat.pred (length l + 1)) with (length l) by lia.
  rewrite nth_error_app2 by apply Nat.le_refl.
  rewrite Nat.sub_diag. reflexivity.
Qed.

Lemma arrays_remove_absent (array : list IRecentlyClosedEditor)
  (element : IRecentlyClosedEditor) :
  ~ In (oid element) (map oid array) -> arrays_remove array element = array.
Proof.
  induction array as [| x rest IH]; intro Hn; simpl.
  - reflexivity.
  - destruct (Nat.eqb_spec (oid x) (oid element)) as [E | E].
    + exfalso. apply Hn. left. exact E.
    + f_equal. apply IH. intro Hin. apply Hn. right. exact Hin.
Qed.

Lemma reopenTrace_counts (newestFirst : list IRecentlyClosedEditor) :
  (length (filter isReopenCall (reopenTrace newestFirst))
   <= length newestFirst)%nat
  /\ (length (filter isReopenCall (reopenTrace newestFirst))
      <= length (filter isActivation (reopenTrace newestFirst)))%nat
  /\ (length (filter isActivation (reopenTrace newestFirst))
      <= S (length newestFirst))%nat.
Proof.
  induction newestFirst as [| r older (IH1 & IH2 & IH3)].
  - simpl. lia.
  - cbn [reopenTrace].
    destruct (activeGroupContains (rc_editor r)).
    + cbn [filter isReopenCall isActivation length]. lia.
    + destruct (openYieldsPane (rc_editor r) (reopenOptions r));
        cbn [filter isReopenCall isActivation length]; lia.
Qed.

Lemma reopen_chain (newestFirst : list IRecentlyClosedEditor) :
  forall (fuel : nat) (st : State),
    NoDup (map oid newestFirst) ->
    recentlyClosedEditors st = rev newestFirst ->
    (length newestFirst < fuel)%nat ->
    exists st',
      reopenLastClosedEditor fuel st = Some st'
      /\ calls st' = calls st ++ reopenTrace newestFirst
      /\ recentlyClosedEditors st' = rev (reopenRemainder newestFirst).
Proof.
  induction newestFirst as [| r older IH]; intros fuel st Hnd Hbuf Hfuel;
    (destruct fuel as [| fuel]; [inversion Hfuel |]).
  - cbn [reopenLastClosedEditor]. cbn [emit with_calls recentlyClosedEditors].
    rewrite Hbuf. cbn [rev js_pop length Nat.pred nth_error removelast].
    eexists. split; [reflexivity |]. split; [reflexivity | exact Hbuf].
  - inversion Hnd as [| ? ? Hfresh Hnd']; subst.
    assert (Hkeep : arrays_remove (rev older) r = rev older).
    { apply arrays_remove_absent. rewrite map_rev, <- in_rev. exact Hfresh. }
    cbn [reopenLastClosedEditor]. cbn [emit with_calls recentlyClosedEditors].
    rewrite Hbuf. cbn [rev]. rewrite js_pop_last.
    unfold doReopenLastClosedEditor.
    cbn [reopenTrace reopenRemainder].
    destruct (activeGroupContains (rc_editor r)); cbn [negb andb].
    + cbn [with_closed recentlyClosedEditors]. rewrite Hkeep.
      edestruct (IH fuel) as (st' & Hrun & Hcalls & Hrest);
        [exact Hnd' | | | ].
      3:{ exists st'. split; [exact Hrun |]. split; [| exact Hrest].
          rewrite Hcalls. cbn [calls with_closed emit with_calls].
          rewrite <- app_assoc. reflexivity. }
      * reflexivity.
      * cbn [length] in Hfuel. lia.
    + destruct (openYieldsPane (rc_editor r) (reopenOptions r)).
      * eexists. split; [reflexivity |]. split.
        -- cbn [calls with_ignoreClose emit with_calls with_closed].
           rewrite <- app_assoc. reflexivity.
        -- reflexivity.
      * cbn [with_closed recentlyClosedEditors with_ignoreClose emit
             with_calls].
        rewrite Hkeep.
        edestruct (IH fuel) as (st' & Hrun & Hcalls & Hrest);
          [exact Hnd' | | | ].
        3:{ exists st'. split; [exact Hrun |]. split; [| exact Hrest].
            rewrite Hcalls.
            cbn [calls with_closed emit with_calls with_ignoreClose].
            rewrite <- !app_assoc. reflexivity. }
        -- reflexivity.
        -- cbn [length] in Hfuel. lia.
Qed.

(** C6 (amended).  On a buffer of [n] records, each an object of its own,
    [reopenLastClosedEditor] returns whenever more than [n] activations are
    allowed.  The records are tried most recent first; a record whose open
    yields no pane is discarded and the next one is tried; at most [n]
    opens are made, and with no record left the request only returns.  Each
    retry is an activation of [reopenLastClosedEditor] made by
    [doReopenLastClosedEditor], at most [n + 1] in all, and no open is
    without one. *)
Theorem reopen_retries_until_exhausted (st : State) (fuel : nat) :
  NoDup (map oid (recentlyClosedEditors st)) ->
  (length (recentlyClosedEditors st) < fuel)%nat ->
  let newestFirst := rev (recentlyClosedEditors st) in
  exists st',
    reopenLastClosedEditor fuel st = Some st'
    /\ calls st' = calls st ++ reopenTrace newestFirst
    /\ recentlyClosedEditors st' = rev (reopenRemainder newestFirst)
    /\ (length (filter isReopenCall (reopenTrace newestFirst))
        <= length (recentlyClosedEditors st))%nat
    /\ (length (filter isReopenCall (reopenTrace newestFirst))
        <= length (filter isActivation (reopenTrace newestFirst)))%nat
    /\ (length (filter isActivation (reopenTrace newestFirst))
        <= S (length (recentlyClosedEditors st)))%nat
    /\ (recentlyClosedEditors st = [] ->
        reopenLastClosedEditor fuel st
        = Some (emit st CallReopenLastClosedEditor)).
Proof.
  intros Hnd Hfuel newestFirst.
  destruct (reopen_chain newestFirst fuel st) as (st' & Hrun & Hcalls & Hrest).
  - unfold newestFirst. rewrite map_rev. apply NoDup_rev. exact Hnd.
  - unfold newestFirst. rewrite rev_involutive. reflexivity.
  - unfold newestFirst. rewrite length_rev. exact Hfuel.
  - exists st'. split; [exact Hrun |]. split; [exact Hcalls |].
    split; [exact Hrest |].
    destruct (reopenTrace_counts newestFirst) as (C1 & C2 & C3).
    unfold newestFirst in C1, C3. rewrite length_rev in C1, C3.
    split; [exact C1 |]. split; [exact C2 |]. split; [exact C3 |].
    intro Hempty. destruct fuel as [| fuel]; [inversion Hfuel |].
    cbn [reopenLastClosedEditor].
    cbn [emit with_calls recentlyClosedEditors]. rewrite Hempty.
    reflexivity.
Qed.

End Properties.

(** * Runs on the sample host *)

Ltac by_evaluation := vm_compute; first [reflexivity | discriminate].

Lemma fullStackAtTail_ok : navigationStackOk fullStackAtTail.
Proof. unfold navigationStackOk. repeat split; by_evaluation. Qed.

Lemma fullStackBelowTail_ok : navigationStackOk fullStackBelowTail.
Proof. unfold navigationStackOk. repeat split; by_evaluation. Qed.

Lemma threeEntries_ok : navigationStackOk threeEntries.
Proof. unfold navigationStackOk. repeat split; by_evaluation. Qed.

(** C1, on the sample host: the push of a new editor on a full stack whose
    cursor is on the tail. *)
Lemma push_keeps_bound_witness :
  @decideReplace sampleHost fullStackAtTail (Typed newEditor) (Some 100%nat)
    false = false
  /\ @preferResourceEditorInput sampleHost (Typed newEditor)
     = Some (Typed newEditor)
  /\ navigationStackOk fullStackAtTail
  /\ navigationStackOk
       (@doAddOrReplaceInEditorNavigationStack sampleHost fullStackAtTail
          (Typed newEditor) (Some 100%nat) false)
  /\ editorNavigationStack
       (@doAddOrReplaceInEditorNavigationStack sampleHost fullStackAtTail
          (Typed newEditor) (Some 100%nat) false)
     = tl (editorNavigationStack fullStackAtTail)
       ++ [mkEntry (Typed newEditor) (Some 100%nat)]
  /\ editorNavigationStackIndex
       (@doAddOrReplaceInEditorNavigationStack sampleHost fullStackAtTail
          (Typed newEditor) (Some 100%nat) false) = 49
  /\ lastEditorNavigationStackIndex
       (@doAddOrReplaceInEditorNavigationStack sampleHost fullStackAtTail
          (Typed newEditor) (Some 100%nat) false) = 47.
Proof.
  destruct (@push_keeps_bound sampleHost) as (_ & Hpush).
  destruct (Hpush fullStackAtTail (Typed newEditor) (Some 100%nat)
              (Typed newEditor) eq_refl eq_refl fullStackAtTail_ok)
    as (Hok & _ & Htail & _).
  destruct (Htail eq_refl) as (Hs & Hi & Hl).
  split; [reflexivity |]. split; [reflexivity |].
  split; [exact fullStackAtTail_ok |]. split; [exact Hok |].
  split; [exact Hs |]. split; [exact Hi | exact Hl].
Defined.

(** C1 as stated fails below the tail: on a stack of fifty entries whose
    cursor is on index 48, a qualifying push drops the entry after the
    cursor; the entry at index 0 is not evicted. *)
Lemma push_below_tail_evicts_nothing :
  length (editorNavigationStack fullStackBelowTail) = 50%nat
  /\ @decideReplace sampleHost fullStackBelowTail (Typed newEditor)
       (Some 100%nat) false = false
  /\ @preferResourceEditorInput sampleHost (Typed newEditor)
     = Some (Typed newEditor)
  /\ js_get (editorNavigationStack fullStackBelowTail) 0
     = Some (liveEntry 0 (Some 0%nat))
  /\ js_get
       (editorNavigationStack
          (@doAddOrReplaceInEditorNavigationStack sampleHost
             fullStackBelowTail (Typed newEditor) (Some 100%nat) false)) 0
     = Some (liveEntry 0 (Some 0%nat))
  /\ editorNavigationStack
       (@doAddOrReplaceInEditorNavigationStack sampleHost
          fullStackBelowTail (Typed newEditor) (Some 100%nat) false)
     <> tl (editorNavigationStack fullStackBelowTail)
        ++ [mkEntry (Typed newEditor) (Some 100%nat)].
Proof.
  repeat split; try by_evaluation.
Qed.

(** C2, on the sample host: a first event, then one on the same position
    (one entry), then one far away (two entries). *)
Lemma selection_event_witness :
  freshNavigation initialState
  /\ editorNavigationStack
       (@handleSelectionAwareEditorEventInEditorNavigationStack sampleHost
          (@handleSelectionAwareEditorEventInEditorNavigationStack sampleHost
             initialState newEditor (Some 5%nat) (Some USER))
          newEditor (Some 5%nat) (Some USER))
     = [mkEntry (Typed newEditor) (Some 5%nat)]
  /\ editorNavigationStack
       (@handleSelectionAwareEditorEventInEditorNavigationStack sampleHost
          (@handleSelectionAwareEditorEventInEditorNavigationStack sampleHost
             initialState newEditor (Some 5%nat) (Some USER))
          newEditor (Some 50%nat) (Some USER))
     = [mkEntry (Typed newEditor) (Some 5%nat);
        mkEntry (Typed newEditor) (Some 50%nat)].
Proof.
  assert (Hfresh : freshNavigation initialState)
    by (repeat split; reflexivity).
  destruct (@selection_event_pushes_or_replaces sampleHost)
    as (_ & _ & Hsame & Hfar).
  split; [exact Hfresh |]. split.
  - apply (Hsame initialState newEditor 5%nat 5%nat (Some USER) (Some USER)
             (Typed newEditor) Hfresh); try reflexivity.
    left. discriminate.
  - apply (Hfar initialState newEditor 5%nat 50%nat (Some USER) (Some USER)
             (Typed newEditor) Hfresh); try reflexivity.
    right. discriminate.
Defined.

(** C2 as stated fails: the second event has reason NAVIGATION, so the
    candidate justifies a new entry, yet its selection compares IDENTICAL
    with the entry at the cursor and that entry is replaced; the stack
    keeps one entry. *)
Lemma navigation_event_on_same_selection_replaces :
  currentEditorSelectionState
    (@handleSelectionAwareEditorEventInEditorNavigationStack sampleHost
       initialState newEditor (Some 5%nat) (Some USER))
  = Some (mkSelectionState newEditor (Some 5%nat) (Some USER))
  /\ @justifiesNewNavigationEntry sampleHost
       (mkSelectionState newEditor (Some 5%nat) (Some USER))
       (mkSelectionState newEditor (Some 5%nat) (Some NAVIGATION)) = true
  /\ editorNavigationStack
       (@handleSelectionAwareEditorEventInEditorNavigationStack sampleHost
          initialState newEditor (Some 5%nat) (Some USER))
     = [mkEntry (Typed newEditor) (Some 5%nat)]
  /\ editorNavigationStack
       (@handleSelectionAwareEditorEventInEditorNavigationStack sampleHost
          (@handleSelectionAwareEditorEventInEditorNavigationStack sampleHost
             initialState newEditor (Some 5%nat) (Some USER))
          newEditor (Some 5%nat) (Some NAVIGATION))
     = [mkEntry (Typed newEditor) (Some 5%nat)].
Proof.
  repeat split.
Qed.

(** C3 as stated fails: a descriptor of a file below a deleted folder
    matches the delete operation although its resource is not the deleted
    one. *)
Lemma delete_of_folder_matches_descendant :
  operation folderDeleted = DELETE
  /\ @matches sampleHost (OfOperation folderDeleted)
       (Untyped (mkResourceInput nestedFileURI None)) = true
  /\ @isEqual sampleHost nestedFileURI folderURI = false
  /\ nestedFileURI <> folderURI.
Proof.
  repeat split. discriminate.
Qed.

(** C4, on the sample host: from three entries with the cursor on the last,
    [back] and a push of a new editor. *)
Lemma push_truncates_branch_witness :
  editorNavigationStack threeEntries
  = [liveEntry 0 (Some 0%nat); liveEntry 1 (Some 1%nat);
     liveEntry 2 (Some 2%nat)]
  /\ editorNavigationStackIndex threeEntries = 2
  /\ editorNavigationStack
       (@addToEditorNavigationStack sampleHost
          (navigateSettled (@back threeEntries))
          (Typed newEditor) (Some 100%nat))
     = [liveEntry 0 (Some 0%nat); liveEntry 1 (Some 1%nat);
        mkEntry (Typed newEditor) (Some 100%nat)]
  /\ editorNavigationStackIndex
       (@addToEditorNavigationStack sampleHost
          (navigateSettled (@back threeEntries))
          (Typed newEditor) (Some 100%nat)) = 2
  /\ editorNavigationStack
       (@doAddOrReplaceInEditorNavigationStack sampleHost fullStackBelowTail
          (Typed newEditor) (Some 100%nat) false)
     = firstn 49 (editorNavigationStack fullStackBelowTail)
       ++ [mkEntry (Typed newEditor) (Some 100%nat)].
Proof.
  destruct (@push_truncates_branch sampleHost) as (Hgeneral & Hthree).
  split; [reflexivity |]. split; [reflexivity |].
  destruct (Hthree threeEntries (liveEntry 0 (Some 0%nat))
              (liveEntry 1 (Some 1%nat)) (liveEntry 2 (Some 2%nat))
              (Typed newEditor) (Some 100%nat) (Typed newEditor)
              eq_refl eq_refl eq_refl eq_refl) as (Hs & Hi).
  split; [exact Hs |]. split; [exact Hi |].
  destruct (Hgeneral fullStackBelowTail (Typed newEditor) (Some 100%nat)
              (Typed newEditor) eq_refl eq_refl fullStackBelowTail_ok)
    as (Hs' & _).
  - by_evaluation.
  - exact Hs'.
Defined.



(** C6, on the sample host: three closed editors, of which only the oldest
    opens again. *)
Lemma reopen_retries_witness :
  NoDup (map oid (recentlyClosedEditors threeClosedEditors))
  /\ (length (recentlyClosedEditors threeClosedEditors) < 4)%nat
  /\ exists st',
       @reopenLastClosedEditor sampleHost 4 threeClosedEditors = Some st'
       /\ calls st'
          = @reopenTrace sampleHost
              [closedRecord 3 "gone"; closedRecord 2 "gone";
               closedRecord 1 Schemas_file]
       /\ recentlyClosedEditors st' = [].
Proof.
  assert (Hnd : NoDup (map oid (recentlyClosedEditors threeClosedEditors))).
  { simpl. repeat constructor; simpl; intuition discriminate. }
  assert (Hfuel : (length (recentlyClosedEditors threeClosedEditors) < 4)%nat)
    by (simpl; lia).
  split; [exact Hnd |]. split; [exact Hfuel |].
  destruct (@reopen_retries_until_exhausted sampleHost threeClosedEditors 4
              Hnd Hfuel) as (st' & Hrun & Hcalls & Hrest & _).
  exists st'. split; [exact Hrun |]. split; [exact Hcalls | exact Hrest].
Defined.

(** C6 as stated fails on its last clause: with two closed editors that do
    not open, one request activates [reopenLastClosedEditor] three times,
    the second and third time from [doReopenLastClosedEditor]; the retries
    are not the turns of a loop inside one activation. *)
Lemma reopen_retries_by_reentering :
  option_map calls (@reopenLastClosedEditor sampleHost 3 twoLostEditors)
  = Some [CallReopenLastClosedEditor;
          CallReopenEditor (rc_editor (closedRecord 2 "gone"))
            (mkReopenOptions true false (Some 2) true);
          CallReopenLastClosedEditor;
          CallReopenEditor (rc_editor (closedRecord 1 "gone"))
            (mkReopenOptions true false (Some 1) true);
          CallReopenLastClosedEditor]
  /\ option_map (fun st' => length (filter isActivation (calls st')))
       (@reopenLastClosedEditor sampleHost 3 twoLostEditors)
     = Some 3%nat
  /\ @reopenLastClosedEditor sampleHost 1 twoLostEditors = None.
Proof.
  repeat split.
Qed.

(** C7 as stated fails on the last edit location: [clear] leaves it set and
    [openLastEditLocation] still opens it. *)
Lemma clear_keeps_last_edit_location :
  lastEditLocation (clear afterAnEdit)
  = Some (mkEntry (Typed notesEditor) (Some 12%nat))
  /\ calls (openLastEditLocation (clear afterAnEdit))
     = [CallOpenEditor (mkEntry (Typed notesEditor) (Some 12%nat))]
  /\ openLastEditLocation (clear afterAnEdit) <> clear afterAnEdit.
Proof.
  repeat split. discriminate.
Qed.

(** C8, on the sample host: three entries, the cursor on the last. *)
Lemma back_then_forward_witness :
  0 < editorNavigationStackIndex threeEntries
    < Z.of_nat (length (editorNavigationStack threeEntries))
  /\ editorNavigationStack (forward (back threeEntries))
     = editorNavigationStack threeEntries
  /\ editorNavigationStackIndex (forward (back threeEntries)) = 2
  /\ calls (forward (back threeEntries))
     = [CallOpenEditor (liveEntry 1 (Some 1%nat));
        CallOpenEditor (liveEntry 2 (Some 2%nat))].
Proof.
  assert (Hi : 0 < editorNavigationStackIndex threeEntries
                 < Z.of_nat (length (editorNavigationStack threeEntries)))
    by (split; reflexivity).
  destruct (back_then_forward threeEntries Hi)
    as (previous & current & Hp & Hc & Hs & Hidx & Hcalls).
  injection Hp as <-. injection Hc as <-.
  split; [exact Hi |]. split; [exact Hs |]. split; [exact Hidx |].
  exact Hcalls.
Defined.

(** C9, on the sample host: a delete event that matches nothing. *)
Lemma remove_resets_cursors_witness :
  snd (@removeFromEditorNavigationStack sampleHost threeEntries
         (OfOperation folderDeleted)) = false
  /\ editorNavigationStack
       (fst (@removeFromEditorNavigationStack sampleHost threeEntries
               (OfOperation folderDeleted)))
     = editorNavigationStack threeEntries
  /\ lastEditorNavigationStackIndex threeEntries = 1
  /\ lastEditorNavigationStackIndex
       (fst (@removeFromEditorNavigationStack sampleHost threeEntries
               (OfOperation folderDeleted))) = -1.
Proof.
  destruct (@remove_resets_cursors sampleHost threeEntries
              (OfOperation folderDeleted)) as (_ & _ & Hl & Hsame).
  split; [reflexivity |]. split; [exact (Hsame eq_refl) |].
  split; [reflexivity | exact Hl].
Defined.

(** C10, on the sample host: three entries, the cursor on the last, no
    jump recorded. *)
Lemma last_without_jump_witness :
  lastEditorNavigationStackIndex (stackOfSize 3 2 (-1)) = -1
  /\ last (stackOfSize 3 2 (-1)) = back (stackOfSize 3 2 (-1))
  /\ editorNavigationStackIndex (last (stackOfSize 3 2 (-1))) = 1
  /\ last (stackOfSize 3 0 (-1)) = stackOfSize 3 0 (-1).
Proof.
  destruct (last_without_jump_is_back (stackOfSize 3 2 (-1)) eq_refl)
    as (Hsame & Hmove & _).
  destruct (last_without_jump_is_back (stackOfSize 3 0 (-1)) eq_refl)
    as (_ & _ & Hstay).
  split; [reflexivity |]. split; [exact Hsame |].
  split; [exact (Hmove eq_refl) | apply Hstay; discriminate].
Defined.

(** * Further properties *)

Section FurtherProperties.

Context {host : Host} {workbench : Workbench}.

(** ** Replay *)

Lemma js_get_in {A : Type} (l : list A) (i : Z) (x : A) :
  js_get l i = Some x -> In x l.
Proof.
  unfold js_get. destruct (i <? 0); [discriminate |].
  apply nth_error_In.
Qed.

Lemma navigate_opens (st : State) :
  0 <= editorNavigationStackIndex st
    < Z.of_nat (length (editorNavigationStack st)) ->
  exists location,
    js_get (editorNavigationStack st) (editorNavigationStackIndex st)
    = Some location
    /\ navigate st = doNavigate (with_navigating st true) location.
Proof.
  intro Hi.
  destruct (js_get_some (editorNavigationStack st)
              (editorNavigationStackIndex st) Hi) as [location Hl].
  exists location. split; [exact Hl |].
  apply navigate_at_entry. exact Hl.
Qed.

(** X1.  While a navigation is in flight, an editor or selection event
    leaves the whole state as it is but for the current selection state,
    which follows the pane; pushes and replaces are dropped.  In
    particular the events that [back] itself provokes do not touch the
    stack that [back] left. *)
Theorem events_while_navigating_only_track_selection :
  (forall (st : State) (editorPane : option IEditorPane)
          (reason : option EditorPaneSelectionChangeReason),
      navigatingInEditorStack st = true ->
      handleEventInEditorNavigationStack st editorPane reason
      = with_current st
          match editorPane with
          | Some pane =>
              match liveInput pane with
              | Some input =>
                  if pane_withSelection pane
                  then Some (mkSelectionState input (pane_selection pane)
                               reason)
                  else None
              | None => None
              end
          | None => None
          end)
  /\ (forall (st : State) (editor : EditorRef)
             (selection : option IEditorPaneSelection),
         navigatingInEditorStack st = true ->
         addToEditorNavigationStack st editor selection = st
         /\ replaceInEditorNavigationStack st editor selection = st)
  /\ (forall (st : State) (editorPane : option IEditorPane)
             (reason : option EditorPaneSelectionChangeReason),
         0 < editorNavigationStackIndex st
           < Z.of_nat (length (editorNavigationStack st)) ->
         let st' :=
           handleEventInEditorNavigationStack (back st) editorPane reason in
         editorNavigationStack st' = editorNavigationStack st
         /\ editorNavigationStackIndex st' = editorNavigationStackIndex st - 1
         /\ calls st' = calls (back st)).
Proof.
  assert (Hgate : forall st editorPane reason,
             navigatingInEditorStack st = true ->
             handleEventInEditorNavigationStack st editorPane reason
             = with_current st
                 match editorPane with
                 | Some pane =>
                     match liveInput pane with
                     | Some input =>
                         if pane_withSelection pane
                         then Some (mkSelectionState input
                                      (pane_selection pane) reason)
                         else None
                     | None => None
                     end
                 | None => None
                 end).
  { intros st editorPane reason Hn.
    unfold handleEventInEditorNavigationStack, liveInput. rewrite Hn.
    destruct editorPane as [pane |]; [| reflexivity].
    destruct (pane_input pane); [| reflexivity].
    destruct (pane_inputDisposed pane); [reflexivity |].
    destruct (pane_withSelection pane); reflexivity. }
  split; [exact Hgate |]. split.
  - intros st editor selection Hn.
    unfold addToEditorNavigationStack, replaceInEditorNavigationStack.
    rewrite Hn. split; reflexivity.
  - intros st editorPane reason Hi st'.
    assert (Hback : exists location,
               back st
               = doNavigate
                   (with_navigating
                      (setIndex st (editorNavigationStackIndex st - 1)) true)
                   location).
    { unfold back.
      replace (editorNavigationStackIndex st >? 0) with true
        by (symmetry; apply Z.gtb_lt; lia).
      destruct (navigate_opens
                  (setIndex st (editorNavigationStackIndex st - 1)))
        as (location & _ & Hnav).
      - simpl. lia.
      - exists location. exact Hnav. }
    destruct Hback as (location & Hback).
    unfold st'. rewrite Hgate by (rewrite Hback; reflexivity).
    rewrite Hback. simpl. auto.
Qed.

Lemma replay_step (st : State) (ev : NavigationEvent) :
  navigationStackOk st ->
  isReplay ev = true ->
  editorNavigationStack (navigationStep st ev) = editorNavigationStack st
  /\ exists opened,
       calls (navigationStep st ev) = calls st ++ map CallOpenEditor opened
       /\ incl opened (editorNavigationStack st)
       /\ (length opened <= 1)%nat.
Proof.
  intros (Hmax & Hi & Hl) Hr.
  assert (Hnone : exists opened : list IEditorWithSelection,
             calls st = calls st ++ map CallOpenEditor opened
             /\ incl opened (editorNavigationStack st)
             /\ (length opened <= 1)%nat).
  { exists []. simpl. rewrite app_nil_r.
    split; [reflexivity |]. split; [apply incl_nil_l | lia]. }
  assert (Hjump : forall target,
             0 <= target < Z.of_nat (length (editorNavigationStack st)) ->
             editorNavigationStack (navigate (setIndex st target))
             = editorNavigationStack st
             /\ exists opened,
                  calls (navigate (setIndex st target))
                  = calls st ++ map CallOpenEditor opened
                  /\ incl opened (editorNavigationStack st)
                  /\ (length opened <= 1)%nat).
  { intros target Ht.
    destruct (navigate_opens (setIndex st target)) as (location & Hg & Hnav);
      [simpl; lia |].
    rewrite Hnav. split; [reflexivity |].
    exists [location]. split; [reflexivity |]. split.
    - intros x [<- | []]. apply (js_get_in _ _ _ Hg).
    - simpl. lia. }
  destruct ev; try discriminate Hr; cbn [navigationStep].
  - unfold back.
    destruct (Z.gtb_spec (editorNavigationStackIndex st) 0).
    + apply Hjump. lia.
    + split; [reflexivity | exact Hnone].
  - unfold forward.
    destruct (Z.gtb_spec (Z.of_nat (length (editorNavigationStack st)))
                (editorNavigationStackIndex st + 1)).
    + apply Hjump. lia.
    + split; [reflexivity | exact Hnone].
  - unfold last.
    destruct (Z.eqb_spec (lastEditorNavigationStackIndex st) (-1)).
    + unfold back.
      destruct (Z.gtb_spec (editorNavigationStackIndex st) 0).
      * apply Hjump. lia.
      * split; [reflexivity | exact Hnone].
    + apply Hjump. lia.
  - split; [reflexivity | exact Hnone].
Qed.

(** X2.  Any sequence of [back], [forward], [last] and settled navigations
    on a well-formed stack leaves the entries of the stack as they are and
    the cursors well formed; it opens at most one location per step, and
    only locations that are on the stack. *)
Theorem replay_only_opens_stack_entries (events : list NavigationEvent) :
  forall st : State,
    navigationStackOk st ->
    forallb isReplay events = true ->
    editorNavigationStack (fold_left navigationStep events st)
    = editorNavigationStack st
    /\ navigationStackOk (fold_left navigationStep events st)
    /\ exists opened,
         calls (fold_left navigationStep events st)
         = calls st ++ map CallOpenEditor opened
         /\ incl opened (editorNavigationStack st)
         /\ (length opened <= length events)%nat.
Proof.
  induction events as [| ev rest IH]; intros st Hok Hall.
  - simpl. split; [reflexivity |]. split; [exact Hok |].
    exists []. simpl. rewrite app_nil_r.
    split; [reflexivity |]. split; [apply incl_nil_l | lia].
  - cbn [forallb] in Hall. apply andb_true_iff in Hall.
    destruct Hall as [Hev Hrest].
    destruct (replay_step st ev Hok Hev) as (Hs & o1 & Hc1 & Hin1 & Hn1).
    pose proof (navigationStep_ok st ev Hok) as Hok1.
    destruct (IH (navigationStep st ev) Hok1 Hrest)
      as (Hs2 & Hok2 & o2 & Hc2 & Hin2 & Hn2).
    cbn [fold_left]. split; [rewrite Hs2; exact Hs |].
    split; [exact Hok2 |].
    exists (o1 ++ o2). split.
    + rewrite Hc2, Hc1, map_app, app_assoc. reflexivity.
    + split.
      * apply incl_app; [exact Hin1 |]. rewrite <- Hs. exact Hin2.
      * rewrite length_app. cbn [length]. lia.
Qed.

(** X3.  With the cursor on an entry that is not the last, [forward]
    followed by [back] leaves the stack and the cursor as they were, and
    opens the next entry and then the entry the cursor was on. *)
Theorem forward_then_back (st : State) :
  0 <= editorNavigationStackIndex st ->
  editorNavigationStackIndex st + 1
    < Z.of_nat (length (editorNavigationStack st)) ->
  exists current next,
    js_get (editorNavigationStack st) (editorNavigationStackIndex st)
    = Some current
    /\ js_get (editorNavigationStack st) (editorNavigationStackIndex st + 1)
       = Some next
    /\ editorNavigationStack (back (forward st)) = editorNavigationStack st
    /\ editorNavigationStackIndex (back (forward st))
       = editorNavigationStackIndex st
    /\ calls (back (forward st))
       = calls st ++ [CallOpenEditor next; CallOpenEditor current].
Proof.
  intros Hlo Hhi.
  destruct (js_get_some (editorNavigationStack st)
              (editorNavigationStackIndex st)) as [current Hc]; [lia |].
  destruct (js_get_some (editorNavigationStack st)
              (editorNavigationStackIndex st + 1)) as [next Hn]; [lia |].
  exists current, next. split; [exact Hc |]. split; [exact Hn |].
  unfold forward.
  replace (Z.of_nat (length (editorNavigationStack st))
           >? editorNavigationStackIndex st + 1) with true
    by (symmetry; apply Z.gtb_lt; lia).
  rewrite (navigate_at_entry (setIndex st (editorNavigationStackIndex st + 1))
             next Hn).
  unfold back. simpl.
  replace (editorNavigationStackIndex st + 1 >? 0) with true
    by (symmetry; apply Z.gtb_lt; lia).
  replace (editorNavigationStackIndex st + 1 - 1)
    with (editorNavigationStackIndex st) by lia.
  unfold navigate. simpl. rewrite Hc. simpl.
  rewrite <- app_assoc. simpl. auto.
Qed.

(** X4.  When both cursors address entries, [last] jumps to the entry of
    the last cursor and remembers where it came from, so a second [last]
    jumps back: the two cursors are swapped and swapped again, the stack is
    untouched, and the two entries are opened in turn. *)
Theorem last_twice_returns (st : State) :
  0 <= editorNavigationStackIndex st
    < Z.of_nat (length (editorNavigationStack st)) ->
  0 <= lastEditorNavigationStackIndex st
    < Z.of_nat (length (editorNavigationStack st)) ->
  exists current previous,
    js_get (editorNavigationStack st) (editorNavigationStackIndex st)
    = Some current
    /\ js_get (editorNavigationStack st) (lastEditorNavigationStackIndex st)
       = Some previous
    /\ editorNavigationStackIndex (last st)
       = lastEditorNavigationStackIndex st
    /\ lastEditorNavigationStackIndex (last st)
       = editorNavigationStackIndex st
    /\ editorNavigationStack (last (last st)) = editorNavigationStack st
    /\ editorNavigationStackIndex (last (last st))
       = editorNavigationStackIndex st
    /\ lastEditorNavigationStackIndex (last (last st))
       = lastEditorNavigationStackIndex st
    /\ calls (last (last st))
       = calls st ++ [CallOpenEditor previous; CallOpenEditor current].
Proof.
  intros Hi Hl.
  destruct (js_get_some (editorNavigationStack st)
              (editorNavigationStackIndex st) Hi) as [current Hc].
  destruct (js_get_some (editorNavigationStack st)
              (lastEditorNavigationStackIndex st) Hl) as [previous Hp].
  exists current, previous. split; [exact Hc |]. split; [exact Hp |].
  assert (E1 : last st
               = doNavigate
                   (with_navigating
                      (setIndex st (lastEditorNavigationStackIndex st)) true)
                   previous).
  { unfold last.
    destruct (Z.eqb_spec (lastEditorNavigationStackIndex st) (-1)); [lia |].
    apply navigate_at_entry. exact Hp. }
  rewrite E1. cbn [editorNavigationStackIndex lastEditorNavigationStackIndex
                   doNavigate emit with_calls with_navigating setIndex
                   with_index with_lastIndex].
  split; [reflexivity |]. split; [reflexivity |].
  set (st1 := doNavigate
                (with_navigating
                   (setIndex st (lastEditorNavigationStackIndex st)) true)
                previous).
  assert (E2 : last st1
               = doNavigate
                   (with_navigating
                      (setIndex st1 (editorNavigationStackIndex st)) true)
                   current).
  { unfold last.
    change (lastEditorNavigationStackIndex st1)
      with (editorNavigationStackIndex st).
    destruct (Z.eqb_spec (editorNavigationStackIndex st) (-1)); [lia |].
    apply navigate_at_entry. exact Hc. }
  rewrite E2. unfold st1. simpl.
  rewrite <- app_assoc. simpl. auto.
Qed.

(** ** Editors without a selection *)

Lemma liveInput_some (pane : IEditorPane) (input : EditorInput) :
  liveInput pane = Some input ->
  pane_input pane = Some input /\ pane_inputDisposed pane = false.
Proof.
  unfold liveInput. destruct (pane_input pane) as [i |]; [| discriminate].
  destruct (pane_inputDisposed pane); [discriminate |].
  intro E. injection E as ->. auto.
Qed.

Lemma push_on_fresh_stack (st : State) (editor : EditorRef)
  (selection : option IEditorPaneSelection) (stored : EditorRef) :
  editorNavigationStack st = [] ->
  editorNavigationStackIndex st = -1 ->
  navigatingInEditorStack st = false ->
  preferResourceEditorInput editor = Some stored ->
  let st' := addToEditorNavigationStack st editor selection in
  editorNavigationStack st' = [mkEntry stored selection]
  /\ editorNavigationStackIndex st' = 0
  /\ navigatingInEditorStack st' = false
  /\ currentEditorSelectionState st' = currentEditorSelectionState st.
Proof.
  intros Hs Hi Hn Hp. unfold addToEditorNavigationStack. rewrite Hn.
  cbn [negb]. unfold doAddOrReplaceInEditorNavigationStack.
  assert (Hr : decideReplace st editor selection false = false).
  { unfold decideReplace. rewrite Hs, Hi. reflexivity. }
  rewrite Hr, Hp. unfold insertAfterCursor. rewrite Hs, Hi. simpl.
  repeat split; assumption.
Qed.

Lemma storedForm_matches_sym (input : EditorInput) :
  matches (OfRef (storedForm input)) (Typed input)
  = matches (OfRef (Typed input)) (storedForm input).
Proof.
  unfold storedForm, preferResourceEditorInput.
  destruct (_ || _); [| reflexivity].
  destruct (toUntyped input) as [[r | tag] |]; reflexivity.
Qed.

(** X5.  An editor without a selection concept is not pushed again while
    the entry at the cursor matches it.  On a fresh stack the first event
    for such an editor pushes one entry, its stored form without selection.
    The same event again changes nothing when the matcher recognises the
    editor in its stored form; when it does not, the second event pushes a
    second, equal entry and the cursor moves on to it. *)
Theorem editor_without_selection_is_pushed_unless_matched :
  (forall (st : State) (editorPane : IEditorPane) (input : EditorInput)
          (currentStack : IEditorWithSelection),
      pane_input editorPane = Some input ->
      js_get (editorNavigationStack st) (editorNavigationStackIndex st)
      = Some currentStack ->
      matches (OfRef (Typed input)) (entry_editor currentStack) = true ->
      handleNonSelectionAwareEditorEventInEditorNavigationStack st editorPane
      = st)
  /\ (forall (st : State) (editorPane : IEditorPane) (input : EditorInput),
         freshNavigation st ->
         liveInput editorPane = Some input ->
         pane_withSelection editorPane = false ->
         let entry := mkEntry (storedForm input) None in
         let st1 :=
           handleEventInEditorNavigationStack st (Some editorPane) None in
         let st2 :=
           handleEventInEditorNavigationStack st1 (Some editorPane) None in
         editorNavigationStack st1 = [entry]
         /\ editorNavigationStackIndex st1 = 0
         /\ (matches (OfRef (Typed input)) (storedForm input) = true ->
             editorNavigationStack st2 = [entry]
             /\ editorNavigationStackIndex st2 = 0)
         /\ (matches (OfRef (Typed input)) (storedForm input) = false ->
             editorNavigationStack st2 = [entry; entry]
             /\ editorNavigationStackIndex st2 = 1)).
Proof.
  split.
  - intros st editorPane input currentStack Hin Hget Hm.
    unfold handleNonSelectionAwareEditorEventInEditorNavigationStack.
    rewrite Hin, Hget, Hm. reflexivity.
  - intros st editorPane input (Hs & Hi & Hc & Hn) Hlive Hws entry st1 st2.
    destruct (liveInput_some editorPane input Hlive) as (Hin & Hd).
    assert (E1 : st1 = addToEditorNavigationStack (with_current st None)
                         (Typed input) None).
    { unfold st1, handleEventInEditorNavigationStack.
      rewrite Hn, Hin, Hd, Hws.
      unfold handleNonSelectionAwareEditorEventInEditorNavigationStack.
      rewrite Hin. cbn [editorNavigationStack editorNavigationStackIndex
                        with_current].
      rewrite Hs, Hi. reflexivity. }
    destruct (push_on_fresh_stack (with_current st None) (Typed input) None
                (storedForm input) Hs Hi Hn
                (preferResourceEditorInput_typed input))
      as (Hs1 & Hi1 & Hn1 & Hc1).
    rewrite <- E1 in Hs1, Hi1, Hn1, Hc1.
    split; [exact Hs1 |]. split; [exact Hi1 |].
    assert (Hget : js_get (editorNavigationStack (with_current st1 None))
                     (editorNavigationStackIndex (with_current st1 None))
                   = Some entry).
    { cbn [editorNavigationStack editorNavigationStackIndex with_current].
      rewrite Hs1, Hi1. reflexivity. }
    assert (E2 : st2
                 = if matches (OfRef (Typed input)) (storedForm input)
                   then with_current st1 None
                   else addToEditorNavigationStack (with_current st1 None)
                          (Typed input) None).
    { unfold st2, handleEventInEditorNavigationStack.
      rewrite Hn1, Hin, Hd, Hws.
      unfold handleNonSelectionAwareEditorEventInEditorNavigationStack.
      rewrite Hin, Hget. reflexivity. }
    split.
    + intro Hself. rewrite E2, Hself.
      cbn [editorNavigationStack editorNavigationStackIndex with_current].
      split; assumption.
    + intro Hself. rewrite E2, Hself.
      assert (Hr : decideReplace (with_current st1 None) (Typed input) None
                     false = false).
      { unfold decideReplace. rewrite Hget. cbn [entry entry_editor].
        rewrite storedForm_matches_sym, Hself. reflexivity. }
      unfold addToEditorNavigationStack.
      cbn [navigatingInEditorStack with_current]. rewrite Hn1. cbn [negb].
      destruct (push_is_insertAfterCursor (with_current st1 None)
                  (Typed input) None false (storedForm input) Hr
                  (preferResourceEditorInput_typed input))
        as (Ps & Pi & _).
      destruct (insertAfterCursor_room (with_current st1 None) entry)
        as (Rs & Ri & _).
      { cbn [editorNavigationStack editorNavigationStackIndex with_current].
        rewrite Hs1, Hi1. cbn [length]. lia. }
      { cbn [editorNavigationStackIndex with_current]. rewrite Hi1.
        unfold MAX_EDITOR_NAVIGATION_STACK_ITEMS. lia. }
      fold entry in Ps, Pi. rewrite Ps, Pi, Rs, Ri.
      unfold grownStack.
      cbn [editorNavigationStack editorNavigationStackIndex with_current].
      rewrite Hs1, Hi1. split; reflexivity.
Qed.

(** ** Selection bursts and the last edit location *)

Lemma mergeBurst_from_edit (burst : list EditorPaneSelectionChangeReason) :
  fold_left (fun merged current => Some (mergeSelectionChange merged current))
            burst (Some EDIT)
  = Some EDIT.
Proof.
  induction burst as [| r rest IH]; [reflexivity |]. exact IH.
Qed.

Lemma last_of_nonempty {A : Type} (l : list A) (x d d' : A) :
  List.last (x :: l) d = List.last (x :: l) d'.
Proof.
  revert x. induction l as [| y l IH]; intro x; [reflexivity |].
  change (List.last (y :: l) d = List.last (y :: l) d'). apply IH.
Qed.

Lemma mergeBurst_no_edit (burst : list EditorPaneSelectionChangeReason) :
  forall start : option EditorPaneSelectionChangeReason,
    start <> Some EDIT ->
    ~ In EDIT burst ->
    fold_left
      (fun merged current => Some (mergeSelectionChange merged current))
      burst start
    = List.last (map Some burst) start.
Proof.
  induction burst as [| r rest IH]; intros start Hs Hn; [reflexivity |].
  cbn [fold_left map].
  assert (Hr : r <> EDIT) by (intro E; apply Hn; left; exact E).
  assert (Hm : mergeSelectionChange start r = r).
  { unfold mergeSelectionChange. destruct start as [[| | |] |];
      try reflexivity. exfalso. apply Hs. reflexivity. }
  rewrite Hm, IH.
  - destruct rest as [| r' rest']; [reflexivity |].
    cbn [map].
    transitivity (List.last (Some r' :: map Some rest') start);
      [apply last_of_nonempty | reflexivity].
  - intro E. injection E as E. exact (Hr E).
  - intro Hin. apply Hn. right. exact Hin.
Qed.

Lemma mergeBurst_with_edit (burst : list EditorPaneSelectionChangeReason) :
  forall start : option EditorPaneSelectionChangeReason,
    In EDIT burst ->
    fold_left
      (fun merged current => Some (mergeSelectionChange merged current))
      burst start
    = Some EDIT.
Proof.
  induction burst as [| r rest IH]; intros start Hin; [destruct Hin |].
  cbn [fold_left].
  destruct (in_inv Hin) as [-> | Hrest].
  - replace (mergeSelectionChange start EDIT) with EDIT
      by (destruct start as [[| | |] |]; reflexivity).
    apply mergeBurst_from_edit.
  - apply IH. exact Hrest.
Qed.

(** X6.  The selection events of one turn merge into one: an EDIT anywhere
    in the burst makes the merged reason EDIT, and without an EDIT the
    reason is the one of the last event; an empty burst gives no event.  So
    a burst with an EDIT on a pane with a live editor always records the
    last edit location, whatever follows the edit in the burst. *)
Theorem edit_in_burst_wins :
  (forall burst : list EditorPaneSelectionChangeReason,
      (In EDIT burst -> mergeBurst burst = Some EDIT)
      /\ (~ In EDIT burst ->
          mergeBurst burst = List.last (map Some burst) None))
  /\ (forall (st : State) (editorPane : IEditorPane) (input : EditorInput)
             (burst : list EditorPaneSelectionChangeReason),
         liveInput editorPane = Some input ->
         In EDIT burst ->
         lastEditLocation (onSelectionBurst st editorPane burst)
         = Some (mkEntry (Typed input) (pane_selection editorPane)))
  /\ (forall (st : State) (editorPane : IEditorPane)
             (burst : list EditorPaneSelectionChangeReason),
         ~ In EDIT burst ->
         lastEditLocation (onSelectionBurst st editorPane burst)
         = lastEditLocation st).
Proof.
  assert (Hframe : forall st editorPane reason,
             lastEditLocation
               (handleEventInEditorNavigationStack st editorPane reason)
             = lastEditLocation st).
  { intros st editorPane reason.
    unfold handleEventInEditorNavigationStack.
    destruct (navigatingInEditorStack st) eqn:Hn.
    - destruct editorPane as [pane |]; [| reflexivity].
      destruct (pane_input pane); [| reflexivity].
      destruct (pane_inputDisposed pane); [reflexivity |].
      destruct (pane_withSelection pane); reflexivity.
    - destruct editorPane as [pane |]; [| reflexivity].
      destruct (pane_input pane) as [input |] eqn:Hin; [| reflexivity].
      destruct (pane_inputDisposed pane); [reflexivity |].
      destruct (pane_withSelection pane).
      + unfold handleSelectionAwareEditorEventInEditorNavigationStack,
          addToEditorNavigationStack, replaceInEditorNavigationStack.
        rewrite Hn. cbn [negb lastEditLocation with_current].
        unfold doAddOrReplaceInEditorNavigationStack.
        destruct (preferResourceEditorInput (Typed input));
          [| destruct (match currentEditorSelectionState st with
                       | Some _ => _ | None => _ end); reflexivity].
        destruct (match currentEditorSelectionState st with
                  | Some _ => _ | None => _ end).
        * destruct (decideReplace st (Typed input) (pane_selection pane)
                      false); [reflexivity |].
          unfold insertAfterCursor.
          destruct (Z.of_nat _ >? MAX_EDITOR_NAVIGATION_STACK_ITEMS);
            [| reflexivity].
          cbn [lastEditorNavigationStackIndex with_stack].
          destruct (lastEditorNavigationStackIndex st >=? 0); reflexivity.
        * destruct (decideReplace st (Typed input) (pane_selection pane)
                      true); [reflexivity |].
          unfold insertAfterCursor.
          destruct (Z.of_nat _ >? MAX_EDITOR_NAVIGATION_STACK_ITEMS);
            [| reflexivity].
          cbn [lastEditorNavigationStackIndex with_stack].
          destruct (lastEditorNavigationStackIndex st >=? 0); reflexivity.
      + unfold handleNonSelectionAwareEditorEventInEditorNavigationStack.
        rewrite Hin.
        destruct (match js_get _ _ with Some _ => _ | None => false end);
          [reflexivity |].
        unfold addToEditorNavigationStack.
        cbn [navigatingInEditorStack with_current]. rewrite Hn. cbn [negb].
        unfold doAddOrReplaceInEditorNavigationStack.
        destruct (preferResourceEditorInput (Typed input)); [| reflexivity].
        destruct (decideReplace (with_current st None) (Typed input) None
                    false); [reflexivity |].
        unfold insertAfterCursor.
        destruct (Z.of_nat _ >? MAX_EDITOR_NAVIGATION_STACK_ITEMS);
          [| reflexivity].
        cbn [lastEditorNavigationStackIndex with_stack with_current].
        destruct (lastEditorNavigationStackIndex st >=? 0); reflexivity. }
  split; [| split].
  - intro burst. unfold mergeBurst. split.
    + apply mergeBurst_with_edit.
    + apply mergeBurst_no_edit. discriminate.
  - intros st editorPane input burst Hlive Hin.
    destruct (liveInput_some editorPane input Hlive) as (Hi & Hd).
    unfold onSelectionBurst, mergeBurst.
    rewrite (mergeBurst_with_edit burst None Hin).
    unfold onMergedSelectionChange. cbn [isEditReason].
    unfold rememberLastEditLocation. rewrite Hi, Hd. reflexivity.
  - intros st editorPane burst Hn.
    unfold onSelectionBurst.
    destruct (mergeBurst burst) as [reason |] eqn:Em; [| reflexivity].
    assert (Hr : reason <> EDIT).
    { intro E. subst reason. unfold mergeBurst in Em.
      rewrite (mergeBurst_no_edit burst None) in Em by (discriminate || exact Hn).
      clear -Em Hn. induction burst as [| r rest IH]; [discriminate Em |].
      destruct rest as [| r' rest'].
      - injection Em as ->. apply Hn. left. reflexivity.
      - apply IH.
        + intro Hin. apply Hn. right. exact Hin.
        + exact Em. }
    unfold onMergedSelectionChange.
    destruct reason; try apply Hframe. exfalso. apply Hr. reflexivity.
Qed.

(** X7.  [openLastEditLocation] opens what [rememberLastEditLocation]
    stored last, the editor and the selection of the pane at that time; a
    pane without a live editor stores nothing.  The replay leaves the
    navigation stack, its cursors and its flag alone. *)
Theorem last_edit_location_is_replayed :
  (forall (st : State) (editorPane : IEditorPane) (input : EditorInput),
      liveInput editorPane = Some input ->
      calls (openLastEditLocation (rememberLastEditLocation st editorPane))
      = calls st
        ++ [CallOpenEditor
              (mkEntry (Typed input) (pane_selection editorPane))])
  /\ (forall (st : State) (editorPane : IEditorPane),
         liveInput editorPane = None ->
         rememberLastEditLocation st editorPane = st)
  /\ (forall (st : State) (first second : IEditorPane) (input : EditorInput),
         liveInput second = Some input ->
         lastEditLocation
           (rememberLastEditLocation (rememberLastEditLocation st first)
              second)
         = Some (mkEntry (Typed input) (pane_selection second)))
  /\ (forall st : State,
         editorNavigationStack (openLastEditLocation st)
         = editorNavigationStack st
         /\ editorNavigationStackIndex (openLastEditLocation st)
            = editorNavigationStackIndex st
         /\ lastEditorNavigationStackIndex (openLastEditLocation st)
            = lastEditorNavigationStackIndex st
         /\ navigatingInEditorStack (openLastEditLocation st)
            = navigatingInEditorStack st
         /\ lastEditLocation (openLastEditLocation st) = lastEditLocation st).
Proof.
  split; [| split; [| split]].
  - intros st editorPane input Hlive.
    destruct (liveInput_some editorPane input Hlive) as (Hi & Hd).
    unfold rememberLastEditLocation. rewrite Hi, Hd. reflexivity.
  - intros st editorPane Hnone. unfold rememberLastEditLocation.
    unfold liveInput in Hnone.
    destruct (pane_input editorPane); [| reflexivity].
    destruct (pane_inputDisposed editorPane); [reflexivity | discriminate].
  - intros st first second input Hlive.
    destruct (liveInput_some second input Hlive) as (Hi & Hd).
    unfold rememberLastEditLocation at 1. rewrite Hi, Hd. reflexivity.
  - intro st. unfold openLastEditLocation.
    destruct (lastEditLocation st) eqn:E; simpl; repeat split;
      try reflexivity; first [exact E | symmetry; exact E].
Qed.

(** ** Disposal subscriptions of the navigation stack *)

Lemma onEditorDispose_subscribes (editor : EditorInput) (m : ListenerMap) :
  In (handle editor) (subscribed (onEditorDispose editor m)).
Proof.
  induction m as [| [k n] m IH]; simpl.
  - left. reflexivity.
  - destruct (Nat.eqb_spec k (handle editor)) as [E | E].
    + left. exact E.
    + right. exact IH.
Qed.

Lemma onEditorDispose_only_adds (editor : EditorInput) (m : ListenerMap)
  (h : nat) :
  In h (subscribed (onEditorDispose editor m)) ->
  h = handle editor \/ In h (subscribed m).
Proof.
  induction m as [| [k n] m IH]; simpl.
  - intros [E | []]. left. symmetry. exact E.
  - destruct (Nat.eqb_spec k (handle editor)) as [E | E]; simpl.
    + intros [Hk | Hin]; right; [left; exact Hk | right; exact Hin].
    + intros [Hk | Hin]; [right; left; exact Hk |].
      destruct (IH Hin) as [Hh | Hm]; [left; exact Hh | right; right; exact Hm].
Qed.

Lemma clearOnEditorDispose_incl (arg : MatchArg) (m : ListenerMap) :
  incl (subscribed (clearOnEditorDispose arg m)) (subscribed m).
Proof.
  unfold clearOnEditorDispose, subscribed.
  destruct arg as [[e | r] | ev | ev]; try apply incl_refl.
  intros h Hin. apply in_map_iff in Hin. destruct Hin as (kn & <- & Hf).
  apply filter_In in Hf. apply in_map. apply Hf.
Qed.

Lemma clearOnEditorDispose_absent (editor : EditorInput) (m : ListenerMap) :
  ~ In (handle editor)
       (subscribed (clearOnEditorDispose (OfRef (Typed editor)) m)).
Proof.
  unfold clearOnEditorDispose, subscribed. intro Hin.
  apply in_map_iff in Hin. destruct Hin as (kn & Hk & Hf).
  apply filter_In in Hf. destruct Hf as (_ & Hneq).
  rewrite Hk, Nat.eqb_refl in Hneq. discriminate Hneq.
Qed.

Lemma clear_removed_incl (removed : list IEditorWithSelection) :
  forall m : ListenerMap,
    incl (subscribed
            (fold_left
               (fun m removedEntry =>
                  clearOnEditorDispose (OfRef (entry_editor removedEntry)) m)
               removed m))
         (subscribed m).
Proof.
  induction removed as [| entry rest IH]; intro m; [apply incl_refl |].
  cbn [fold_left]. eapply incl_tran; [apply IH |].
  apply clearOnEditorDispose_incl.
Qed.

Lemma clear_removed_absent (removed : list IEditorWithSelection)
  (editor : EditorInput) (entry : IEditorWithSelection) :
  In entry removed ->
  entry_editor entry = Typed editor ->
  forall m : ListenerMap,
    ~ In (handle editor)
         (subscribed
            (fold_left
               (fun m removedEntry =>
                  clearOnEditorDispose (OfRef (entry_editor removedEntry)) m)
               removed m)).
Proof.
  intros Hin He. induction removed as [| first rest IH]; [destruct Hin |].
  intro m. cbn [fold_left]. destruct Hin as [-> | Hrest].
  - intro Habs. apply (clear_removed_incl rest) in Habs.
    rewrite He in Habs. exact (clearOnEditorDispose_absent editor m Habs).
  - apply IH. exact Hrest.
Qed.

(** The listeners after [doAddOrReplaceInEditorNavigationStack] stored an
    entry: those of the removed entries are cleared, then the stored editor
    subscribes if it is a live handle. *)
Lemma doAddOrReplace_listeners (st : State) (editor : EditorRef)
  (selection : option IEditorPaneSelection) (forceReplace : bool)
  (stored : EditorRef) :
  preferResourceEditorInput editor = Some stored ->
  exists removed,
    removed
    = snd (if decideReplace st editor selection forceReplace
           then replaceAtCursor st (mkEntry stored selection)
           else insertAfterCursor st (mkEntry stored selection))
    /\ editorNavigationStackListeners
         (doAddOrReplaceInEditorNavigationStack st editor selection
            forceReplace)
       = let cleared :=
           fold_left
             (fun m removedEntry =>
                clearOnEditorDispose (OfRef (entry_editor removedEntry)) m)
             removed (editorNavigationStackListeners st) in
         match stored with
         | Typed e => onEditorDispose e cleared
         | Untyped _ => cleared
         end.
Proof.
  intro Hp. eexists. split; [reflexivity |].
  unfold doAddOrReplaceInEditorNavigationStack. rewrite Hp.
  destruct (decideReplace st editor selection forceReplace).
  - reflexivity.
  - unfold insertAfterCursor.
    destruct (Z.of_nat _ >? MAX_EDITOR_NAVIGATION_STACK_ITEMS).
    + cbn [lastEditorNavigationStackIndex with_stack].
      destruct (lastEditorNavigationStackIndex st >=? 0); reflexivity.
    + reflexivity.
Qed.

(** X8.  Whenever an entry is stored on the navigation stack, pushed or
    put in place of another, a live handle that is stored holds a disposal
    subscription afterwards, and storing a resource descriptor subscribes
    nothing new. *)
Theorem stored_live_editor_is_subscribed (st : State) (editor : EditorRef)
  (selection : option IEditorPaneSelection) (forceReplace : bool)
  (stored : EditorRef) :
  preferResourceEditorInput editor = Some stored ->
  let st' :=
    doAddOrReplaceInEditorNavigationStack st editor selection forceReplace in
  match stored with
  | Typed e => In (handle e) (subscribed (editorNavigationStackListeners st'))
  | Untyped _ =>
      incl (subscribed (editorNavigationStackListeners st'))
           (subscribed (editorNavigationStackListeners st))
  end.
Proof.
  intros Hp st'.
  destruct (doAddOrReplace_listeners st editor selection forceReplace stored
              Hp) as (removed & _ & Hl).
  unfold st'. rewrite Hl. cbv zeta.
  destruct stored as [e | r].
  - apply onEditorDispose_subscribes.
  - apply clear_removed_incl.
Qed.

(** X9.  A push below the tail clears the subscription of every live handle
    in the branch it drops.  On a well-formed stack, when a push that does
    not replace the entry at the cursor drops an entry of a live editor
    that also has an entry at or before the cursor, and the editor being
    pushed is stored as something other than that live editor, then the
    kept entry stays on the stack, the dropped entry is no longer among the
    entries after the old cursor, and the live editor holds no subscription
    afterwards.  (When the editor being pushed is that live editor, the
    push subscribes it again: X8.) *)
Theorem dropped_branch_unsubscribes_kept_editor (st : State)
  (editor : EditorRef) (selection : option IEditorPaneSelection)
  (stored : EditorRef) (shared : EditorInput)
  (keptEntry droppedEntry : IEditorWithSelection) :
  navigationStackOk st ->
  decideReplace st editor selection false = false ->
  preferResourceEditorInput editor = Some stored ->
  (forall e, stored = Typed e -> handle e <> handle shared) ->
  In keptEntry
     (firstn (Z.to_nat (editorNavigationStackIndex st + 1))
             (editorNavigationStack st)) ->
  In droppedEntry
     (skipn (Z.to_nat (editorNavigationStackIndex st + 1))
            (editorNavigationStack st)) ->
  entry_editor keptEntry = Typed shared ->
  entry_editor droppedEntry = Typed shared ->
  let st' :=
    doAddOrReplaceInEditorNavigationStack st editor selection false in
  In keptEntry (editorNavigationStack st')
  /\ ~ In droppedEntry (skipn (Z.to_nat (editorNavigationStackIndex st + 1))
                              (editorNavigationStack st'))
  /\ ~ In (handle shared) (subscribed (editorNavigationStackListeners st')).
Proof.
  intros (Hmax & Hi & Hl) Hr Hp Hother Hkept Hdropped Hk Hd st'.
  unfold MAX_EDITOR_NAVIGATION_STACK_ITEMS in Hmax.
  assert (Htail : editorNavigationStackIndex st + 1
                  < Z.of_nat (length (editorNavigationStack st))).
  { destruct (Z_lt_le_dec (editorNavigationStackIndex st + 1)
                (Z.of_nat (length (editorNavigationStack st))))
      as [Hlt | Hge]; [exact Hlt |].
    rewrite skipn_all2 in Hdropped by lia. destruct Hdropped. }
  destruct (push_is_insertAfterCursor st editor selection false stored Hr Hp)
    as (Es & _).
  destruct (insertAfterCursor_room st (mkEntry stored selection) Hi)
    as (Rs & _); [unfold MAX_EDITOR_NAVIGATION_STACK_ITEMS; lia |].
  fold st' in Es. rewrite Rs in Es. unfold grownStack in Es.
  split; [rewrite Es; apply in_or_app; left; exact Hkept |].
  split.
  - rewrite Es. rewrite skipn_app, skipn_all2 by (rewrite length_firstn; lia).
    rewrite length_firstn, Nat.min_l by lia. rewrite Nat.sub_diag.
    cbn [skipn app]. intros [E | []].
    rewrite <- E in Hd. cbn [entry_editor] in Hd.
    exact (Hother shared Hd eq_refl).
  - destruct (doAddOrReplace_listeners st editor selection false stored Hp)
      as (removed & Hrem & Hlis).
    fold st' in Hlis. rewrite Hr in Hrem.
    assert (Hin : In droppedEntry removed).
    { rewrite Hrem. unfold insertAfterCursor.
      replace (Z.of_nat (length (editorNavigationStack st))
               >? editorNavigationStackIndex st + 1) with true
        by (symmetry; apply Z.gtb_lt; lia).
      destruct (Z.of_nat _ >? MAX_EDITOR_NAVIGATION_STACK_ITEMS).
      - cbn [lastEditorNavigationStackIndex with_stack].
        destruct (lastEditorNavigationStackIndex st >=? 0);
          cbn [snd]; apply in_or_app; left; exact Hdropped.
      - exact Hdropped. }
    rewrite Hlis. cbv zeta.
    pose proof (clear_removed_absent removed shared droppedEntry Hin Hd
                  (editorNavigationStackListeners st)) as Habs.
    destruct stored as [e | r]; [| exact Habs].
    intro Hsub. apply onEditorDispose_only_adds in Hsub.
    destruct Hsub as [E | Hm]; [| exact (Habs Hm)].
    exact (Hother e eq_refl (eq_sym E)).
Qed.

(** ** Moves on the navigation stack *)

Lemma filter_removes_some {A : Type} (f : A -> bool) (l : list A) :
  existsb f l = true ->
  (length (filter (fun x => negb (f x)) l) < length l)%nat.
Proof.
  induction l as [| a l IH]; simpl; [discriminate |].
  destruct (f a) eqn:Ea; simpl; intro E.
  - pose proof (filter_length_le (fun x => negb (f x)) l). lia.
  - specialize (IH E). lia.
Qed.

(** X10.  A move event first removes the entries below its source.  When
    none matched, only the cursors are reset.  When some matched and the
    target can be stored, the target is put behind what is left, as a
    descriptor without selection and with the cursor on it (unless the
    entry now at the cursor is replaced instead); a target that cannot be
    stored adds nothing. *)
Theorem move_replaces_entries_by_target (st : State)
  (event : FileOperationEvent) :
  let st1 := fst (removeFromEditorNavigationStack st (OfOperation event)) in
  let removed := snd (removeFromEditorNavigationStack st (OfOperation event)) in
  let kept :=
    filter (fun entry => negb (matches (OfOperation event) (entry_editor entry)))
           (editorNavigationStack st) in
  (removed = false ->
   moveInEditorNavigationStack st event = st1
   /\ editorNavigationStack st1 = editorNavigationStack st)
  /\ (forall target stored,
         removed = true ->
         op_target event = Some target ->
         navigatingInEditorStack st = false ->
         navigationStackOk st ->
         preferResourceEditorInput
           (Untyped (mkResourceInput (target_resource target) None))
         = Some stored ->
         decideReplace st1
           (Untyped (mkResourceInput (target_resource target) None)) None
           false = false ->
         let st' := moveInEditorNavigationStack st event in
         editorNavigationStack st' = kept ++ [mkEntry stored None]
         /\ editorNavigationStackIndex st' = Z.of_nat (length kept)
         /\ lastEditorNavigationStackIndex st' = Z.of_nat (length kept) - 1)
  /\ (forall target,
         op_target event = Some target ->
         preferResourceEditorInput
           (Untyped (mkResourceInput (target_resource target) None)) = None ->
         moveInEditorNavigationStack st event = st1).
Proof.
  intros st1 removed kept.
  assert (Hpair : removeFromEditorNavigationStack st (OfOperation event)
                  = (st1, removed)).
  { unfold st1, removed.
    destruct (removeFromEditorNavigationStack st (OfOperation event));
      reflexivity. }
  split; [| split].
  - intro Hrem. split.
    + unfold moveInEditorNavigationStack. rewrite Hpair, Hrem.
      destruct (op_target event); reflexivity.
    + apply (filter_none_matching
               (fun entry => matches (OfOperation event) (entry_editor entry))).
      exact Hrem.
  - intros target stored Hrem Ht Hn Hok Hp Hr st'.
    assert (Est : st' = doAddOrReplaceInEditorNavigationStack st1
                          (Untyped (mkResourceInput (target_resource target)
                                      None)) None false).
    { unfold st', moveInEditorNavigationStack. rewrite Hpair, Ht, Hrem.
      unfold addToEditorNavigationStack.
      replace (navigatingInEditorStack st1) with false by (symmetry; exact Hn).
      reflexivity. }
    destruct Hok as (Hmax & _).
    unfold MAX_EDITOR_NAVIGATION_STACK_ITEMS in Hmax.
    assert (Hshort : (length kept < length (editorNavigationStack st))%nat)
      by exact (filter_removes_some
                  (fun entry => matches (OfOperation event)
                                  (entry_editor entry))
                  (editorNavigationStack st) Hrem).
    assert (Hs1 : editorNavigationStack st1 = kept) by reflexivity.
    assert (Hi1 : editorNavigationStackIndex st1 = Z.of_nat (length kept) - 1)
      by reflexivity.
    clearbody kept.
    destruct (push_is_insertAfterCursor st1 _ None false stored Hr Hp)
      as (Es & Ei & El).
    destruct (insertAfterCursor_room st1 (mkEntry stored None))
      as (Rs & Ri & Rl).
    { rewrite Hs1, Hi1. lia. }
    { rewrite Hi1. unfold MAX_EDITOR_NAVIGATION_STACK_ITEMS. lia. }
    rewrite Est, Es, Ei, El, Rs, Ri, Rl. unfold grownStack.
    rewrite Hs1, Hi1.
    replace (Z.to_nat (Z.of_nat (length kept) - 1 + 1)) with (length kept)
      by lia.
    rewrite firstn_all.
    split; [reflexivity |]. split; [lia | reflexivity].
  - intros target Ht Hp.
    unfold moveInEditorNavigationStack. rewrite Hpair, Ht.
    destruct removed; [| reflexivity].
    unfold addToEditorNavigationStack, doAddOrReplaceInEditorNavigationStack.
    rewrite Hp. destruct (negb (navigatingInEditorStack st1)); reflexivity.
Qed.

(** ** Recording closed editors *)

Lemma onDidCloseEditor_recorded (st : State) (event : IEditorCloseEvent)
  (object : nat) (untypedEditor : IUntypedEditorInput) :
  ignoreEditorCloseEvent st = false ->
  close_context event = CLOSE_NORMAL ->
  toUntyped (close_editor event) = Some untypedEditor ->
  onDidCloseEditor st event object
  = with_closed st
      (boundClosed
         (filter (keepsRecentlyClosed (OfRef (Typed (close_editor event))))
                 (recentlyClosedEditors st)
          ++ [closedEditorRecord event untypedEditor object])).
Proof.
  intros Hi Hc Hu. unfold onDidCloseEditor, boundClosed.
  rewrite Hi, Hc, Hu. unfold removeFromRecentlyClosedEditors.
  cbn [recentlyClosedEditors with_closed].
  destruct (Z.of_nat _ >? MAX_RECENTLY_CLOSED_EDITORS); reflexivity.
Qed.

Lemma boundClosed_ends (l : list IRecentlyClosedEditor)
  (r : IRecentlyClosedEditor) :
  exists l', boundClosed (l ++ [r]) = l' ++ [r]
             /\ (l' = l \/ l' = tl l).
Proof.
  unfold boundClosed.
  destruct (Z.gtb_spec (Z.of_nat (length (l ++ [r])))
              MAX_RECENTLY_CLOSED_EDITORS) as [G | G].
  - destruct l as [| x l].
    + unfold MAX_RECENTLY_CLOSED_EDITORS in G. cbn [length app] in G. lia.
    + exists l. split; [reflexivity | right; reflexivity].
  - exists l. split; [reflexivity | left; reflexivity].
Qed.

Lemma boundClosed_length (l : list IRecentlyClosedEditor) :
  Z.of_nat (length l) <= MAX_RECENTLY_CLOSED_EDITORS + 1 ->
  Z.of_nat (length (boundClosed l)) <= MAX_RECENTLY_CLOSED_EDITORS.
Proof.
  intro Hl. unfold boundClosed.
  destruct (Z.gtb_spec (Z.of_nat (length l)) MAX_RECENTLY_CLOSED_EDITORS)
    as [G | G]; [| exact G].
  unfold MAX_RECENTLY_CLOSED_EDITORS in *.
  destruct l as [| x l]; cbn [length tl] in *; lia.
Qed.

(** X11.  A close event is recorded only when close events are not being
    ignored, the close is not part of a replace or a move, and the editor
    has an untyped form; otherwise it changes nothing.  A recorded close
    removes the records that match the editor, appends its record as the
    most recent one and drops the oldest on overflow, so that a buffer of
    at most 20 records stays one. *)
Theorem close_events_are_recorded_within_bound :
  (forall (st : State) (event : IEditorCloseEvent) (object : nat),
      ignoreEditorCloseEvent st = true
      \/ close_context event = CLOSE_REPLACE
      \/ close_context event = CLOSE_MOVE
      \/ toUntyped (close_editor event) = None ->
      onDidCloseEditor st event object = st)
  /\ (forall (st : State) (event : IEditorCloseEvent) (object : nat)
             (untypedEditor : IUntypedEditorInput),
         ignoreEditorCloseEvent st = false ->
         close_context event = CLOSE_NORMAL ->
         toUntyped (close_editor event) = Some untypedEditor ->
         let st' := onDidCloseEditor st event object in
         recentlyClosedEditors st'
         = boundClosed
             (filter (keepsRecentlyClosed
                        (OfRef (Typed (close_editor event))))
                     (recentlyClosedEditors st)
              ++ [closedEditorRecord event untypedEditor object])
         /\ fst (js_pop (recentlyClosedEditors st'))
            = Some (closedEditorRecord event untypedEditor object))
  /\ (forall (st : State) (event : IEditorCloseEvent) (object : nat),
         Z.of_nat (length (recentlyClosedEditors st))
           <= MAX_RECENTLY_CLOSED_EDITORS ->
         Z.of_nat (length (recentlyClosedEditors
                             (onDidCloseEditor st event object)))
           <= MAX_RECENTLY_CLOSED_EDITORS).
Proof.
  split; [| split].
  - intros st event object Hcase. unfold onDidCloseEditor.
    destruct (ignoreEditorCloseEvent st); [reflexivity |].
    destruct Hcase as [Hi | [Hc | [Hc | Hu]]].
    + discriminate Hi.
    + rewrite Hc. reflexivity.
    + rewrite Hc. reflexivity.
    + rewrite Hu. destruct (close_context event); reflexivity.
  - intros st event object untypedEditor Hi Hc Hu st'.
    unfold st'.
    rewrite (onDidCloseEditor_recorded st event object untypedEditor Hi Hc Hu).
    cbn [recentlyClosedEditors with_closed]. split; [reflexivity |].
    destruct (boundClosed_ends
                (filter (keepsRecentlyClosed
                           (OfRef (Typed (close_editor event))))
                        (recentlyClosedEditors st))
                (closedEditorRecord event untypedEditor object))
      as (l' & El & _).
    rewrite El, js_pop_last. reflexivity.
  - intros st event object Hb.
    destruct (ignoreEditorCloseEvent st) eqn:Hi.
    { unfold onDidCloseEditor. rewrite Hi. exact Hb. }
    destruct (close_context event) eqn:Hc;
      try (unfold onDidCloseEditor; rewrite Hi, Hc; exact Hb).
    destruct (toUntyped (close_editor event)) as [untypedEditor |] eqn:Hu.
    + rewrite (onDidCloseEditor_recorded st event object untypedEditor
                 Hi Hc Hu).
      cbn [recentlyClosedEditors with_closed].
      apply boundClosed_length. rewrite length_app. cbn [length].
      pose proof (filter_length_le
                    (keepsRecentlyClosed (OfRef (Typed (close_editor event))))
                    (recentlyClosedEditors st)).
      lia.
    + unfold onDidCloseEditor. rewrite Hi, Hc, Hu. exact Hb.
Qed.

Lemma tl_skipn {A : Type} (n : nat) (l : list A) :
  tl (skipn n l) = skipn (S n) l.
Proof.
  revert l. induction n as [| n IH]; intros [| x l]; try reflexivity.
  change (tl (skipn n l) = skipn (S n) l). apply IH.
Qed.

Lemma forallb_skipn {A : Type} (f : A -> bool) (n : nat) (l : list A) :
  forallb f l = true -> forallb f (skipn n l) = true.
Proof.
  revert l. induction n as [| n IH]; intros l E; [exact E |].
  destruct l as [| a l]; [reflexivity |].
  cbn [skipn]. apply IH. cbn [forallb] in E.
  apply andb_true_iff in E. apply E.
Qed.

Lemma boundClosed_window (l : list IRecentlyClosedEditor)
  (r : IRecentlyClosedEditor) :
  boundClosed (skipn (length l - 20) l ++ [r])
  = skipn (length (l ++ [r]) - 20) (l ++ [r]).
Proof.
  unfold boundClosed, MAX_RECENTLY_CLOSED_EDITORS.
  rewrite !length_app, length_skipn. cbn [length].
  destruct (Nat.lt_ge_cases (length l) 20) as [Hshort | Hlong].
  - replace (length l - 20)%nat with 0%nat by lia.
    replace (length l + 1 - 20)%nat with 0%nat by lia.
    cbn [skipn].
    destruct (Z.gtb_spec (Z.of_nat (length l - 0 + 1)) 20); [lia |].
    reflexivity.
  - destruct (Z.gtb_spec (Z.of_nat (length l - (length l - 20) + 1)) 20);
      [| lia].
    replace (length l + 1 - 20)%nat with (S (length l - 20)) by lia.
    rewrite skipn_app.
    replace (S (length l - 20) - length l)%nat with 0%nat by lia.
    change (skipn 0 [r]) with [r]. rewrite <- tl_skipn.
    destruct (skipn (length l - 20) l) as [| x t] eqn:E; [| reflexivity].
    apply (f_equal (@length _)) in E. rewrite length_skipn in E.
    cbn [length] in E. lia.
Qed.

Lemma closeAll_distinct (events : list (IEditorCloseEvent * nat)) :
  forall (st : State) (earlier : list IRecentlyClosedEditor),
    ignoreEditorCloseEvent st = false ->
    recentlyClosedEditors st = skipn (length earlier - 20) earlier ->
    distinctCloses earlier events = true ->
    recentlyClosedEditors (closeAll st events)
    = skipn (length (earlier ++ flat_map
                                  (fun event => option_to_list (recordOf event))
                                  events) - 20)
            (earlier ++ flat_map
                          (fun event => option_to_list (recordOf event))
                          events).
Proof.
  induction events as [| event rest IH]; intros st earlier Hi Hbuf Hd.
  - cbn [closeAll fold_left flat_map]. rewrite app_nil_r. exact Hbuf.
  - cbn [distinctCloses] in Hd.
    destruct (close_context (fst event)) eqn:Hc; try discriminate Hd.
    destruct (recordOf event) as [record |] eqn:Hrec; [| discriminate Hd].
    apply andb_true_iff in Hd. destruct Hd as [Hkeep Hrest].
    pose proof Hrec as Hrecord.
    unfold recordOf in Hrec.
    destruct (toUntyped (close_editor (fst event))) as [untypedEditor |]
      eqn:Hu; [| discriminate Hrec].
    injection Hrec as Hrec.
    change (closeAll st (event :: rest))
      with (closeAll (onDidCloseEditor st (fst event) (snd event)) rest).
    rewrite (onDidCloseEditor_recorded st (fst event) (snd event)
               untypedEditor Hi Hc Hu).
    rewrite Hrec, Hbuf.
    rewrite forallb_filter_id by (apply forallb_skipn; exact Hkeep).
    rewrite boundClosed_window.
    rewrite (IH _ (earlier ++ [record])).
    + cbn [flat_map]. rewrite Hrecord.
      cbn [option_to_list]. rewrite <- !app_assoc. reflexivity.
    + exact Hi.
    + reflexivity.
    + exact Hrest.
Qed.

(** X12.  Genuine closes of distinct editors, recorded from an empty
    buffer, leave the last 20 records in the order of the closes; after 21
    closes the record of the first one is the one that is gone. *)
Theorem distinct_closes_keep_the_last_twenty (st : State)
  (events : list (IEditorCloseEvent * nat)) :
  ignoreEditorCloseEvent st = false ->
  recentlyClosedEditors st = [] ->
  distinctCloses [] events = true ->
  let records :=
    flat_map (fun event => option_to_list (recordOf event)) events in
  length records = length events
  /\ recentlyClosedEditors (closeAll st events)
     = skipn (length records - 20) records
  /\ (length events = 21%nat ->
      length (recentlyClosedEditors (closeAll st events)) = 20%nat
      /\ recentlyClosedEditors (closeAll st events) = tl records).
Proof.
  intros Hi Hempty Hd records.
  assert (Hlen : forall earlier evs,
             distinctCloses earlier evs = true ->
             length (flat_map (fun event => option_to_list (recordOf event))
                              evs) = length evs).
  { intros earlier evs. revert earlier.
    induction evs as [| ev evs IH]; intros earlier Hdist; [reflexivity |].
    cbn [distinctCloses] in Hdist.
    destruct (close_context (fst ev)); try discriminate Hdist.
    destruct (recordOf ev) as [record |] eqn:Hrec; [| discriminate Hdist].
    apply andb_true_iff in Hdist. destruct Hdist as [_ Hrest].
    cbn [flat_map]. rewrite Hrec. cbn [option_to_list app length].
    f_equal. apply (IH _ Hrest). }
  pose proof (Hlen [] events Hd) as Hrecords. fold records in Hrecords.
  pose proof (closeAll_distinct events st [] Hi Hempty Hd) as Hbuf.
  cbn [app] in Hbuf. fold records in Hbuf.
  split; [exact Hrecords |]. split; [exact Hbuf |].
  intro H21. rewrite Hbuf, Hrecords, H21.
  change (21 - 20)%nat with 1%nat. split.
  - rewrite length_skipn. lia.
  - destruct records; reflexivity.
Qed.

(** ** Reopening what was closed *)

Lemma reopenOptions_expected (record : IRecentlyClosedEditor) :
  reopenOptions record
  = expectedReopenOptions (rc_sticky record) (rc_index record).
Proof.
  unfold reopenOptions, expectedReopenOptions.
  destruct (rc_sticky record), (activeGroupIsSticky (rc_index record));
    reflexivity.
Qed.

(** X13.  After a recorded close, the next request to reopen tries that
    editor first: it opens the untyped form of the closed editor, pinned,
    with the sticky flag of the close and with the tab index of the close
    exactly when the slot at that index is as sticky as the editor was.
    When the open yields a pane, the record is gone from the buffer and
    close events are listened to again. *)
Theorem closed_editor_is_reopened_first (st : State)
  (event : IEditorCloseEvent) (object : nat)
  (untypedEditor : IUntypedEditorInput) (fuel : nat) :
  ignoreEditorCloseEvent st = false ->
  close_context event = CLOSE_NORMAL ->
  toUntyped (close_editor event) = Some untypedEditor ->
  activeGroupContains untypedEditor = false ->
  openYieldsPane untypedEditor
    (expectedReopenOptions (close_sticky event) (close_index event)) = true ->
  let st1 := onDidCloseEditor st event object in
  exists st2,
    reopenLastClosedEditor (S fuel) st1 = Some st2
    /\ calls st2
       = calls st
         ++ [CallReopenLastClosedEditor;
             CallReopenEditor untypedEditor
               (expectedReopenOptions (close_sticky event)
                  (close_index event))]
    /\ recentlyClosedEditors st2 = removelast (recentlyClosedEditors st1)
    /\ ignoreEditorCloseEvent st2 = false.
Proof.
  intros Hi Hc Hu Hcont Hopen st1.
  set (record := closedEditorRecord event untypedEditor object).
  assert (E1 : st1 = with_closed st
                       (boundClosed
                          (filter (keepsRecentlyClosed
                                     (OfRef (Typed (close_editor event))))
                                  (recentlyClosedEditors st) ++ [record])))
    by (apply onDidCloseEditor_recorded; assumption).
  destruct (boundClosed_ends
              (filter (keepsRecentlyClosed
                         (OfRef (Typed (close_editor event))))
                      (recentlyClosedEditors st)) record) as (l' & El & _).
  rewrite El in E1.
  assert (Hopts : reopenOptions record
                  = expectedReopenOptions (close_sticky event)
                      (close_index event))
    by apply reopenOptions_expected.
  cbn [reopenLastClosedEditor].
  rewrite E1.
  cbn [emit with_calls recentlyClosedEditors with_closed calls].
  rewrite js_pop_last. unfold doReopenLastClosedEditor.
  change (rc_editor record) with untypedEditor.
  rewrite Hopts, Hcont, Hopen. cbn [negb].
  eexists. split; [reflexivity |].
  cbn [calls with_ignoreClose emit with_calls with_closed
       recentlyClosedEditors ignoreEditorCloseEvent].
  split; [rewrite <- app_assoc; reflexivity |].
  split; [rewrite removelast_last; reflexivity | reflexivity].
Qed.

Lemma arrays_remove_length (array : list IRecentlyClosedEditor)
  (element : IRecentlyClosedEditor) :
  (length (arrays_remove array element) <= length array)%nat.
Proof.
  induction array as [| x rest IH]; simpl; [lia |].
  destruct (Nat.eqb (oid x) (oid element)); simpl; lia.
Qed.

Lemma reopen_frame (fuel : nat) :
  forall st st' : State,
    reopenLastClosedEditor fuel st = Some st' ->
    editorNavigationStack st' = editorNavigationStack st
    /\ editorNavigationStackIndex st' = editorNavigationStackIndex st
    /\ lastEditorNavigationStackIndex st' = lastEditorNavigationStackIndex st
    /\ history st' = history st
    /\ lastEditLocation st' = lastEditLocation st
    /\ (length (recentlyClosedEditors st')
        <= length (recentlyClosedEditors st))%nat
    /\ (ignoreEditorCloseEvent st = false ->
        ignoreEditorCloseEvent st' = false)
    /\ exists added,
         calls st' = calls st ++ added
         /\ forallb (fun c => isReopenCall c || isActivation c) added = true.
Proof.
  induction fuel as [| fuel IH]; intros st st' Hrun; [discriminate Hrun |].
  cbn [reopenLastClosedEditor] in Hrun.
  cbn [emit with_calls recentlyClosedEditors] in Hrun.
  unfold js_pop in Hrun.
  destruct (nth_error (recentlyClosedEditors st)
              (Nat.pred (length (recentlyClosedEditors st))))
    as [record |] eqn:Hlast.
  - assert (Hpop : (length (removelast (recentlyClosedEditors st))
                    <= length (recentlyClosedEditors st))%nat)
      by (rewrite removelast_firstn_len, length_firstn; lia).
    unfold doReopenLastClosedEditor in Hrun.
    destruct (activeGroupContains (rc_editor record)); cbn [negb] in Hrun.
    + apply IH in Hrun.
      cbn [editorNavigationStack editorNavigationStackIndex
           lastEditorNavigationStackIndex history lastEditLocation
           recentlyClosedEditors ignoreEditorCloseEvent calls with_closed
           with_calls emit] in Hrun.
      destruct Hrun as (Hs & Hi & Hl & Hh & He & Hlen & Hig & added & Hc & Ha).
      repeat (split; [assumption |]).
      split.
      { pose proof (arrays_remove_length
                      (removelast (recentlyClosedEditors st)) record). lia. }
      split; [exact Hig |].
      exists (CallReopenLastClosedEditor :: added). split.
      * rewrite Hc, <- app_assoc. reflexivity.
      * exact Ha.
    + destruct (openYieldsPane (rc_editor record) (reopenOptions record)).
      * injection Hrun as <-.
        cbn [editorNavigationStack editorNavigationStackIndex
             lastEditorNavigationStackIndex history lastEditLocation
             recentlyClosedEditors ignoreEditorCloseEvent calls with_closed
             with_calls with_ignoreClose emit].
        do 5 (split; [reflexivity |]).
        split; [exact Hpop |]. split; [reflexivity |].
        eexists. split; [rewrite <- app_assoc; reflexivity | reflexivity].
      * apply IH in Hrun.
        cbn [editorNavigationStack editorNavigationStackIndex
             lastEditorNavigationStackIndex history lastEditLocation
             recentlyClosedEditors ignoreEditorCloseEvent calls with_closed
             with_calls with_ignoreClose emit] in Hrun.
        destruct Hrun as (Hs & Hi & Hl & Hh & He & Hlen & Hig & added & Hc
                          & Ha).
        repeat (split; [assumption |]).
        split.
        { pose proof (arrays_remove_length
                        (removelast (recentlyClosedEditors st)) record). lia. }
        split; [intros _; apply Hig; reflexivity |].
        exists (CallReopenLastClosedEditor
                :: CallReopenEditor (rc_editor record) (reopenOptions record)
                :: added).
        split.
        -- rewrite Hc, <- !app_assoc. reflexivity.
        -- exact Ha.
  - injection Hrun as <-.
    cbn [editorNavigationStack editorNavigationStackIndex
         lastEditorNavigationStackIndex history lastEditLocation
         recentlyClosedEditors ignoreEditorCloseEvent calls with_calls].
    do 5 (split; [reflexivity |]).
    split; [apply Nat.le_refl |]. split; [auto |].
    exists [CallReopenLastClosedEditor]. split; reflexivity.
Qed.

(** X14.  A request to reopen closed editors, however many records it goes
    through, only takes records out of the buffer and only asks for opens:
    the navigation stack, its cursors, the history and the last edit
    location are untouched, and close events that were listened to before
    are listened to afterwards. *)
Theorem reopen_touches_only_the_closed_buffer (st : State) :
  NoDup (map oid (recentlyClosedEditors st)) ->
  let fuel := S (length (recentlyClosedEditors st)) in
  exists st',
    reopenLastClosedEditor fuel st = Some st'
    /\ editorNavigationStack st' = editorNavigationStack st
    /\ editorNavigationStackIndex st' = editorNavigationStackIndex st
    /\ lastEditorNavigationStackIndex st' = lastEditorNavigationStackIndex st
    /\ history st' = history st
    /\ lastEditLocation st' = lastEditLocation st
    /\ (length (recentlyClosedEditors st')
        <= length (recentlyClosedEditors st))%nat
    /\ (ignoreEditorCloseEvent st = false ->
        ignoreEditorCloseEvent st' = false)
    /\ exists added,
         calls st' = calls st ++ added
         /\ forallb (fun c => isReopenCall c || isActivation c) added = true.
Proof.
  intros Hnd fuel.
  destruct (reopen_chain (rev (recentlyClosedEditors st)) fuel st)
    as (st' & Hrun & _).
  - rewrite map_rev. apply NoDup_rev. exact Hnd.
  - rewrite rev_involutive. reflexivity.
  - rewrite length_rev. unfold fuel. lia.
  - exists st'. split; [exact Hrun |]. apply (reopen_frame fuel st st' Hrun).
Qed.

(** ** File events *)

Lemma filter_idem {A : Type} (f : A -> bool) (l : list A) :
  filter f (filter f l) = filter f l.
Proof.
  apply forallb_filter_id. apply forallb_of_filter.
Qed.

Lemma sameButHistory_refl (st : State) : sameButHistory st st.
Proof. unfold sameButHistory. repeat split. Qed.

Lemma sameButHistory_trans (a b c : State) :
  sameButHistory a b -> sameButHistory b c -> sameButHistory a c.
Proof.
  unfold sameButHistory.
  intros (A1 & A2 & A3 & A4 & A5 & A6 & A7 & A8 & A9 & A10)
         (B1 & B2 & B3 & B4 & B5 & B6 & B7 & B8 & B9 & B10).
  repeat split; congruence.
Qed.

Lemma addToLoadedHistory_frame (st : State) (editor : EditorRef)
  (insertFirst : bool) :
  sameButHistory st (addToLoadedHistory st editor insertFirst).
Proof.
  unfold addToLoadedHistory.
  destruct (preferResourceEditorInput editor); [| apply sameButHistory_refl].
  destruct (Z.of_nat _ >? MAX_HISTORY_ITEMS);
    unfold sameButHistory; repeat split.
Qed.

Lemma loadHistory_frame (st : State) : sameButHistory st (loadHistory st).
Proof.
  unfold loadHistory.
  apply (fold_left_invariant (fun s => sameButHistory st s)).
  - intros s editor Hs. destruct (existsb _ _); [exact Hs |].
    eapply sameButHistory_trans; [exact Hs | apply addToLoadedHistory_frame].
  - apply (fold_left_invariant (fun s => sameButHistory st s)).
    + intros s editor Hs. destruct (includeInHistory _); [| exact Hs].
      eapply sameButHistory_trans; [exact Hs | apply addToLoadedHistory_frame].
    + unfold sameButHistory. repeat split.
Qed.

Lemma ensureHistoryLoaded_frame (st : State) :
  sameButHistory st (ensureHistoryLoaded st).
Proof.
  unfold ensureHistoryLoaded.
  destruct (history st); [apply sameButHistory_refl |].
  destruct groupsReady.
  - eapply sameButHistory_trans; [| apply loadHistory_frame].
    unfold sameButHistory. repeat split.
  - unfold sameButHistory. repeat split.
Qed.

(** X15.  A delete, from the watcher or from a file operation, takes what
    matches it out of the history, the navigation stack and the recently
    closed buffer in one step, and resets the cursors of the stack; the
    same delete once more changes none of the three.  Nothing else but a
    move of a file changes the state: created, copied or written files,
    moved folders and watcher batches without a deletion are ignored. *)
Theorem file_events_clear_every_stack :
  (forall (st : State) (arg1 : MatchArg),
      let st' := remove st arg1 in
      forallb (fun entry => negb (matches arg1 (entry_editor entry)))
              (editorNavigationStack st') = true
      /\ forallb (fun entry => negb (matches arg1 entry))
                 (loadedHistory st') = true
      /\ forallb (keepsRecentlyClosed arg1) (recentlyClosedEditors st') = true
      /\ editorNavigationStackIndex st'
         = Z.of_nat (length (editorNavigationStack st')) - 1
      /\ lastEditorNavigationStackIndex st' = -1
      /\ editorNavigationStack (remove st' arg1) = editorNavigationStack st'
      /\ history (remove st' arg1) = history st'
      /\ recentlyClosedEditors (remove st' arg1) = recentlyClosedEditors st')
  /\ (forall (st : State) (changesEvent : FileChangesEvent),
         onDidFilesChange st (inl changesEvent)
         = if gotDeleted changesEvent
           then remove st (OfChanges changesEvent)
           else st)
  /\ (forall (st : State) (operationEvent : FileOperationEvent),
         (operation operationEvent = DELETE ->
          onDidFilesChange st (inr operationEvent)
          = remove st (OfOperation operationEvent))
         /\ (operation operationEvent = CREATE
             \/ operation operationEvent = COPY
             \/ operation operationEvent = WRITE
             \/ (operation operationEvent = MOVE
                 /\ forall target, op_target operationEvent = Some target ->
                                   target_isFile target = false) ->
             onDidFilesChange st (inr operationEvent) = st)).
Proof.
  split; [| split].
  - intros st arg1 st'.
    assert (Hstack : forall s,
               editorNavigationStack (remove s arg1)
               = filter (fun entry => negb (matches arg1 (entry_editor entry)))
                        (editorNavigationStack s)).
    { intro s.
      destruct (ensureHistoryLoaded_frame s) as (Es & _).
      unfold remove. cbn. rewrite Es. reflexivity. }
    assert (Hhist : forall s,
               history (remove s arg1)
               = Some (filter (fun entry => negb (matches arg1 entry))
                              (loadedHistory (ensureHistoryLoaded s))))
      by reflexivity.
    assert (Hclosed : forall s,
               recentlyClosedEditors (remove s arg1)
               = filter (keepsRecentlyClosed arg1) (recentlyClosedEditors s)).
    { intro s.
      destruct (ensureHistoryLoaded_frame s)
        as (_ & _ & _ & _ & _ & _ & Ec & _).
      unfold remove. cbn. rewrite Ec. reflexivity. }
    unfold st'.
    split; [rewrite Hstack;
            apply (forallb_of_filter
                     (fun entry => negb (matches arg1 (entry_editor entry))))
           |].
    split; [unfold loadedHistory; rewrite Hhist;
            apply (forallb_of_filter (fun entry => negb (matches arg1 entry)))
           |].
    split; [rewrite Hclosed; apply forallb_of_filter |].
    split; [reflexivity |]. split; [reflexivity |].
    split; [rewrite !Hstack; apply filter_idem |].
    split; [| rewrite !Hclosed; apply filter_idem].
    rewrite (Hhist (remove st arg1)).
    rewrite (ensureHistoryLoaded_loaded (remove st arg1) _ (Hhist st)).
    unfold loadedHistory at 1. rewrite (Hhist st), filter_idem. reflexivity.
  - intros st changesEvent. reflexivity.
  - intros st operationEvent. split.
    + intro Hop. unfold onDidFilesChange. rewrite Hop. reflexivity.
    + intros [Hop | [Hop | [Hop | [Hop Hfolder]]]];
        unfold onDidFilesChange; rewrite Hop; try reflexivity.
      destruct (op_target operationEvent) as [target |]; [| reflexivity].
      rewrite (Hfolder target eq_refl). reflexivity.
Qed.

(** ** Hydration of the history *)

Lemma addToLoadedHistory_back (st : State) (editor stored : EditorRef) :
  preferResourceEditorInput editor = Some stored ->
  history (addToLoadedHistory st editor false)
  = Some (boundHistory (loadedHistory st ++ [stored])).
Proof.
  intro Hp. unfold addToLoadedHistory, boundHistory. rewrite Hp.
  destruct (Z.of_nat (length (loadedHistory st ++ [stored]))
            >? MAX_HISTORY_ITEMS); reflexivity.
Qed.

Lemma addToLoadedHistory_rejected (st : State) (editor : EditorRef)
  (insertFirst : bool) :
  preferResourceEditorInput editor = None ->
  addToLoadedHistory st editor insertFirst = st.
Proof.
  intro Hp. unfold addToLoadedHistory. rewrite Hp. reflexivity.
Qed.

Lemma boundHistory_snoc_firstn (base : list EditorRef) (x : EditorRef) :
  boundHistory (firstn 200 base ++ [x]) = firstn 200 (base ++ [x]).
Proof.
  unfold boundHistory, MAX_HISTORY_ITEMS.
  rewrite length_app, length_firstn. cbn [length].
  destruct (Nat.lt_ge_cases (length base) 200) as [Hshort | Hlong].
  - rewrite firstn_all2 by lia.
    destruct (Z.gtb_spec (Z.of_nat (Nat.min 200 (length base) + 1)) 200);
      [lia |].
    symmetry. apply firstn_all2. rewrite length_app. cbn [length]. lia.
  - destruct (Z.gtb_spec (Z.of_nat (Nat.min 200 (length base) + 1)) 200);
      [| lia].
    rewrite removelast_last, firstn_app.
    replace (200 - length base)%nat with 0%nat by lia.
    change (firstn 0 [x]) with (@nil EditorRef). rewrite app_nil_r.
    reflexivity.
Qed.

Lemma load_opened_editors (editors : list EditorInput) :
  forall (st : State) (earlier : list EditorRef),
    history st = Some (firstn 200 earlier) ->
    history
      (fold_left
         (fun s editor =>
            if includeInHistory (Typed editor)
            then addToLoadedHistory s (Typed editor) true
            else s)
         editors st)
    = Some (firstn 200 (rev (map storedForm editors) ++ earlier)).
Proof.
  induction editors as [| editor rest IH]; intros st earlier Hh.
  - exact Hh.
  - cbn [fold_left includeInHistory].
    rewrite (IH _ (storedForm editor :: earlier)).
    + cbn [map rev]. rewrite <- app_assoc. reflexivity.
    + rewrite (addToLoadedHistory_front st (Typed editor) (storedForm editor)
                 (preferResourceEditorInput_typed editor)).
      unfold loadedHistory. rewrite Hh, boundHistory_firstn. reflexivity.
Qed.

Lemma load_stored_entries (keys : list string)
  (stored : list IResourceEditorInput) :
  forall (st : State) (base : list EditorRef),
    history st = Some (firstn 200 base) ->
    history
      (fold_left
         (fun s editor =>
            if existsb
                 (String.eqb
                    (handledKey (ri_resource editor) (ri_override editor)))
                 keys
            then s
            else addToLoadedHistory s (Untyped editor) false)
         stored st)
    = Some (firstn 200
              (base
               ++ flat_map
                    (fun editor =>
                       if existsb
                            (String.eqb
                               (handledKey (ri_resource editor)
                                  (ri_override editor)))
                            keys
                       then []
                       else option_to_list
                              (preferResourceEditorInput (Untyped editor)))
                    stored)).
Proof.
  induction stored as [| editor rest IH]; intros st base Hh.
  - cbn [fold_left flat_map]. rewrite app_nil_r. exact Hh.
  - cbn [fold_left flat_map].
    destruct (existsb _ keys).
    + cbn [app]. apply IH. exact Hh.
    + destruct (preferResourceEditorInput (Untyped editor)) as [x |] eqn:Hp.
      * cbn [option_to_list]. rewrite (IH _ (base ++ [x])).
        -- rewrite <- app_assoc. reflexivity.
        -- rewrite (addToLoadedHistory_back st (Untyped editor) x Hp).
           unfold loadedHistory. rewrite Hh, boundHistory_snoc_firstn.
           reflexivity.
      * rewrite (addToLoadedHistory_rejected st (Untyped editor) false Hp).
        cbn [option_to_list app]. apply IH. exact Hh.
Qed.

Lemma loadHistory_contents (st : State) :
  history (loadHistory st) = Some hydratedHistory.
Proof.
  unfold loadHistory, hydratedHistory, storedKept, openedKeys.
  rewrite (load_stored_entries _ storedEditorHistory _
             (map storedForm mostRecentlyActive)).
  - reflexivity.
  - rewrite (load_opened_editors (rev mostRecentlyActive) _ []).
    + rewrite app_nil_r, map_rev, rev_involutive. reflexivity.
    + reflexivity.
Qed.

(** X16.  Hydration seeds the history with the opened editors, most
    recently active first, and appends the stored entries that no opened
    editor has handled and that can be stored, in their stored order; the
    list is cut at 200.  It happens on the first access when the editor
    groups are ready; when they are not, the first access finds an empty
    history.  A loaded history is never hydrated again. *)
Theorem hydration_puts_opened_editors_first (st : State) :
  loadedHistory (loadHistory st) = hydratedHistory
  /\ (length hydratedHistory <= 200)%nat
  /\ firstn (length mostRecentlyActive) hydratedHistory
     = firstn 200 (map storedForm mostRecentlyActive)
  /\ (history st = None ->
      loadedHistory (ensureHistoryLoaded st)
      = if groupsReady then hydratedHistory else [])
  /\ (forall h, history st = Some h -> ensureHistoryLoaded st = st).
Proof.
  split; [unfold loadedHistory; rewrite loadHistory_contents; reflexivity |].
  split; [unfold hydratedHistory; rewrite length_firstn; lia |].
  split.
  - unfold hydratedHistory.
    rewrite firstn_firstn.
    destruct (Nat.le_ge_cases (length mostRecentlyActive) 200) as [Hle | Hge].
    + rewrite Nat.min_l by exact Hle.
      rewrite firstn_app, length_map, Nat.sub_diag.
      change (firstn 0 storedKept) with (@nil EditorRef).
      rewrite app_nil_r, firstn_all2 by (rewrite length_map; lia).
      symmetry. apply firstn_all2. rewrite length_map. exact Hle.
    + rewrite Nat.min_r by exact Hge.
      rewrite firstn_app, length_map.
      replace (200 - length mostRecentlyActive)%nat with 0%nat by lia.
      change (firstn 0 storedKept) with (@nil EditorRef).
      apply app_nil_r.
  - split.
    + intro Hnone. unfold ensureHistoryLoaded. rewrite Hnone.
      destruct groupsReady; [| reflexivity].
      unfold loadedHistory. rewrite loadHistory_contents. reflexivity.
    + intros h Hh. apply (ensureHistoryLoaded_loaded st h Hh).
Qed.

Lemma preferResourceEditorInput_untyped (r : IResourceEditorInput)
  (stored : EditorRef) :
  preferResourceEditorInput (Untyped r) = Some stored -> stored = Untyped r.
Proof.
  unfold preferResourceEditorInput.
  destruct (_ || _); [| discriminate].
  intro E. injection E as <-. reflexivity.
Qed.

Lemma saved_entries_of_descriptors (entries : list IResourceEditorInput) :
  flat_map (fun editor : EditorRef =>
              match editor with
              | Typed _ => []
              | Untyped r => [r]
              end)
           (map Untyped entries)
  = entries.
Proof.
  induction entries as [| r rest IH]; [reflexivity |].
  cbn [map flat_map app]. f_equal. exact IH.
Qed.

(** X17.  What [saveState] hands to storage are the resource descriptors of
    the history, in order; live handles are left out and an unused history
    saves nothing.  When a session starts with no editors opened and finds
    up to 200 storable entries in storage, hydration gives back exactly
    those entries in that order, and saving again gives the same list. *)
Theorem saved_history_is_restored :
  (forall st : State,
      history st = None -> saveState st = None)
  /\ (forall (st : State) (h : list EditorRef),
         history st = Some h ->
         saveState st
         = Some (flat_map (fun editor : EditorRef =>
                             match editor with
                             | Typed _ => []
                             | Untyped r => [r]
                             end) h))
  /\ (forall st : State,
         mostRecentlyActive = [] ->
         forallb storable storedEditorHistory = true ->
         (length storedEditorHistory <= 200)%nat ->
         loadedHistory (loadHistory st) = map Untyped storedEditorHistory
         /\ saveState (loadHistory st) = Some storedEditorHistory).
Proof.
  split; [| split].
  - intros st Hn. unfold saveState. rewrite Hn. reflexivity.
  - intros st h Hh. unfold saveState. rewrite Hh. reflexivity.
  - intros st Hopened Hstorable Hlen.
    assert (Hkept : storedKept = map Untyped storedEditorHistory).
    { unfold storedKept, openedKeys. rewrite Hopened. cbn [rev flat_map].
      revert Hstorable. clear.
      induction storedEditorHistory as [| r rest IH]; intro Hs;
        [reflexivity |].
      cbn [forallb] in Hs. apply andb_true_iff in Hs.
      destruct Hs as [Hr Hrest].
      cbn [flat_map map existsb]. unfold storable in Hr.
      destruct (preferResourceEditorInput (Untyped r)) as [x |] eqn:Hp;
        [| discriminate Hr].
      rewrite (preferResourceEditorInput_untyped r x Hp).
      cbn [option_to_list app]. f_equal. apply IH. exact Hrest. }
    assert (Hh : history (loadHistory st)
                 = Some (map Untyped storedEditorHistory)).
    { rewrite loadHistory_contents. unfold hydratedHistory.
      rewrite Hopened, Hkept. cbn [map app].
      rewrite firstn_all2 by (rewrite length_map; exact Hlen).
      reflexivity. }
    split.
    + unfold loadedHistory. rewrite Hh. reflexivity.
    + unfold saveState. rewrite Hh, saved_entries_of_descriptors.
      reflexivity.
Qed.

(** ** Replacing and pruning history entries *)

Lemma replaceEntries_after (editor : MatchArg) (replacements : list EditorRef)
  (entries : list EditorRef) :
  replaceEntries editor replacements true entries
  = filter (fun entry => negb (matches editor entry)
                         && unmatchedByAny replacements entry)
           entries.
Proof.
  induction entries as [| entry rest IH]; [reflexivity |].
  cbn [replaceEntries filter]. unfold unmatchedByAny at 1.
  destruct (matches editor entry); cbn [negb andb app].
  - exact IH.
  - destruct (existsb _ replacements); cbn [negb].
    + exact IH.
    + f_equal. exact IH.
Qed.

Lemma replaceEntries_before (editor : MatchArg)
  (replacements : list EditorRef) (entries rest : list EditorRef) :
  existsb (matches editor) entries = false ->
  replaceEntries editor replacements false (entries ++ rest)
  = filter (unmatchedByAny replacements) entries
    ++ replaceEntries editor replacements false rest.
Proof.
  induction entries as [| entry more IH]; intro Hn; [reflexivity |].
  cbn [existsb] in Hn. apply orb_false_iff in Hn. destruct Hn as [He Hmore].
  cbn [app replaceEntries filter]. rewrite He. unfold unmatchedByAny at 1.
  destruct (existsb _ replacements); cbn [negb].
  - apply IH. exact Hmore.
  - cbn [app]. f_equal. apply IH. exact Hmore.
Qed.

(** X18.  [replaceInHistory] puts the replacements in once, at the place of
    the first entry that matches the editor, or at the end when none does;
    every entry that matches the editor is gone, and so is every other
    entry that one of the replacements matches.  A disposed editor that is
    not side by side is just removed; a side by side editor is replaced by
    the resource descriptors of its sides. *)
Theorem replaced_entry_keeps_its_place :
  (forall (st : State) (editor : MatchArg) (replacements : list EditorRef),
      existsb (matches editor) (loadedHistory (ensureHistoryLoaded st))
      = false ->
      history (replaceInHistory st editor replacements)
      = Some (filter (unmatchedByAny replacements)
                     (loadedHistory (ensureHistoryLoaded st))
              ++ replacements))
  /\ (forall (st : State) (editor : MatchArg) (replacements : list EditorRef)
             (before after : list EditorRef) (entry : EditorRef),
         loadedHistory (ensureHistoryLoaded st) = before ++ entry :: after ->
         existsb (matches editor) before = false ->
         matches editor entry = true ->
         history (replaceInHistory st editor replacements)
         = Some (filter (unmatchedByAny replacements) before
                 ++ replacements
                 ++ filter (fun e => negb (matches editor e)
                                     && unmatchedByAny replacements e)
                           after))
  /\ (forall (st : State) (editor : EditorInput),
         sideBySide editor = None ->
         updateHistoryOnEditorDispose st editor
         = fst (removeFromHistory st (OfRef (Typed editor))))
  /\ (forall (st : State) (editor primary secondary : EditorInput),
         sideBySide editor = Some (primary, secondary) ->
         updateHistoryOnEditorDispose st editor
         = replaceInHistory st (OfRef (Typed editor))
             (sideResourceInputs primary secondary)
         /\ forall x, In x (sideResourceInputs primary secondary) ->
                      isEditorInput x = false).
Proof.
  split; [| split; [| split]].
  - intros st editor replacements Hnone.
    unfold replaceInHistory. cbn [history with_historyListeners with_history].
    f_equal.
    rewrite <- (app_nil_r (loadedHistory (ensureHistoryLoaded st))) at 1.
    rewrite (replaceEntries_before editor replacements _ [] Hnone).
    reflexivity.
  - intros st editor replacements before after entry Hh Hbefore Hentry.
    unfold replaceInHistory. cbn [history with_historyListeners with_history].
    f_equal. rewrite Hh.
    rewrite (replaceEntries_before editor replacements before
               (entry :: after) Hbefore).
    cbn [replaceEntries]. rewrite Hentry, replaceEntries_after. reflexivity.
  - intros st editor Hside. unfold updateHistoryOnEditorDispose.
    rewrite Hside. reflexivity.
  - intros st editor primary secondary Hside. split.
    + unfold updateHistoryOnEditorDispose. rewrite Hside. reflexivity.
    + intros x Hin. unfold sideResourceInputs in Hin.
      apply in_flat_map in Hin. destruct Hin as (sideInput & _ & Hx).
      destruct (preferResourceEditorInput (Typed sideInput)) as [[e | r] |];
        try destruct Hx.
      * subst x. reflexivity.
      * destruct H.
Qed.

(** X19.  When the exclusion patterns change, the history keeps every live
    handle and every descriptor whose resource is not excluded, in their
    order, and drops the excluded descriptors; pruning again changes
    nothing, and nothing outside the history is touched. *)
Theorem excluded_descriptors_are_pruned (st : State) :
  let before := loadedHistory (ensureHistoryLoaded st) in
  let st' := removeExcludedFromHistory st in
  loadedHistory st' = filter includeInHistory before
  /\ (forall e, In (Typed e) before -> In (Typed e) (loadedHistory st'))
  /\ (forall r, In (Untyped r) (loadedHistory st') <->
                In (Untyped r) before /\ excludeMatches (ri_resource r) = false)
  /\ loadedHistory (removeExcludedFromHistory st') = loadedHistory st'
  /\ sameButHistory st st'.
Proof.
  intros before st'.
  assert (Hh : history st' = Some (filter includeInHistory before))
    by reflexivity.
  assert (Hl : loadedHistory st' = filter includeInHistory before)
    by (unfold loadedHistory; rewrite Hh; reflexivity).
  split; [exact Hl |]. split; [| split; [| split]].
  - intros e Hin. rewrite Hl. apply filter_In. split; [exact Hin | reflexivity].
  - intro r. rewrite Hl, filter_In. cbn [includeInHistory].
    rewrite negb_true_iff. reflexivity.
  - unfold removeExcludedFromHistory at 1.
    unfold loadedHistory at 1.
    cbn [history with_history].
    rewrite (ensureHistoryLoaded_loaded st' _ Hh), Hl, filter_idem.
    reflexivity.
  - destruct (ensureHistoryLoaded_frame st)
      as (F1 & F2 & F3 & F4 & F5 & F6 & F7 & F8 & F9 & F10).
    unfold sameButHistory, st', removeExcludedFromHistory.
    cbn [editorNavigationStack editorNavigationStackIndex
         lastEditorNavigationStackIndex navigatingInEditorStack
         currentEditorSelectionState editorNavigationStackListeners
         recentlyClosedEditors ignoreEditorCloseEvent lastEditLocation calls
         with_history].
    repeat split; assumption.
Qed.

(** X20.  A move event on the history removes the entries at or below its
    source.  When none matched, the entries stay as they are; when some
    matched, a descriptor of the target is put in front (within the bound)
    if the target can be stored, and nothing is put in if it cannot. *)
Theorem moved_file_is_promoted (st : State) (event : FileOperationEvent) :
  let before := loadedHistory (ensureHistoryLoaded st) in
  let kept :=
    filter (fun entry => negb (matches (OfOperation event) entry)) before in
  (existsb (matches (OfOperation event)) before = false ->
   loadedHistory (moveInHistory st event) = before)
  /\ (forall target,
         existsb (matches (OfOperation event)) before = true ->
         op_target event = Some target ->
         loadedHistory (moveInHistory st event)
         = match preferResourceEditorInput
                   (Untyped (mkResourceInput (target_resource target) None))
           with
           | Some _ =>
               boundHistory
                 (Untyped (mkResourceInput (target_resource target) None)
                  :: kept)
           | None => kept
           end)
  /\ (op_target event = None ->
      loadedHistory (moveInHistory st event) = kept).
Proof.
  intros before kept.
  assert (Hrem : history (fst (removeFromHistory st (OfOperation event)))
                 = Some kept) by reflexivity.
  assert (Hsnd : snd (removeFromHistory st (OfOperation event))
                 = existsb (matches (OfOperation event)) before)
    by reflexivity.
  assert (Hpair : removeFromHistory st (OfOperation event)
                  = (fst (removeFromHistory st (OfOperation event)),
                     existsb (matches (OfOperation event)) before)).
  { rewrite <- Hsnd.
    destruct (removeFromHistory st (OfOperation event)); reflexivity. }
  assert (Hkept : loadedHistory (fst (removeFromHistory st (OfOperation event)))
                  = kept)
    by (unfold loadedHistory; rewrite Hrem; reflexivity).
  split; [| split].
  - intro Hnone. unfold moveInHistory. rewrite Hpair, Hnone.
    assert (Hsame : kept = before).
    { apply (filter_none_matching (matches (OfOperation event))).
      exact Hnone. }
    destruct (op_target event); rewrite Hkept; exact Hsame.
  - intros target Hsome Ht. unfold moveInHistory.
    rewrite Hpair, Hsome, Ht. unfold addToHistory.
    rewrite (ensureHistoryLoaded_loaded _ _ Hrem).
    destruct (preferResourceEditorInput
                (Untyped (mkResourceInput (target_resource target) None)))
      as [x |] eqn:Hp.
    + unfold loadedHistory at 1.
      rewrite (addToLoadedHistory_front _ _ x Hp), Hkept.
      rewrite (preferResourceEditorInput_untyped _ x Hp). reflexivity.
    + rewrite (addToLoadedHistory_rejected _ _ true Hp). exact Hkept.
  - intro Ht. unfold moveInHistory. rewrite Hpair, Ht. exact Hkept.
Qed.

(** ** Last active file and workspace root *)





Lemma lastActiveRootIn_known (schemeFilter : option string)
  (h : list EditorRef) (root : URI) :
  lastActiveRootIn h schemeFilter = Some root ->
  exists input,
    In (Untyped input) h
    /\ passesSchemeFilter schemeFilter (ri_resource input) = true
    /\ getWorkspaceFolder (ri_resource input) = Some root.
Proof.
  induction h as [| entry rest IH]; [discriminate |].
  cbn [lastActiveRootIn]. destruct entry as [e | input].
  - intro H. destruct (IH H) as (i & Hin & Hp & Hw).
    exists i. split; [right; exact Hin | split; assumption].
  - destruct (passesSchemeFilter schemeFilter (ri_resource input)) eqn:Hpass;
      cbn [negb].
    + destruct (getWorkspaceFolder (ri_resource input)) as [w |] eqn:Hw.
      * intro H. injection H as <-. exists input.
        split; [left; reflexivity | split; assumption].
      * intro H. destruct (IH H) as (i & Hin & Hp & Hw').
        exists i. split; [right; exact Hin | split; assumption].
    + intro H. destruct (IH H) as (i & Hin & Hp & Hw).
      exists i. split; [right; exact Hin | split; assumption].
Qed.

(** X22.  [getLastActiveWorkspaceRoot]: without a folder there is no answer;
    with one folder the history is not consulted.  If the workspace only
    hands out its own folders, every answer is a folder of the workspace.
    An answer taken from the history is the folder of a descriptor that
    passes the scheme filter (the folder itself is not checked against the
    filter); and there is no answer only when no folder of the workspace
    passes the filter. *)
Theorem last_active_root_is_a_workspace_folder (st : State)
  (schemeFilter : option string) :
  let answer := snd (getLastActiveWorkspaceRoot st schemeFilter) in
  ((length workspaceFolders <= 1)%nat ->
   fst (getLastActiveWorkspaceRoot st schemeFilter) = st)
  /\ (workspaceFolders = [] -> answer = None)
  /\ ((forall resource folder,
          getWorkspaceFolder resource = Some folder ->
          In folder workspaceFolders) ->
      forall root, answer = Some root -> In root workspaceFolders)
  /\ (forall root,
         answer = Some root ->
         passesSchemeFilter schemeFilter root = true
         \/ exists input,
              In (Untyped input) (loadedHistory (ensureHistoryLoaded st))
              /\ passesSchemeFilter schemeFilter (ri_resource input) = true
              /\ getWorkspaceFolder (ri_resource input) = Some root)
  /\ (answer = None ->
      forall folder, In folder workspaceFolders ->
                     passesSchemeFilter schemeFilter folder = false).
Proof.
  intro answer. unfold answer, getLastActiveWorkspaceRoot.
  destruct workspaceFolders as [| first [| second more]] eqn:Hfolders.
  - cbn [fst snd length].
    split; [reflexivity |]. split; [reflexivity |].
    split; [discriminate |]. split; [discriminate |].
    intros _ folder Hin. destruct Hin.
  - cbn [fst snd length].
    split; [reflexivity |]. split; [discriminate |].
    destruct (passesSchemeFilter schemeFilter first) eqn:Hpass.
    + split; [intros _ root H; injection H as <-; left; reflexivity |].
      split; [intros root H; injection H as <-; left; exact Hpass |].
      discriminate.
    + split; [discriminate |]. split; [discriminate |].
      intros _ folder [<- | []]. exact Hpass.
  - unfold getHistory.
    set (h := loadedHistory (ensureHistoryLoaded st)).
    split; [cbn [length]; lia |]. split; [discriminate |].
    destruct (lastActiveRootIn h schemeFilter) as [root' |] eqn:Hroot;
      cbn [fst snd].
    + destruct (lastActiveRootIn_known _ _ _ Hroot) as (input & Hin & Hp & Hw).
      split; [intros Hsound root H; injection H as <-;
              exact (Hsound _ _ Hw) |].
      split; [intros root H; injection H as <-; right; exists input;
              split; [exact Hin | split; assumption] |].
      discriminate.
    + split.
      { intros _ root H. apply find_some in H. exact (proj1 H). }
      split.
      { intros root H. apply find_some in H. left. exact (proj2 H). }
      intros Hnone folder Hin.
      pose proof (find_none _ _ Hnone folder Hin) as Hn. exact Hn.
Qed.

(** ** The active editor *)

Lemma doAddOrReplace_history (st : State) (editor : EditorRef)
  (selection : option IEditorPaneSelection) (forceReplace : bool) :
  history (doAddOrReplaceInEditorNavigationStack st editor selection
             forceReplace)
  = history st.
Proof.
  unfold doAddOrReplaceInEditorNavigationStack.
  destruct (preferResourceEditorInput editor) as [stored |]; [| reflexivity].
  destruct (decideReplace st editor selection forceReplace).
  - reflexivity.
  - unfold insertAfterCursor.
    destruct (_ >? MAX_EDITOR_NAVIGATION_STACK_ITEMS); [| reflexivity].
    cbn [lastEditorNavigationStackIndex with_stack].
    destruct (lastEditorNavigationStackIndex st >=? 0); reflexivity.
Qed.

Lemma handleEventInEditorNavigationStack_history (st : State)
  (editorPane : option IEditorPane)
  (reason : option EditorPaneSelectionChangeReason) :
  history (handleEventInEditorNavigationStack st editorPane reason)
  = history st.
Proof.
  assert (Hadd : forall s e sel,
             history (addToEditorNavigationStack s e sel) = history s).
  { intros s e sel. unfold addToEditorNavigationStack.
    destruct (negb (navigatingInEditorStack s)); [| reflexivity].
    apply doAddOrReplace_history. }
  assert (Hrep : forall s e sel,
             history (replaceInEditorNavigationStack s e sel) = history s).
  { intros s e sel. unfold replaceInEditorNavigationStack.
    destruct (negb (navigatingInEditorStack s)); [| reflexivity].
    apply doAddOrReplace_history. }
  unfold handleEventInEditorNavigationStack.
  destruct (navigatingInEditorStack st).
  - destruct editorPane as [pane |]; [| reflexivity].
    destruct (pane_input pane); [| reflexivity].
    destruct (pane_inputDisposed pane); [reflexivity |].
    destruct (pane_withSelection pane); reflexivity.
  - destruct editorPane as [pane |]; [| reflexivity].
    destruct (pane_input pane) as [input |] eqn:Hin; [| reflexivity].
    destruct (pane_inputDisposed pane); [reflexivity |].
    destruct (pane_withSelection pane).
    + unfold handleSelectionAwareEditorEventInEditorNavigationStack.
      cbn [history with_current].
      destruct (match currentEditorSelectionState st with
                | Some current => _
                | None => true
                end); [apply Hadd | apply Hrep].
    + unfold handleNonSelectionAwareEditorEventInEditorNavigationStack.
      rewrite Hin.
      destruct (match js_get _ _ with Some _ => _ | None => false end);
        [reflexivity |].
      rewrite Hadd. reflexivity.
Qed.

(** X25.  An active editor event for the editor that was active last, in
    the same group, changes nothing: neither the history nor the navigation
    stack hears of it.  Any other event is handled: the history and the
    navigation stack are given the pane, so a live editor of the pane is in
    front of the history afterwards; the service remembers the input and
    the group of the pane and listens to its selection if it has one.  So,
    for an input that matches itself, the same event a second time is
    ignored; when no editor is active nothing is remembered and a repeated
    event is handled again. *)
Theorem repeated_active_editor_event_is_ignored :
  (forall (tracker : ActiveEditorTracker)
          (activeEditorPane : option ActiveEditorPane),
      stillActive tracker activeEditorPane = true ->
      onDidActiveEditorChange tracker activeEditorPane = tracker)
  /\ (forall (tracker : ActiveEditorTracker)
             (activeEditorPane : option ActiveEditorPane),
         stillActive tracker activeEditorPane = false ->
         let once := onDidActiveEditorChange tracker activeEditorPane in
         service once
         = handleEventInEditorNavigationStack
             (handleEditorEventInHistory (service tracker)
                (option_map active_pane activeEditorPane))
             (option_map active_pane activeEditorPane) None
         /\ lastActiveEditor once
            = match activeEditorPane with
              | Some pane =>
                  match pane_input (active_pane pane), active_group pane with
                  | Some input, Some groupId =>
                      Some (mkIdentifier input groupId)
                  | _, _ => None
                  end
              | None => None
              end
         /\ listensToSelection once
            = match activeEditorPane with
              | Some pane => pane_withSelection (active_pane pane)
              | None => false
              end
         /\ forall pane input,
              activeEditorPane = Some pane ->
              liveInput (active_pane pane) = Some input ->
              hd_error (loadedHistory (service once))
              = Some (storedForm input))
  /\ (forall (tracker : ActiveEditorTracker) (pane : ActiveEditorPane)
             (input : EditorInput) (groupId : GroupIdentifier),
         pane_input (active_pane pane) = Some input ->
         active_group pane = Some groupId ->
         editor_matches input input = true ->
         let once := onDidActiveEditorChange tracker (Some pane) in
         stillActive once (Some pane) = true
         /\ onDidActiveEditorChange once (Some pane) = once)
  /\ (forall (tracker : ActiveEditorTracker),
         lastActiveEditor tracker = None ->
         let once := onDidActiveEditorChange tracker None in
         stillActive once None = false
         /\ service (onDidActiveEditorChange once None)
            = handleActiveEditorChange
                (handleActiveEditorChange (service tracker) None) None).
Proof.
  assert (Hskip : forall tracker activeEditorPane,
             stillActive tracker activeEditorPane = true ->
             onDidActiveEditorChange tracker activeEditorPane = tracker).
  { intros tracker activeEditorPane Hsame.
    unfold stillActive in Hsame. unfold onDidActiveEditorChange.
    rewrite Hsame. reflexivity. }
  assert (Hhandle : forall tracker activeEditorPane,
             stillActive tracker activeEditorPane = false ->
             onDidActiveEditorChange tracker activeEditorPane
             = {| service :=
                    handleActiveEditorChange (service tracker)
                      (option_map active_pane activeEditorPane);
                  lastActiveEditor :=
                    match activeEditorPane with
                    | Some pane =>
                        match pane_input (active_pane pane),
                              active_group pane with
                        | Some input, Some groupId =>
                            Some (mkIdentifier input groupId)
                        | _, _ => None
                        end
                    | None => None
                    end;
                  listensToSelection :=
                    match activeEditorPane with
                    | Some pane => pane_withSelection (active_pane pane)
                    | None => false
                    end |}).
  { intros tracker activeEditorPane Hsame.
    unfold stillActive in Hsame. unfold onDidActiveEditorChange.
    rewrite Hsame. reflexivity. }
  split; [exact Hskip |]. split; [| split].
  - intros tracker activeEditorPane Hsame once.
    unfold once. rewrite (Hhandle tracker activeEditorPane Hsame).
    cbn [service lastActiveEditor listensToSelection].
    split; [reflexivity |]. split; [reflexivity |]. split; [reflexivity |].
    intros pane input -> Hlive.
    destruct (liveInput_some (active_pane pane) input Hlive) as (Hin & Hd).
    unfold handleActiveEditorChange, loadedHistory. cbn [option_map].
    rewrite handleEventInEditorNavigationStack_history.
    rewrite (handleEditorEventInHistory_history (service tracker)
               (active_pane pane) input Hin Hd).
    destruct (boundHistory_cons (storedForm input)
                (filter (unmatchedBy input)
                        (loadedHistory (ensureHistoryLoaded (service tracker)))))
      as (l' & El & _).
    rewrite El. reflexivity.
  - intros tracker pane input groupId Hinput Hgroup Hrefl once.
    assert (Hself : matchesEditor (mkIdentifier input groupId) (Some pane)
                    = true).
    { unfold matchesEditor. rewrite Hgroup, Hinput. cbn [id_groupId id_editor].
      rewrite Z.eqb_refl. cbn [negb]. exact Hrefl. }
    assert (Hstill : stillActive once (Some pane) = true).
    { destruct (stillActive tracker (Some pane)) eqn:Hsame.
      - unfold once. rewrite (Hskip tracker (Some pane) Hsame). exact Hsame.
      - unfold once. rewrite (Hhandle tracker (Some pane) Hsame).
        unfold stillActive. cbn [lastActiveEditor].
        rewrite Hinput, Hgroup. exact Hself. }
    split; [exact Hstill |]. exact (Hskip once (Some pane) Hstill).
  - intros tracker Hlast once.
    assert (Hsame : stillActive tracker None = false)
      by (unfold stillActive; rewrite Hlast; reflexivity).
    assert (Honce : stillActive once None = false).
    { unfold once. rewrite (Hhandle tracker None Hsame). reflexivity. }
    split; [exact Honce |].
    rewrite (Hhandle once None Honce). cbn [service option_map].
    unfold once. rewrite (Hhandle tracker None Hsame). reflexivity.
Qed.

(** ** Recently used editors *)

Lemma recentlyUsed_step (groups : EditorGroups) (st : RecentlyUsedState)
  (indexModifier : Z -> Z) (groupId : option GroupIdentifier) :
  let editors := scopeEditors groups groupId st in
  let modified := indexModifier (scopeIndex groups groupId st) in
  let ensured := ensureRecentlyUsedStack groups st indexModifier groupId in
  let st' :=
    doNavigateInRecentlyUsedEditorsStack groups (fst (fst ensured))
      (js_get (snd (fst ensured)) (snd ensured)) groupId in
  scopeStack groups groupId st' = Some editors
  /\ otherScope groups groupId st' = otherScope groups groupId st
  /\ (editors = [] -> groupOpens st' = groupOpens st)
  /\ (editors <> [] ->
      scopeIndex groups groupId st'
      = Z.max 0 (Z.min (Z.of_nat (length editors) - 1) modified)
      /\ exists identifier,
           nth_error editors (Z.to_nat (scopeIndex groups groupId st'))
           = Some identifier
           /\ groupOpens st'
              = groupOpens st
                ++ [(openTarget groups identifier, id_editor identifier)]
           /\ scopeNavigating groups groupId st' = true).
Proof.
  intros editors modified ensured st'.
  assert (Hnth : forall (l : list IEditorIdentifier) (i : Z),
             l <> [] ->
             let index :=
               if i <? 0 then 0
               else if i >? Z.of_nat (length l) - 1
                    then Z.of_nat (length l) - 1 else i in
             index = Z.max 0 (Z.min (Z.of_nat (length l) - 1) i)
             /\ exists identifier,
                  js_get l index = Some identifier
                  /\ nth_error l (Z.to_nat index) = Some identifier).
  { intros l i Hl index.
    assert (Hlen : (0 < length l)%nat)
      by (destruct l; [congruence | cbn [length]; lia]).
    assert (Hrange : 0 <= index < Z.of_nat (length l)).
    { unfold index. destruct (Z.ltb_spec i 0); [lia |].
      destruct (Z.gtb_spec i (Z.of_nat (length l) - 1)); lia. }
    split.
    - unfold index. destruct (Z.ltb_spec i 0); [lia |].
      destruct (Z.gtb_spec i (Z.of_nat (length l) - 1)); lia.
    - destruct (nth_error l (Z.to_nat index)) as [identifier |] eqn:E.
      + exists identifier. split; [| reflexivity].
        unfold js_get. destruct (Z.ltb_spec index 0); [lia | exact E].
      + apply nth_error_None in E. lia. }
  assert (Hempty : forall (i : Z),
             js_get (@nil IEditorIdentifier)
               (if i <? 0 then 0
                else if i >? Z.of_nat (length (@nil IEditorIdentifier)) - 1
                     then Z.of_nat (length (@nil IEditorIdentifier)) - 1
                     else i)
             = None).
  { intro i. unfold js_get. cbn [length].
    destruct (i <? 0); [reflexivity |].
    destruct (i >? Z.of_nat 0 - 1); [reflexivity |].
    destruct (i <? 0); [reflexivity |]. destruct (Z.to_nat i); reflexivity. }
  unfold st', ensured, editors, modified, scopeEditors, scopeStack,
    scopeIndex, scopeNavigating, otherScope, currentEditors, acrossGroups,
    ensureRecentlyUsedStack.
  destruct groupId as [id |];
    [destruct (getGroup groups id) as [ge |] eqn:Hg |];
    cbn [option_map fst snd];
    match goal with
    | |- context [indexModifier ?index] =>
        set (i := indexModifier index)
    end;
    match goal with
    | |- context [js_get ?editors _] => set (l := editors)
    end;
    (destruct l as [| x l'] eqn:Hl;
     [ rewrite (Hempty i);
       cbn [doNavigateInRecentlyUsedEditorsStack
            recentlyUsedEditorsInGroupStack recentlyUsedEditorsStack
            recentlyUsedEditorsStackIndex
            recentlyUsedEditorsInGroupStackIndex
            navigatingInRecentlyUsedEditorsStack
            navigatingInRecentlyUsedEditorsInGroupStack groupOpens];
       split; [reflexivity |]; split; [reflexivity |];
       split; [reflexivity |]; intro H; congruence
     | assert (Hne : x :: l' <> []) by discriminate;
       destruct (Hnth (x :: l') i Hne) as (Hidx & identifier & Hget & Hn);
       rewrite Hget;
       unfold doNavigateInRecentlyUsedEditorsStack,
         setNavigatingInRecentlyUsed, acrossGroups, openTarget;
       rewrite ?Hg;
       cbn [recentlyUsedEditorsInGroupStack recentlyUsedEditorsStack
            recentlyUsedEditorsStackIndex
            recentlyUsedEditorsInGroupStackIndex
            navigatingInRecentlyUsedEditorsStack
            navigatingInRecentlyUsedEditorsInGroupStack groupOpens];
       split; [reflexivity |]; split; [reflexivity |];
       split; [discriminate |]; intros _; split; [exact Hidx |];
       exists identifier; split; [exact Hn |]; split; reflexivity ]).
Qed.

Lemma openPreviouslyUsedEditor_unfold (groups : EditorGroups)
  (st : RecentlyUsedState) (groupId : option GroupIdentifier) :
  openPreviouslyUsedEditor groups st groupId
  = let ensured :=
      ensureRecentlyUsedStack groups st (fun index => index + 1) groupId in
    doNavigateInRecentlyUsedEditorsStack groups (fst (fst ensured))
      (js_get (snd (fst ensured)) (snd ensured)) groupId.
Proof.
  unfold openPreviouslyUsedEditor.
  destruct (ensureRecentlyUsedStack groups st (fun index => index + 1) groupId)
    as [[st1 stack] index].
  reflexivity.
Qed.

Lemma openNextRecentlyUsedEditor_unfold (groups : EditorGroups)
  (st : RecentlyUsedState) (groupId : option GroupIdentifier) :
  openNextRecentlyUsedEditor groups st groupId
  = let ensured :=
      ensureRecentlyUsedStack groups st (fun index => index - 1) groupId in
    doNavigateInRecentlyUsedEditorsStack groups (fst (fst ensured))
      (js_get (snd (fst ensured)) (snd ensured)) groupId.
Proof.
  unfold openNextRecentlyUsedEditor.
  destruct (ensureRecentlyUsedStack groups st (fun index => index - 1) groupId)
    as [[st1 stack] index].
  reflexivity.
Qed.

Lemma recentlyUsedSettle_keeps (groups : EditorGroups)
  (groupId : option GroupIdentifier) (st : RecentlyUsedState) :
  scopeNavigating groups groupId st = true ->
  let st' := recentlyUsedSettle groups groupId st in
  scopeStack groups groupId st' = scopeStack groups groupId st
  /\ scopeIndex groups groupId st' = scopeIndex groups groupId st
  /\ scopeNavigating groups groupId st' = false
  /\ groupOpens st' = groupOpens st.
Proof.
  unfold scopeNavigating, scopeStack, scopeIndex, recentlyUsedSettle,
    recentlyUsedOpenSettled, setNavigatingInRecentlyUsed,
    handleEditorEventInRecentEditorsStack.
  destruct (acrossGroups groups groupId); intro Hnav;
    cbn [recentlyUsedEditorsInGroupStack recentlyUsedEditorsStack
         recentlyUsedEditorsStackIndex recentlyUsedEditorsInGroupStackIndex
         navigatingInRecentlyUsedEditorsStack
         navigatingInRecentlyUsedEditorsInGroupStack groupOpens];
    rewrite Hnav; cbn [negb]; repeat split; reflexivity.
Qed.

(** X23.  Stepping through the recently used editors never leaves the list
    it walks: the index moves by one and stops at both ends, the editor at
    the new index is the one opened (in its group, or in the active group
    when its group is gone), the list walked is remembered, and the other
    scope (all groups or one group) is left alone.  On an empty list
    nothing is opened. *)
Theorem recently_used_step_stays_in_the_list (groups : EditorGroups)
  (st : RecentlyUsedState) (groupId : option GroupIdentifier) :
  let editors := scopeEditors groups groupId st in
  let index := scopeIndex groups groupId st in
  let walked (step : Z) (st' : RecentlyUsedState) :=
    scopeStack groups groupId st' = Some editors
    /\ otherScope groups groupId st' = otherScope groups groupId st
    /\ (editors = [] -> groupOpens st' = groupOpens st)
    /\ (editors <> [] ->
        scopeIndex groups groupId st'
        = Z.max 0 (Z.min (Z.of_nat (length editors) - 1) (index + step))
        /\ exists identifier,
             nth_error editors (Z.to_nat (scopeIndex groups groupId st'))
             = Some identifier
             /\ groupOpens st'
                = groupOpens st
                  ++ [(openTarget groups identifier, id_editor identifier)]
             /\ scopeNavigating groups groupId st' = true) in
  walked 1 (openPreviouslyUsedEditor groups st groupId)
  /\ walked (-1) (openNextRecentlyUsedEditor groups st groupId).
Proof.
  intros editors index walked. split.
  - unfold walked. rewrite openPreviouslyUsedEditor_unfold.
    exact (recentlyUsed_step groups st (fun i => i + 1) groupId).
  - unfold walked. rewrite openNextRecentlyUsedEditor_unfold.
    exact (recentlyUsed_step groups st (fun i => i - 1) groupId).
Qed.

(** X24.  The list walked is the one taken at the first step: after a step
    has settled, the next step walks the same list from the index reached,
    whatever order the editors have by then; the first editor event that
    arrives when no step is pending forgets the list and the index. *)
Theorem recently_used_walk_keeps_its_snapshot
  (groups groups' : EditorGroups) (st : RecentlyUsedState)
  (groupId : option GroupIdentifier) :
  scopeEditors groups groupId st <> [] ->
  acrossGroups groups' groupId = acrossGroups groups groupId ->
  let editors := scopeEditors groups groupId st in
  let stepped := openPreviouslyUsedEditor groups st groupId in
  let settled := recentlyUsedSettle groups groupId stepped in
  scopeEditors groups' groupId settled = editors
  /\ scopeIndex groups' groupId settled = scopeIndex groups groupId stepped
  /\ scopeNavigating groups' groupId settled = false
  /\ groupOpens settled = groupOpens stepped
  /\ (exists identifier,
         nth_error editors
           (Z.to_nat (Z.max 0 (Z.min (Z.of_nat (length editors) - 1)
                                     (scopeIndex groups groupId stepped - 1))))
         = Some identifier
         /\ groupOpens (openNextRecentlyUsedEditor groups' settled groupId)
            = groupOpens stepped
              ++ [(openTarget groups' identifier, id_editor identifier)])
  /\ scopeStack groups' groupId
       (handleEditorEventInRecentEditorsStack settled) = None
  /\ scopeIndex groups' groupId
       (handleEditorEventInRecentEditorsStack settled) = 0.
Proof.
  intros Hne Hscope editors stepped settled.
  destruct (recentlyUsed_step groups st (fun i => i + 1) groupId)
    as (Hstack & _ & _ & Hstep).
  destruct (Hstep Hne) as (_ & _ & _ & _ & Hnav).
  rewrite <- openPreviouslyUsedEditor_unfold in Hstack, Hnav.
  destruct (recentlyUsedSettle_keeps groups groupId stepped Hnav)
    as (Ks & Ki & Kn & Ko).
  fold settled in Ks, Ki, Kn, Ko.
  assert (Es : scopeStack groups' groupId settled = Some editors).
  { unfold scopeStack in *. rewrite Hscope, Ks. exact Hstack. }
  assert (Ee : scopeEditors groups' groupId settled = editors)
    by (unfold scopeEditors; rewrite Es; reflexivity).
  assert (Ei : scopeIndex groups' groupId settled
               = scopeIndex groups groupId stepped)
    by (unfold scopeIndex in *; rewrite Hscope; exact Ki).
  assert (En : scopeNavigating groups' groupId settled = false)
    by (unfold scopeNavigating in *; rewrite Hscope; exact Kn).
  split; [exact Ee |]. split; [exact Ei |]. split; [exact En |].
  split; [exact Ko |]. split.
  - destruct (recentlyUsed_step groups' settled (fun i => i - 1) groupId)
      as (_ & _ & _ & Hnext).
    rewrite <- openNextRecentlyUsedEditor_unfold in Hnext.
    rewrite Ee in Hnext. destruct (Hnext Hne) as (Hidx & identifier & Hn & Ho & _).
    exists identifier. rewrite Hidx, Ei in Hn. split; [exact Hn |].
    rewrite Ho, Ko. reflexivity.
  - unfold scopeNavigating in En. unfold scopeStack, scopeIndex.
    unfold handleEditorEventInRecentEditorsStack.
    destruct (acrossGroups groups' groupId);
      cbn [recentlyUsedEditorsInGroupStack recentlyUsedEditorsStack
           recentlyUsedEditorsStackIndex
           recentlyUsedEditorsInGroupStackIndex];
      rewrite En; split; reflexivity.
Qed.

(** ** Context keys *)

Lemma reopenRemainder_shrinks (r : IRecentlyClosedEditor)
  (older : list IRecentlyClosedEditor) :
  (length (reopenRemainder (r :: older)) <= length older)%nat.
Proof.
  revert r. induction older as [| r' older IH]; intro r.
  - cbn [reopenRemainder]. destruct (_ && _); cbn [length]; lia.
  - cbn [reopenRemainder] in *.
    destruct (negb (activeGroupContains (rc_editor r))
              && openYieldsPane (rc_editor r) (reopenOptions r));
      [lia |].
    specialize (IH r'). cbn [length]. lia.
Qed.

(** X26.  What [updateContextKeys] sets from a well-formed state tells what
    the commands do in that state.  Back and forward leave the service as
    it is when their key is off and ask for the open of the neighbouring
    entry when it is on; the same holds for the last edit location.  With
    the reopen key off a request to reopen finds no record and asks for no
    open; with it on, at least one record leaves the buffer. *)
Theorem context_keys_tell_what_commands_do (st : State) :
  navigationStackOk st ->
  let keys := updateContextKeys st in
  (canNavigateBack keys = false -> back st = st)
  /\ (canNavigateBack keys = true ->
      exists location,
        js_get (editorNavigationStack st) (editorNavigationStackIndex st - 1)
        = Some location
        /\ calls (back st) = calls st ++ [CallOpenEditor location])
  /\ (canNavigateForward keys = false -> forward st = st)
  /\ (canNavigateForward keys = true ->
      exists location,
        js_get (editorNavigationStack st) (editorNavigationStackIndex st + 1)
        = Some location
        /\ calls (forward st) = calls st ++ [CallOpenEditor location])
  /\ (canNavigateToLastEditLocation keys = false ->
      openLastEditLocation st = st)
  /\ (canNavigateToLastEditLocation keys = true ->
      exists location,
        lastEditLocation st = Some location
        /\ calls (openLastEditLocation st)
           = calls st ++ [CallOpenEditor location])
  /\ (canReopenClosedEditor keys = false ->
      forall fuel,
        reopenLastClosedEditor (S fuel) st
        = Some (emit st CallReopenLastClosedEditor))
  /\ (canReopenClosedEditor keys = true ->
      NoDup (map oid (recentlyClosedEditors st)) ->
      exists st',
        reopenLastClosedEditor (S (length (recentlyClosedEditors st))) st
        = Some st'
        /\ (length (recentlyClosedEditors st')
            < length (recentlyClosedEditors st))%nat).
Proof.
  intros (Hmax & Hi & Hl) keys. unfold keys, updateContextKeys.
  cbn [canNavigateBack canNavigateForward canNavigateToLastEditLocation
       canReopenClosedEditor].
  set (len := Z.of_nat (length (editorNavigationStack st))) in *.
  set (index := editorNavigationStackIndex st) in *.
  repeat split.
  - intro Hoff. unfold back. fold index.
    destruct (Z.gtb_spec index 0) as [Hpos |]; [| reflexivity].
    destruct (Z.gtb_spec len 0); [discriminate Hoff | lia].
  - intro Hon. apply andb_true_iff in Hon. destruct Hon as [_ Hpos].
    unfold back. fold index. rewrite Hpos.
    destruct (navigate_opens (setIndex st (index - 1)))
      as (location & Hget & Hnav).
    { cbn [setIndex with_index with_lastIndex editorNavigationStack
           editorNavigationStackIndex].
      fold len. apply Z.gtb_lt in Hpos. lia. }
    exists location. split; [exact Hget |]. rewrite Hnav. reflexivity.
  - intro Hoff. unfold forward. fold index len.
    destruct (Z.gtb_spec len (index + 1)) as [Hroom |]; [| reflexivity].
    destruct (Z.gtb_spec len 0); [| lia].
    destruct (Z.ltb_spec index (len - 1)); [discriminate Hoff | lia].
  - intro Hon. apply andb_true_iff in Hon. destruct Hon as [_ Hroom].
    apply Z.ltb_lt in Hroom.
    unfold forward. fold index len.
    destruct (Z.gtb_spec len (index + 1)); [| lia].
    destruct (navigate_opens (setIndex st (index + 1)))
      as (location & Hget & Hnav).
    { cbn [setIndex with_index with_lastIndex editorNavigationStack
           editorNavigationStackIndex].
      fold len. lia. }
    exists location. split; [exact Hget |]. rewrite Hnav. reflexivity.
  - unfold openLastEditLocation.
    destruct (lastEditLocation st); [discriminate | reflexivity].
  - unfold openLastEditLocation.
    destruct (lastEditLocation st) as [location |]; [| discriminate].
    intros _. exists location. split; reflexivity.
  - intros Hoff fuel.
    assert (Hempty : recentlyClosedEditors st = []).
    { destruct (recentlyClosedEditors st); [reflexivity |].
      cbn [length] in Hoff.
      destruct (Z.gtb_spec (Z.of_nat (S (length l))) 0);
        [discriminate Hoff | lia]. }
    cbn [reopenLastClosedEditor]. cbn [emit with_calls recentlyClosedEditors].
    rewrite Hempty. reflexivity.
  - intros Hon Hnd.
    destruct (reopen_chain (rev (recentlyClosedEditors st))
                (S (length (recentlyClosedEditors st))) st)
      as (st' & Hrun & _ & Hrest).
    + rewrite map_rev. apply NoDup_rev. exact Hnd.
    + rewrite rev_involutive. reflexivity.
    + rewrite length_rev. lia.
    + exists st'. split; [exact Hrun |].
      rewrite Hrest, length_rev.
      destruct (rev (recentlyClosedEditors st)) as [| r older] eqn:Hrev.
      * apply (f_equal (@length _)) in Hrev. rewrite length_rev in Hrev.
        cbn [length] in Hrev. rewrite Hrev in Hon. discriminate Hon.
      * pose proof (reopenRemainder_shrinks r older) as Hs.
        apply (f_equal (@length _)) in Hrev. rewrite length_rev in Hrev.
        cbn [length] in Hrev. lia.
Qed.

End FurtherProperties.

(** * Further runs on the sample host *)

Lemma sharedBranch_ok : navigationStackOk sharedBranch.
Proof. unfold navigationStackOk. repeat split; by_evaluation. Qed.

Lemma stackWithFile_ok : navigationStackOk stackWithFile.
Proof. unfold navigationStackOk. repeat split; by_evaluation. Qed.

(** X1, on the sample host: an editor event that arrives after a step
    back, before the open has settled. *)
Lemma events_while_navigating_witness :
  navigatingInEditorStack (back threeEntries) = true
  /\ editorNavigationStack
       (@handleEventInEditorNavigationStack sampleHost (back threeEntries)
          (Some (paneShowing newEditor)) None)
     = editorNavigationStack threeEntries
  /\ editorNavigationStackIndex
       (@handleEventInEditorNavigationStack sampleHost (back threeEntries)
          (Some (paneShowing newEditor)) None)
     = 1.
Proof.
  split; [reflexivity |].
  assert (Hi : 0 < editorNavigationStackIndex threeEntries
                 < Z.of_nat (length (editorNavigationStack threeEntries)))
    by (split; reflexivity).
  destruct (proj2 (proj2 (@events_while_navigating_only_track_selection
                            sampleHost))
              threeEntries (Some (paneShowing newEditor)) None Hi)
    as (Hs & Hidx & _).
  split; [exact Hs | exact Hidx].
Defined.

(** X2, on the sample host: two steps back and one forward. *)
Lemma replay_only_opens_stack_entries_witness :
  let events := [Back; NavigationSettled; Back; NavigationSettled; Forward] in
  navigationStackOk threeEntries
  /\ forallb isReplay events = true
  /\ editorNavigationStack
       (fold_left (@navigationStep sampleHost) events threeEntries)
     = editorNavigationStack threeEntries
  /\ navigationStackOk
       (fold_left (@navigationStep sampleHost) events threeEntries).
Proof.
  intro events.
  assert (Hr : forallb isReplay events = true) by reflexivity.
  destruct (@replay_only_opens_stack_entries sampleHost events threeEntries
              threeEntries_ok Hr) as (Hs & Hok & _).
  split; [exact threeEntries_ok |]. split; [exact Hr |].
  split; [exact Hs | exact Hok].
Defined.

(** X3, on the sample host: three entries, the cursor on the middle one. *)
Lemma forward_then_back_witness :
  0 <= editorNavigationStackIndex threeEntriesAtMiddle
  /\ editorNavigationStackIndex threeEntriesAtMiddle + 1
     < Z.of_nat (length (editorNavigationStack threeEntriesAtMiddle))
  /\ editorNavigationStackIndex (back (forward threeEntriesAtMiddle)) = 1
  /\ calls (back (forward threeEntriesAtMiddle))
     = [CallOpenEditor (liveEntry 2 (Some 2%nat));
        CallOpenEditor (liveEntry 1 (Some 1%nat))].
Proof.
  assert (H0 : 0 <= editorNavigationStackIndex threeEntriesAtMiddle)
    by (vm_compute; discriminate).
  assert (H1 : editorNavigationStackIndex threeEntriesAtMiddle + 1
               < Z.of_nat (length (editorNavigationStack threeEntriesAtMiddle)))
    by reflexivity.
  destruct (forward_then_back threeEntriesAtMiddle H0 H1)
    as (current & next & Hc & Hn & _ & Hidx & Hcalls).
  injection Hc as <-. injection Hn as <-.
  split; [exact H0 |]. split; [exact H1 |]. split; [exact Hidx |].
  exact Hcalls.
Defined.

(** X4, on the sample host: the cursor on the last of three entries, the
    one before it visited last. *)
Lemma last_twice_returns_witness :
  0 <= editorNavigationStackIndex threeEntries
    < Z.of_nat (length (editorNavigationStack threeEntries))
  /\ 0 <= lastEditorNavigationStackIndex threeEntries
       < Z.of_nat (length (editorNavigationStack threeEntries))
  /\ editorNavigationStackIndex (last threeEntries) = 1
  /\ editorNavigationStackIndex (last (last threeEntries)) = 2
  /\ calls (last (last threeEntries))
     = [CallOpenEditor (liveEntry 1 (Some 1%nat));
        CallOpenEditor (liveEntry 2 (Some 2%nat))].
Proof.
  assert (Hi : 0 <= editorNavigationStackIndex threeEntries
                 < Z.of_nat (length (editorNavigationStack threeEntries)))
    by (split; [vm_compute; discriminate | reflexivity]).
  assert (Hl : 0 <= lastEditorNavigationStackIndex threeEntries
                 < Z.of_nat (length (editorNavigationStack threeEntries)))
    by (split; [vm_compute; discriminate | reflexivity]).
  destruct (last_twice_returns threeEntries Hi Hl)
    as (current & previous & Hc & Hp & H1 & _ & _ & H2 & _ & Hcalls).
  injection Hc as <-. injection Hp as <-.
  split; [exact Hi |]. split; [exact Hl |]. split; [exact H1 |].
  split; [exact H2 | exact Hcalls].
Defined.

(** X5, on the sample host: the first editor of a window, shown by a pane
    without selections, and the same event once more; first for an editor
    that the matcher recognises in its stored form, then for one that it
    does not. *)
Lemma editor_without_selection_witness :
  freshNavigation initialState
  /\ editorNavigationStack
       (@handleEventInEditorNavigationStack sampleHost
          (@handleEventInEditorNavigationStack sampleHost initialState
             (Some (paneShowing newEditor)) None)
          (Some (paneShowing newEditor)) None)
     = [mkEntry (Typed newEditor) None]
  /\ @matches sampleHost (OfRef (Typed remoteEditor))
       (@storedForm sampleHost remoteEditor) = false
  /\ editorNavigationStack
       (@handleEventInEditorNavigationStack sampleHost
          (@handleEventInEditorNavigationStack sampleHost initialState
             (Some (paneShowing remoteEditor)) None)
          (Some (paneShowing remoteEditor)) None)
     = [mkEntry (Untyped (mkResourceInput remoteURI None)) None;
        mkEntry (Untyped (mkResourceInput remoteURI None)) None].
Proof.
  assert (Hfresh : freshNavigation initialState)
    by (repeat split; reflexivity).
  split; [exact Hfresh |].
  destruct (proj2 (@editor_without_selection_is_pushed_unless_matched
                     sampleHost)
              initialState (paneShowing newEditor) newEditor Hfresh
              eq_refl eq_refl)
    as (_ & _ & Hsame & _).
  split; [exact (proj1 (Hsame eq_refl)) |].
  split; [reflexivity |].
  destruct (proj2 (@editor_without_selection_is_pushed_unless_matched
                     sampleHost)
              initialState (paneShowing remoteEditor) remoteEditor Hfresh
              eq_refl eq_refl)
    as (_ & _ & _ & Hother).
  exact (proj1 (Hother eq_refl)).
Defined.

(** X6, on the sample host: a burst with an edit in its middle. *)
Lemma edit_in_burst_witness :
  In EDIT [USER; EDIT; NAVIGATION]
  /\ lastEditLocation
       (@onSelectionBurst sampleHost initialState notesPane
          [USER; EDIT; NAVIGATION])
     = Some (mkEntry (Typed notesEditor) (Some 12%nat)).
Proof.
  assert (Hin : In EDIT [USER; EDIT; NAVIGATION])
    by (right; left; reflexivity).
  split; [exact Hin |].
  exact (proj1 (proj2 (@edit_in_burst_wins sampleHost))
           initialState notesPane notesEditor [USER; EDIT; NAVIGATION]
           eq_refl Hin).
Defined.

(** X7, on the sample host: an edit in [notesEditor] is opened again. *)
Lemma last_edit_location_witness :
  liveInput notesPane = Some notesEditor
  /\ calls (openLastEditLocation
              (rememberLastEditLocation initialState notesPane))
     = [CallOpenEditor (mkEntry (Typed notesEditor) (Some 12%nat))].
Proof.
  split; [reflexivity |].
  exact (proj1 last_edit_location_is_replayed initialState notesPane
           notesEditor eq_refl).
Defined.

(** X8, on the sample host: the push of an editor without a resource. *)
Lemma stored_live_editor_witness :
  @preferResourceEditorInput sampleHost (Typed newEditor)
  = Some (Typed newEditor)
  /\ In (handle newEditor)
        (subscribed
           (editorNavigationStackListeners
              (@doAddOrReplaceInEditorNavigationStack sampleHost threeEntries
                 (Typed newEditor) (Some 100%nat) false))).
Proof.
  split; [reflexivity |].
  exact (@stored_live_editor_is_subscribed sampleHost threeEntries
           (Typed newEditor) (Some 100%nat) false (Typed newEditor) eq_refl).
Defined.

(** X9, on the sample host: editor 1 is on both sides of the cursor when a
    new editor is pushed. *)
Lemma dropped_branch_witness :
  In (liveEntry 1 (Some 1%nat))
     (editorNavigationStack
        (@doAddOrReplaceInEditorNavigationStack sampleHost sharedBranch
           (Typed newEditor) (Some 100%nat) false))
  /\ ~ In (handle (liveEditor 1))
          (subscribed
             (editorNavigationStackListeners
                (@doAddOrReplaceInEditorNavigationStack sampleHost
                   sharedBranch (Typed newEditor) (Some 100%nat) false))).
Proof.
  assert (Hother : forall e : EditorInput,
             Typed newEditor = Typed e ->
             handle e <> handle (liveEditor 1)).
  { intros e He. injection He as <-. vm_compute. discriminate. }
  assert (Hkept : In (liveEntry 1 (Some 1%nat))
                     (firstn (Z.to_nat (editorNavigationStackIndex sharedBranch
                                        + 1))
                             (editorNavigationStack sharedBranch)))
    by (left; reflexivity).
  assert (Hdropped : In (liveEntry 1 (Some 30%nat))
                        (skipn (Z.to_nat
                                  (editorNavigationStackIndex sharedBranch + 1))
                               (editorNavigationStack sharedBranch)))
    by (left; reflexivity).
  destruct (@dropped_branch_unsubscribes_kept_editor sampleHost sharedBranch
              (Typed newEditor) (Some 100%nat) (Typed newEditor)
              (liveEditor 1) (liveEntry 1 (Some 1%nat))
              (liveEntry 1 (Some 30%nat))
              sharedBranch_ok eq_refl eq_refl Hother Hkept Hdropped
              eq_refl eq_refl)
    as (Hin & _ & Hunsub).
  split; [exact Hin | exact Hunsub].
Defined.

(** X10, on the sample host: a file on the stack is renamed. *)
Lemma move_replaces_entries_witness :
  snd (@removeFromEditorNavigationStack sampleHost stackWithFile
         (OfOperation fileRenamed)) = true
  /\ editorNavigationStack
       (@moveInEditorNavigationStack sampleHost stackWithFile fileRenamed)
     = [liveEntry 2 (Some 2%nat);
        mkEntry (Untyped (mkResourceInput renamedFileURI None)) None]
  /\ editorNavigationStackIndex
       (@moveInEditorNavigationStack sampleHost stackWithFile fileRenamed)
     = 1.
Proof.
  split; [reflexivity |].
  destruct (proj1 (proj2 (@move_replaces_entries_by_target sampleHost
                            stackWithFile fileRenamed))
              (mkTarget renamedFileURI true)
              (Untyped (mkResourceInput renamedFileURI None))
              eq_refl eq_refl eq_refl stackWithFile_ok eq_refl eq_refl)
    as (Hs & Hi & _).
  split; [exact Hs | exact Hi].
Defined.

(** X11, on the sample host: the close of [notesEditor] in a fresh
    window. *)
Lemma close_events_witness :
  @toUntyped sampleHost (close_editor notesClosed)
  = Some (UntypedResource (mkResourceInput notesURI None))
  /\ fst (js_pop (recentlyClosedEditors
                    (@onDidCloseEditor sampleHost sampleWorkbench initialState
                       notesClosed 9)))
     = Some (mkClosed 9 None
               (UntypedResource (mkResourceInput notesURI None))
               (Some notesURI) [notesURI] 2 false).
Proof.
  split; [reflexivity |].
  exact (proj2 (proj1 (proj2 (@close_events_are_recorded_within_bound
                                sampleHost sampleWorkbench))
                  initialState notesClosed 9%nat
                  (UntypedResource (mkResourceInput notesURI None))
                  eq_refl eq_refl eq_refl)).
Defined.

(** X12, on the sample host: twenty-one editors of distinct files are
    closed; the record of the first close is gone. *)
Lemma distinct_closes_witness :
  @distinctCloses sampleHost sampleWorkbench [] twentyOneCloses = true
  /\ length (recentlyClosedEditors
               (@closeAll sampleHost sampleWorkbench initialState
                  twentyOneCloses)) = 20%nat
  /\ map oid (recentlyClosedEditors
                (@closeAll sampleHost sampleWorkbench initialState
                   twentyOneCloses))
     = seq 1 20.
Proof.
  assert (Hd : @distinctCloses sampleHost sampleWorkbench [] twentyOneCloses
               = true) by (vm_compute; reflexivity).
  destruct (@distinct_closes_keep_the_last_twenty sampleHost sampleWorkbench
              initialState twentyOneCloses eq_refl eq_refl Hd)
    as (_ & _ & Hfull).
  destruct (Hfull eq_refl) as (Hlen & Htl).
  split; [exact Hd |]. split; [exact Hlen |].
  rewrite Htl. vm_compute. reflexivity.
Defined.

(** X13, on the sample host: [notesEditor] is closed and reopened. *)
Lemma closed_editor_is_reopened_witness :
  @openYieldsPane sampleHost
    (UntypedResource (mkResourceInput notesURI None))
    (@expectedReopenOptions sampleHost (close_sticky notesClosed)
       (close_index notesClosed)) = true
  /\ exists st2,
       @reopenLastClosedEditor sampleHost 1
         (@onDidCloseEditor sampleHost sampleWorkbench initialState
            notesClosed 9)
       = Some st2
       /\ calls st2
          = [CallReopenLastClosedEditor;
             CallReopenEditor
               (UntypedResource (mkResourceInput notesURI None))
               (mkReopenOptions true false (Some 2) true)]
       /\ recentlyClosedEditors st2 = [].
Proof.
  split; [reflexivity |].
  destruct (@closed_editor_is_reopened_first sampleHost sampleWorkbench
              initialState notesClosed 9%nat
              (UntypedResource (mkResourceInput notesURI None)) 0%nat
              eq_refl eq_refl eq_refl eq_refl eq_refl)
    as (st2 & Hrun & Hcalls & Hclosed & _).
  exists st2. split; [exact Hrun |]. split; [exact Hcalls | exact Hclosed].
Defined.

(** X14, on the sample host: three closed editors, of which only the
    oldest opens again. *)
Lemma reopen_touches_only_the_closed_buffer_witness :
  NoDup (map oid (recentlyClosedEditors threeClosedEditors))
  /\ exists st',
       @reopenLastClosedEditor sampleHost 4 threeClosedEditors = Some st'
       /\ editorNavigationStack st' = editorNavigationStack threeClosedEditors
       /\ history st' = history threeClosedEditors
       /\ ignoreEditorCloseEvent st' = false.
Proof.
  assert (Hnodup : NoDup (map oid (recentlyClosedEditors threeClosedEditors))).
  { change (NoDup [1; 2; 3]%nat).
    repeat (constructor; [cbn [In]; intros H; intuition discriminate |]).
    constructor. }
  split; [exact Hnodup |].
  destruct (@reopen_touches_only_the_closed_buffer sampleHost
              threeClosedEditors Hnodup)
    as (st' & Hrun & Hs & _ & _ & Hh & _ & _ & Hignore & _).
  exists st'. split; [exact Hrun |]. split; [exact Hs |].
  split; [exact Hh | exact (Hignore eq_refl)].
Defined.

(** X15, on the sample host: a folder is deleted in the explorer. *)
Lemma file_events_witness :
  operation folderDeleted = DELETE
  /\ @onDidFilesChange sampleHost sampleWorkbench stackWithFile
       (inr folderDeleted)
     = @remove sampleHost stackWithFile (OfOperation folderDeleted)
  /\ forallb (fun entry =>
                negb (@matches sampleHost (OfOperation folderDeleted)
                        (entry_editor entry)))
             (editorNavigationStack
                (@remove sampleHost stackWithFile (OfOperation folderDeleted)))
     = true.
Proof.
  split; [reflexivity |]. split.
  - exact (proj1 (proj2 (proj2 (@file_events_clear_every_stack sampleHost
                                  sampleWorkbench))
                    stackWithFile folderDeleted)
             eq_refl).
  - exact (proj1 (proj1 (@file_events_clear_every_stack sampleHost
                           sampleWorkbench)
                    stackWithFile (OfOperation folderDeleted))).
Defined.

(** X16, on a host with two opened editors: the stored entry of the file
    that is open is not taken a second time. *)
Lemma hydration_witness :
  history initialState = None
  /\ @loadedHistory (@ensureHistoryLoaded busyHost initialState)
     = [Untyped (mkResourceInput notesURI None); Typed (liveEditor 3);
        Untyped (mkResourceInput nestedFileURI None)].
Proof.
  split; [reflexivity |].
  exact (proj1 (proj2 (proj2 (proj2 (@hydration_puts_opened_editors_first
                                       busyHost initialState))))
           eq_refl).
Defined.

(** X17, on a host without opened editors: what is restored is what was
    stored. *)
Lemma saved_history_witness :
  @mostRecentlyActive restoredHost = []
  /\ forallb (@storable restoredHost) (@storedEditorHistory restoredHost)
     = true
  /\ @saveState (@loadHistory restoredHost initialState)
     = Some [mkResourceInput nestedFileURI None;
             mkResourceInput notesURI None].
Proof.
  split; [reflexivity |]. split; [reflexivity |].
  assert (Hlen : (length (@storedEditorHistory restoredHost) <= 200)%nat)
    by (cbn [storedEditorHistory restoredHost hostWith length]; lia).
  exact (proj2 (proj2 (proj2 (@saved_history_is_restored restoredHost))
                  initialState eq_refl eq_refl Hlen)).
Defined.

(** X18, on the sample host: a side by side editor is disposed; the
    descriptors of its sides take its place, and the older entry of one of
    the sides goes. *)
Lemma replaced_entry_witness :
  @sideBySide sampleWorkbench diffEditor = Some (rightEditor, leftEditor)
  /\ history (@replaceInHistory sampleHost historyWithDiff
                (OfRef (Typed diffEditor))
                (@sideResourceInputs sampleHost rightEditor leftEditor))
     = Some [Untyped (mkResourceInput notesURI None);
             Untyped (mkResourceInput
                        (fileURI ["home"; "project"; "right.ts"]%string) None);
             Untyped (mkResourceInput
                        (fileURI ["home"; "project"; "left.ts"]%string) None)].
Proof.
  split; [reflexivity |].
  exact (proj1 (proj2 (@replaced_entry_keeps_its_place sampleHost
                         sampleWorkbench))
           historyWithDiff (OfRef (Typed diffEditor))
           (@sideResourceInputs sampleHost rightEditor leftEditor)
           [Untyped (mkResourceInput notesURI None)]
           [Untyped (mkResourceInput
                       (fileURI ["home"; "project"; "left.ts"]%string) None)]
           (Typed diffEditor) eq_refl eq_refl eq_refl).
Defined.

(** X20, on the sample host: a file of the history is renamed. *)
Lemma moved_file_witness :
  existsb (@matches sampleHost (OfOperation fileRenamed))
          (@loadedHistory (@ensureHistoryLoaded sampleHost mixedHistory))
  = true
  /\ @loadedHistory (@moveInHistory sampleHost mixedHistory fileRenamed)
     = [Untyped (mkResourceInput renamedFileURI None); Typed (liveEditor 1);
        Untyped (mkResourceInput scratchURI None);
        Untyped (mkResourceInput (fileURI ["home"; "other"; "x.ts"]%string)
                   None)].
Proof.
  split; [reflexivity |].
  exact (proj1 (proj2 (@moved_file_is_promoted sampleHost mixedHistory
                         fileRenamed))
           (mkTarget renamedFileURI true) eq_refl eq_refl).
Defined.


(** X22, on the sample workbench of two folders: the folder of the most
    recent file of the history. *)
Lemma last_active_root_witness :
  snd (@getLastActiveWorkspaceRoot sampleHost sampleWorkbench mixedHistory
         (Some Schemas_file))
  = Some otherFolderURI
  /\ In otherFolderURI (@workspaceFolders sampleWorkbench).
Proof.
  split; [reflexivity |].
  assert (Hsound : forall resource folder : URI,
             @getWorkspaceFolder sampleWorkbench resource = Some folder ->
             In folder (@workspaceFolders sampleWorkbench)).
  { intros resource folder H. apply find_some in H. exact (proj1 H). }
  exact (proj1 (proj2 (proj2 (@last_active_root_is_a_workspace_folder
                                sampleHost sampleWorkbench mixedHistory
                                (Some Schemas_file))))
           Hsound otherFolderURI eq_refl).
Defined.

(** X25, on the sample host: an editor becomes active in a fresh window,
    and the same event arrives a second time. *)
Lemma repeated_active_editor_event_witness :
  let fresh := mkTracker initialState None false in
  let once := @onDidActiveEditorChange sampleHost fresh (Some newEditorActive) in
  @stillActive sampleHost fresh (Some newEditorActive) = false
  /\ loadedHistory (service once) = [Typed newEditor]
  /\ editorNavigationStack (service once) = [mkEntry (Typed newEditor) None]
  /\ lastActiveEditor once = Some (mkIdentifier newEditor 1)
  /\ @onDidActiveEditorChange sampleHost once (Some newEditorActive) = once.
Proof.
  intros fresh once.
  assert (Hnew : @stillActive sampleHost fresh (Some newEditorActive) = false)
    by reflexivity.
  destruct (@repeated_active_editor_event_is_ignored sampleHost)
    as (_ & Hhandled & Hagain & _).
  destruct (Hhandled fresh (Some newEditorActive) Hnew)
    as (Hservice & Hlast & _ & _).
  fold once in Hservice, Hlast.
  split; [exact Hnew |].
  split; [rewrite Hservice; reflexivity |].
  split; [rewrite Hservice; reflexivity |].
  split; [exact Hlast |].
  exact (proj2 (Hagain fresh newEditorActive newEditor 1
                  eq_refl eq_refl eq_refl)).
Defined.

(** X23, on two groups: a step from the editor that is active to the one
    used before it. *)
Lemma recently_used_step_witness :
  scopeEditors sampleGroups None initialRecentlyUsed <> []
  /\ groupOpens (openPreviouslyUsedEditor sampleGroups initialRecentlyUsed
                   None)
     = [(Some 2, liveEditor 2)]
  /\ scopeIndex sampleGroups None
       (openPreviouslyUsedEditor sampleGroups initialRecentlyUsed None)
     = 1.
Proof.
  assert (Hne : scopeEditors sampleGroups None initialRecentlyUsed <> [])
    by (vm_compute; discriminate).
  split; [exact Hne |].
  destruct (proj1 (recently_used_step_stays_in_the_list sampleGroups
                     initialRecentlyUsed None))
    as (_ & _ & _ & Hstep).
  destruct (Hstep Hne) as (Hidx & identifier & Hnth & Hopens & _).
  split; [| exact Hidx].
  rewrite Hidx in Hnth. vm_compute in Hnth. injection Hnth as <-.
  exact Hopens.
Defined.

(** X24, on two groups: a step, then a step the other way once editor 2
    has become the most recently active. *)
Lemma recently_used_walk_witness :
  let settled :=
    recentlyUsedSettle sampleGroups None
      (openPreviouslyUsedEditor sampleGroups initialRecentlyUsed None) in
  scopeEditors sampleGroups None initialRecentlyUsed <> []
  /\ scopeEditors groupsAfterStep None settled
     = allMostRecentlyActive sampleGroups
  /\ groupOpens (openNextRecentlyUsedEditor groupsAfterStep settled None)
     = [(Some 2, liveEditor 2); (Some 1, liveEditor 1)]
  /\ scopeStack groupsAfterStep None
       (handleEditorEventInRecentEditorsStack settled) = None.
Proof.
  intro settled.
  assert (Hne : scopeEditors sampleGroups None initialRecentlyUsed <> [])
    by (vm_compute; discriminate).
  split; [exact Hne |].
  destruct (recently_used_walk_keeps_its_snapshot sampleGroups groupsAfterStep
              initialRecentlyUsed None Hne eq_refl)
    as (He & _ & _ & _ & (identifier & Hnth & Hopens) & Hdrop & _).
  split; [exact He |]. split; [| exact Hdrop].
  vm_compute in Hnth. injection Hnth as <-. exact Hopens.
Defined.

(** X26, on the sample host: the cursor on the last of three entries. *)
Lemma context_keys_witness :
  navigationStackOk threeEntries
  /\ canNavigateBack (updateContextKeys threeEntries) = true
  /\ canNavigateForward (updateContextKeys threeEntries) = false
  /\ calls (back threeEntries) = [CallOpenEditor (liveEntry 1 (Some 1%nat))]
  /\ forward threeEntries = threeEntries.
Proof.
  destruct (@context_keys_tell_what_commands_do sampleHost threeEntries
              threeEntries_ok)
    as (_ & Hback & Hforward & _).
  destruct (Hback eq_refl) as (location & Hget & Hcalls).
  injection Hget as <-.
  split; [exact threeEntries_ok |]. split; [reflexivity |].
  split; [reflexivity |]. split; [exact Hcalls |].
  exact (Hforward eq_refl).
Defined.
